(** * potts: Polymer analysis to TypeScript declarations

    A shallow embedding of the three generators of the repository and the
    properties of its specification.

    - [Legacy]   : [src/index.js], one interface per element or behavior;
    - [PerFile]  : [src/unnamed/part_000], one declaration file per source
                   module ([--outDir]);
    - [Combined] : [src/unnamed/part_001], one combined declaration file
                   ([--outFile]).

    JavaScript strings are modelled by [string]: a character stands for the
    UTF-16 code unit of the same number.  The character classes of the
    regular expressions ([\s], [.], [\w]) and [toUpperCase] are the ASCII
    ones; code units above 127 are outside the modelled domain.

    A JavaScript [TypeError] (reading a member of [undefined] or [null],
    calling something that is not a function) is a result of its own,
    [Throws], in the type [completion]. *)

From Stdlib Require Import Bool Arith Lia List Ascii String Permutation.
Import ListNotations.

Local Open Scope list_scope.
Local Open Scope string_scope.

(* ===================================================================== *)
(** * Completions: a value or a thrown TypeError                          *)
(* ===================================================================== *)

Inductive completion (A : Type) : Type :=
| Returns (a : A)
| Throws.

Arguments Returns {A} a.
Arguments Throws {A}.

Definition bind {A B : Type} (c : completion A) (k : A -> completion B)
  : completion B :=
  match c with
  | Returns a => k a
  | Throws => Throws
  end.

Notation "x <- c ;; k" := (bind c (fun x => k))
  (at level 61, c at next level, right associativity).

(** [Array.prototype.map] with a callback that may throw: the first throw
    aborts the whole map. *)
Fixpoint mapM {A B : Type} (f : A -> completion B) (l : list A)
  : completion (list B) :=
  match l with
  | [] => Returns []
  | a :: l' => b <- f a ;; bs <- mapM f l' ;; Returns (b :: bs)
  end.

(** Reading a member of [o]: a TypeError when [o] is undefined. *)
Definition fromOption {A : Type} (o : option A) : completion A :=
  match o with
  | Some a => Returns a
  | None => Throws
  end.

(* ===================================================================== *)
(** * JavaScript string primitives                                        *)
(* ===================================================================== *)

Module JS.

(** [\s] of a regular expression, on ASCII: TAB, LF, VT, FF, CR, space. *)
Definition isSpace (c : ascii) : bool :=
  let n := nat_of_ascii c in
  (((9 <=? n) && (n <=? 13)) || (n =? 32))%nat.

(** The characters [.] does not match: LF and CR. *)
Definition isLineTerminator (c : ascii) : bool :=
  let n := nat_of_ascii c in
  ((n =? 10) || (n =? 13))%nat.

(** [\w]: letters, digits and the underscore. *)
Definition isWord (c : ascii) : bool :=
  let n := nat_of_ascii c in
  (((48 <=? n) && (n <=? 57)) || ((65 <=? n) && (n <=? 90))
   || (n =? 95) || ((97 <=? n) && (n <=? 122)))%nat.

(** [c.toUpperCase()] for one ASCII code unit. *)
Definition toUpperCase1 (c : ascii) : ascii :=
  let n := nat_of_ascii c in
  if ((97 <=? n) && (n <=? 122))%nat then ascii_of_nat (n - 32) else c.

Definition nl : string := String (ascii_of_nat 10) EmptyString.

(** [l.join(sep)] *)
Fixpoint join (sep : string) (l : list string) : string :=
  match l with
  | [] => ""
  | [x] => x
  | x :: l' => x ++ sep ++ join sep l'
  end.

(** [s.split("\n")]: always at least one piece. *)
Fixpoint splitLines (s : string) : list string :=
  match s with
  | EmptyString => [""]
  | String c s' =>
      if Ascii.eqb c (ascii_of_nat 10) then "" :: splitLines s'
      else match splitLines s' with
           | [] => [String c ""]
           | l :: ls => String c l :: ls
           end
  end.

(** [s.startsWith(p)] *)
Fixpoint startsWith (p s : string) : bool :=
  match p with
  | EmptyString => true
  | String a p' =>
      match s with
      | EmptyString => false
      | String b s' => Ascii.eqb a b && startsWith p' s'
      end
  end.

Fixpoint allSpace (s : string) : bool :=
  match s with
  | EmptyString => true
  | String c s' => isSpace c && allSpace s'
  end.

(** [s.replace(/\s*$/, "")]: the leftmost position from which only white
    space follows starts the match, so the trailing white space goes. *)
Fixpoint trimEnd (s : string) : string :=
  match s with
  | EmptyString => ""
  | String c s' => if allSpace s then "" else String c (trimEnd s')
  end.

Fixpoint trimStart (s : string) : string :=
  match s with
  | EmptyString => ""
  | String c s' => if isSpace c then trimStart s' else s
  end.

(** [s.trim()] *)
Definition trim (s : string) : string := trimEnd (trimStart s).

(** [sub] occurs in [s]. *)
Fixpoint includes (sub s : string) : bool :=
  startsWith sub s ||
  match s with
  | EmptyString => false
  | String _ s' => includes sub s'
  end.

(** JavaScript truthiness of a string, and of a possibly undefined one. *)
Definition nonEmpty (s : string) : bool :=
  match s with
  | EmptyString => false
  | String _ _ => true
  end.

Definition truthy (o : option string) : bool :=
  match o with
  | Some s => nonEmpty s
  | None => false
  end.

(** The double quote, and a text between double quotes. *)
Definition dq : string := String (ascii_of_nat 34) EmptyString.
Definition quoted (s : string) : string := dq ++ s ++ dq.

(** [" ".repeat(n)] *)
Fixpoint spaces (n : nat) : string :=
  match n with
  | O => EmptyString
  | S n' => String " " (spaces n')
  end.

(** [s.slice(n)] *)
Fixpoint skip (n : nat) (s : string) : string :=
  match n, s with
  | O, _ => s
  | S n', String _ s' => skip n' s'
  | S _, EmptyString => EmptyString
  end.

(** [s.split(".")]: always at least one piece. *)
Fixpoint splitDots (s : string) : list string :=
  match s with
  | EmptyString => [""]
  | String c s' =>
      if Ascii.eqb c "." then "" :: splitDots s'
      else match splitDots s' with
           | [] => [String c ""]
           | l :: ls => String c l :: ls
           end
  end.

(** The longest prefix of characters satisfying [p], and what follows. *)
Fixpoint span (p : ascii -> bool) (s : string) : string * string :=
  match s with
  | EmptyString => (EmptyString, EmptyString)
  | String c s' =>
      if p c then let (a, b) := span p s' in (String c a, b)
      else (EmptyString, s)
  end.

End JS.

(* ===================================================================== *)
(** * Maps that keep insertion order                                      *)
(* ===================================================================== *)

(** A JavaScript [Map], or a plain object used as a map, holding an array
    per key: [Map.prototype.entries] and [Object.keys] go by first
    insertion.  For a plain object only own properties are modelled, and
    keys that look like array indices (which [Object.keys] lists first)
    are left out: the keys here are module paths. *)
Definition buckets (V : Type) : Type := list (string * list V).

(** [if (!map[k]) map[k] = []; map[k].push(v)] *)
Fixpoint bucketPush {V : Type} (k : string) (v : V) (m : buckets V)
  : buckets V :=
  match m with
  | [] => [(k, [v])]
  | (k', b) :: m' =>
      if String.eqb k' k then (k', (b ++ [v])%list) :: m'
      else (k', b) :: bucketPush k v m'
  end.

(** [l.reduce((map, v) => push under key(v), empty)] *)
Definition groupBy {V : Type} (key : V -> string) (l : list V) : buckets V :=
  fold_left (fun m v => bucketPush (key v) v m) l [].

(* ===================================================================== *)
(** * Module key rewriting (part_000 and part_001)                        *)
(* ===================================================================== *)

(** [file.replace(new RegExp("(bower_components|node_modules)\/"),
    (_, repo) => repos[repo])]: the expression is not anchored, so the
    leftmost occurrence of either directory name followed by a slash is
    replaced, wherever it stands; nothing else changes. *)
Fixpoint replaceRepo (file : string) : string :=
  if JS.startsWith "bower_components/" file
  then "bower:" ++ JS.skip 17 file
  else if JS.startsWith "node_modules/" file
  then "npm:" ++ JS.skip 13 file
  else match file with
       | EmptyString => EmptyString
       | String c rest => String c (replaceRepo rest)
       end.

(* ===================================================================== *)
(** * Identifier casing (shared by the three generators)                  *)
(* ===================================================================== *)

(** [name.replace(/(?:^|-)(.)/g, (_, m) => m.toUpperCase())], past the
    first position: there [^] cannot match, so a match is a hyphen and
    the character after it, which [.] accepts unless it is a line
    terminator.  The search resumes after the match. *)
Fixpoint camelRest (s : string) : string :=
  match s with
  | EmptyString => EmptyString
  | String c s' =>
      match s' with
      | EmptyString => String c EmptyString
      | String d r =>
          if Ascii.eqb c "-" && negb (JS.isLineTerminator d)
          then String (JS.toUpperCase1 d) (camelRest r)
          else String c (camelRest s')
      end
  end.

(** At the first position the alternative [^] is tried first, and takes
    the first character whatever it is (a hyphen too). *)
Definition camelCase (name : string) : string :=
  match name with
  | EmptyString => EmptyString
  | String c r =>
      if JS.isLineTerminator c then String c (camelRest r)
      else String (JS.toUpperCase1 c) (camelRest r)
  end.

(** No two hyphens in a row. *)
Fixpoint noDoubleHyphen (s : string) : bool :=
  match s with
  | EmptyString => true
  | String c s' =>
      match s' with
      | String d _ => negb (Ascii.eqb c "-" && Ascii.eqb d "-")
      | EmptyString => true
      end && noDoubleHyphen s'
  end.

(* ===================================================================== *)
(** * The combined-file generator (src/unnamed/part_001)                  *)
(* ===================================================================== *)

Module Combined.

Definition supportedFeatures : list string :=
  ["element"; "element-mixin"; "behavior"].

(** ** Analyzer records, with the fields the generator reads.  A field the
    analyzer may leave undefined is an [option]. *)

Record Tag : Type := mkTag {
  tag_title : string;
  tag_type : option (option string);  (* [tag.type], then [tag.type.name] *)
  tag_name : option string;
  tag_description : option string
}.

Record JSDoc : Type := mkJSDoc {
  doc_description : option string;
  doc_tags : option (list Tag)
}.

Record Param : Type := mkParam {
  param_name : string;
  param_type : option string
}.

Record Method : Type := mkMethod {
  method_name : string;
  method_privacy : string;
  method_params : option (list Param);
  method_return : option (option string); (* [return], then [return.type] *)
  method_jsdoc : option JSDoc
}.

Record Property : Type := mkProperty {
  prop_name : string;
  prop_privacy : string;
  prop_type : option string;
  prop_jsdoc : option JSDoc
}.

Record Feature : Type := mkFeature {
  kinds : list string;
  identifiers : list string;
  jsdoc : option JSDoc;
  sourceFile : string;                    (* [sourceRange.file] *)
  methods : option (list Method);
  properties : option (list Property)
}.

(** ** parseType *)

Definition primitives : list string :=
  ["Date"; "string"; "boolean"; "number"; "Symbol"].

(** [if (/^[!?]/.test(type)) type = type.slice(1)] *)
Definition stripMarker (type : string) : string :=
  match type with
  | String c rest =>
      if Ascii.eqb c "!" || Ascii.eqb c "?" then rest else type
  | EmptyString => type
  end.

(** [if (/=$/.test(type)) type = type.slice(0, -1)] *)
Fixpoint stripDefault (type : string) : string :=
  match type with
  | EmptyString => EmptyString
  | String c rest =>
      match rest with
      | EmptyString => if Ascii.eqb c "=" then EmptyString else type
      | String _ _ => String c (stripDefault rest)
      end
  end.

Definition baseName (type : string) : string :=
  stripDefault (stripMarker type).

(** An undefined [type] is tested as the text [undefined] by both regular
    expressions, matches neither, and falls to [any]. *)
Definition parseType (type : option string) (forceArray : bool) : string :=
  let mapped :=
    match type with
    | None => "any"
    | Some t =>
        let b := baseName t in
        if String.eqb b "Array" then b ++ "<any>"
        else if negb (existsb (String.eqb b) primitives) then "any"
        else b
    end in
  if forceArray then "Array<" ++ mapped ++ ">" else mapped.

(** ** indent *)

Inductive Tabs : Type :=
| Width (n : nat)        (* [typeof tabs === "number"] *)
| Lead (s : string).

Definition indentString (tabs : Tabs) : string :=
  match tabs with
  | Width n => JS.spaces n
  | Lead s => s
  end.

Definition isWidth (tabs : Tabs) : bool :=
  match tabs with
  | Width _ => true
  | Lead _ => false
  end.

(** [indent(tabs)] applied to the text its chunks and values make up. *)
Definition indent (tabs : Tabs) (src : string) : string :=
  JS.join JS.nl
    (map (fun line =>
            if JS.allSpace line && isWidth tabs then ""
            else JS.trimEnd (indentString tabs ++ line))
         (JS.splitLines src)).

(** ** printJSdoc *)

(** [(tag) => tag.title !== "type" || tag.type.name] *)
Definition keepTag (tag : Tag) : completion bool :=
  if negb (String.eqb (tag_title tag) "type") then Returns true
  else match tag_type tag with
       | None => Throws
       | Some name => Returns (JS.truthy name)
       end.

Fixpoint filterM {A : Type} (f : A -> completion bool) (l : list A)
  : completion (list A) :=
  match l with
  | [] => Returns []
  | a :: l' =>
      keep <- f a ;; rest <- filterM f l' ;;
      Returns (if keep then a :: rest else rest)
  end.

Definition orEmpty (o : option string) : string :=
  match o with
  | Some s => s
  | None => EmptyString
  end.

(** [tag.type && tag.type.name ? [ `{${tag.type.name}}` ] : []] *)
Definition typeHint (tag : Tag) : list string :=
  match tag_type tag with
  | Some (Some name) => if JS.nonEmpty name then ["{" ++ name ++ "}"] else []
  | _ => []
  end.

(** The pieces of a tag line; [filter((t) => !!t)] drops the undefined and
    the empty ones. *)
Definition printTag (tag : Tag) : string :=
  JS.nl ++ " * @" ++
  JS.join " "
    (filter JS.nonEmpty
       (tag_title tag
        :: app (typeHint tag)
             [orEmpty (tag_name tag);
              JS.trim (orEmpty (tag_description tag))])).

Definition printJSdoc (doc : JSDoc) : completion string :=
  nonEmptyTags <-
    match doc_tags doc with
    | None => Returns None
    | Some tags => kept <- filterM keepTag tags ;; Returns (Some kept)
    end ;;
  if JS.truthy (doc_description doc)
     || match nonEmptyTags with Some (_ :: _) => true | _ => false end
  then
    text <- match doc_description doc with
            | Some d => Returns (JS.trim d)
            | None => Throws
            end ;;
    gap <- (if JS.nonEmpty text
            then match nonEmptyTags with
                 | Some (_ :: _) => Returns (JS.nl ++ " *")
                 | Some [] => Returns EmptyString
                 | None => Throws
                 end
            else Returns EmptyString) ;;
    tags <- match nonEmptyTags with
            | Some tags => Returns tags
            | None => Throws
            end ;;
    Returns (JS.nl ++ "/**" ++ indent (Lead " * ") text ++ gap
             ++ String.concat "" (map printTag tags) ++ JS.nl ++ " */")
  else Returns EmptyString.

(** ** printMethod, printProperty *)

Definition printParam (p : Param) : string :=
  param_name p ++ ": "
  ++ parseType (param_type p) (JS.startsWith "..." (param_name p)).

Definition printMethod (method : Method) : completion string :=
  let returnType :=
    match method_return method with
    | Some type => ": " ++ parseType type false
    | None => EmptyString
    end in
  doc <- fromOption (method_jsdoc method) ;;
  JSDoc <- printJSdoc doc ;;
  ps <- fromOption (method_params method) ;;
  let params := JS.join ", " (map printParam ps) in
  Returns (indent (Width 4)
             (JSDoc ++ JS.nl ++ method_name method
              ++ "(" ++ params ++ ")" ++ returnType ++ ";")).

Definition printProperty (property : Property) : completion string :=
  doc <- fromOption (prop_jsdoc property) ;;
  JSDoc <- printJSdoc doc ;;
  type <- fromOption (prop_type property) ;;
  Returns (indent (Width 4)
             (JSDoc ++ JS.nl ++ prop_name property
              ++ (if JS.startsWith "?" type then "?" else "")
              ++ ": " ++ parseType (Some type) false ++ ";")).

(** ** Declarations *)

Record Declaration : Type := mkDeclaration {
  decl_namespace : option string;
  decl_name : string;
  decl_jsDoc : JSDoc;
  decl_kinds : list string;
  decl_fileName : string;
  decl_module : string;
  decl_methods : option (list string);
  decl_properties : option (list string)
}.

Definition printElement (d : Declaration) : completion string :=
  doc <- printJSdoc (decl_jsDoc d) ;;
  ps <- fromOption (decl_properties d) ;;
  ms <- fromOption (decl_methods d) ;;
  Returns (indent (Width 2) doc ++ JS.nl
           ++ "  export class " ++ decl_name d ++ " {"
           ++ JS.join JS.nl ps ++ JS.join JS.nl ms ++ JS.nl
           ++ "  }").

Definition printBehavior (d : Declaration) : completion string :=
  doc <- printJSdoc (decl_jsDoc d) ;;
  ps <- fromOption (decl_properties d) ;;
  ms <- fromOption (decl_methods d) ;;
  Returns (indent (Width 2) doc ++ JS.nl
           ++ "  export interface " ++ decl_name d ++ " {"
           ++ JS.join JS.nl ps ++ JS.join JS.nl ms ++ JS.nl
           ++ "    new (...args): " ++ decl_name d ++ ";" ++ JS.nl
           ++ "  }" ++ JS.nl
           ++ "  export const " ++ decl_name d ++ ": " ++ decl_name d ++ ";").

Definition printMixin (d : Declaration) : completion string :=
  doc <- printJSdoc (decl_jsDoc d) ;;
  ps <- fromOption (decl_properties d) ;;
  ms <- fromOption (decl_methods d) ;;
  Returns (indent (Width 2) doc ++ JS.nl
           ++ "  export function " ++ decl_name d
           ++ "<T extends object>(Base: { new (...args: any[]): T }): {"
           ++ JS.nl
           ++ "    new (...args: any[]): T & {"
           ++ indent (Width 2) (JS.join JS.nl ps ++ JS.join JS.nl ms)
           ++ JS.nl
           ++ "    }" ++ JS.nl
           ++ "  };").

(** ** filterFeatures *)

Definition isSupported (kind : string) : bool :=
  existsb (String.eqb kind) supportedFeatures.

Definition filterFeatures (feature : Feature) : bool :=
  existsb isSupported (kinds feature).

(** ** getFeatureDetails *)

Fixpoint firstLine (s : string) : string :=
  match s with
  | EmptyString => EmptyString
  | String c s' =>
      if JS.isLineTerminator c then EmptyString else String c (firstLine s')
  end.

(** The groups 1 and 2 of [id.match(re)], where [re] is an optional
    [([\w]+)\.] followed by a greedy capture of any characters but line
    terminators.  The longest run of word characters at the start is the
    namespace when a dot follows it; the identifier is the rest of the
    first line. *)
Definition matchIdentifier (id : string) : option string * string :=
  let (word, rest) := JS.span JS.isWord id in
  match word, rest with
  | String _ _, String c rest' =>
      if Ascii.eqb c "." then (Some word, firstLine rest')
      else (None, firstLine id)
  | _, _ => (None, firstLine id)
  end.

Definition isPublic (privacy : string) : bool := String.eqb privacy "public".

Definition keepMethod (m : Method) : bool := isPublic (method_privacy m).

(** The two property filters, one after the other. *)
Definition notConditional (p : Property) : bool :=
  match prop_type p with
  | Some t => negb (String.eqb t "Conditional")
  | None => true
  end.

Definition keepProperty (p : Property) : bool :=
  isPublic (prop_privacy p) && notConditional p.

Definition namespaceTag (namespace : string) : Tag :=
  mkTag "namespace" None (Some namespace) None.

Definition getFeatureDetails (feature : Feature) : completion Declaration :=
  let (namespace, identifier) :=
    matchIdentifier (orEmpty (hd_error (identifiers feature))) in
  let name := camelCase identifier in
  let jsDoc :=
    match jsdoc feature with
    | Some doc => doc
    | None => mkJSDoc None None
    end in
  let jsDoc :=
    match namespace with
    | Some ns =>
        if JS.nonEmpty ns
        then mkJSDoc (doc_description jsDoc)
               (Some (app (match doc_tags jsDoc with
                           | Some tags => tags
                           | None => []
                           end) [namespaceTag ns]))
        else jsDoc
    | None => jsDoc
    end in
  ms <- match methods feature with
        | Some ms =>
            printed <- mapM printMethod (filter keepMethod ms) ;;
            Returns (Some printed)
        | None => Returns None
        end ;;
  ps <- match properties feature with
        | Some ps =>
            printed <- mapM printProperty
                         (filter notConditional
                            (filter (fun p => isPublic (prop_privacy p)) ps)) ;;
            Returns (Some printed)
        | None => Returns None
        end ;;
  Returns (mkDeclaration namespace name jsDoc (kinds feature)
             (sourceFile feature) (replaceRepo (sourceFile feature)) ms ps).

(** ** The pipeline *)

Definition hasKind (kind : string) (d : Declaration) : bool :=
  existsb (String.eqb kind) (decl_kinds d).

Definition printDeclaration (d : Declaration) : completion string :=
  if hasKind "element" d then printElement d
  else if hasKind "behavior" d then printBehavior d
  else if hasKind "element-mixin" d then printMixin d
  else Returns EmptyString.

(** One entry of the module map: [declare module] and its contents. *)
Definition printModule (entry : string * list Declaration)
  : completion string :=
  let (path, contents) := entry in
  printed <- mapM printDeclaration contents ;;
  Returns (JS.nl ++ "declare module " ++ JS.quoted path ++ " {"
           ++ String.concat "" printed ++ JS.nl ++ "}").

(** The module map: [data.reduce] into a [Map] keyed by [mod.module]. *)
Definition toModulesMap (data : list Declaration) : buckets Declaration :=
  groupBy decl_module data.

(** What [fs.writeFileSync(cli.outFile, ...)] receives, [None] when the
    guard [types.length] keeps the handler from writing. *)
Definition writeTypes (data : buckets Declaration)
  : completion (option string) :=
  blocks <- mapM printModule data ;;
  let types := JS.join JS.nl blocks in
  Returns (if Nat.eqb (String.length types) 0 then None
           else Some (JS.trim types ++ JS.nl)).

(** From the analyzed features to the written file. *)
Definition generate (features : list Feature) : completion (option string) :=
  data <- mapM getFeatureDetails (filter filterFeatures features) ;;
  writeTypes (toModulesMap data).

End Combined.

(* ===================================================================== *)
(** * The per-file generator (src/unnamed/part_000)                       *)
(* ===================================================================== *)

Module PerFile.

Definition supportedFeatures : list string :=
  ["element"; "element-mixin"; "namespace"; "function"; "behavior"].

Record Param : Type := mkParam {
  param_name : string
}.

Record Property : Type := mkProperty {
  prop_name : string;
  prop_type : option string;
  prop_readOnly : bool;
  prop_params : option (list Param);
  prop_description : option string;
  prop_private : bool
}.

Record Feature : Type := mkFeature {
  kinds : list string;
  className : option string;
  tagName : option string;
  sourceFile : string;                    (* [sourceRange.file] *)
  description : option string;
  properties : option (list Property)
}.

(** ** cast *)

Definition primitives : list string := ["string"; "number"; "boolean"].

Definition polymerVoidMethods : list string :=
  ["created"; "ready"; "attached"; "detached"; "attributeChanged";
   "connectedCallback"; "disconnectedCallback"; "attributeChangedCallback";
   "updateStyles"; "linkPaths"; "unlinkPaths"; "notifySplices"; "set";
   "setProperties"].

(** The pair [returnType], [methodParams] of the object [cast] returns;
    [methodParams] is undefined except for a [Function].  An undefined
    [type] is no primitive, no [Function] and no [Array]. *)
Definition cast (name : string) (type : option string)
    (params : option (list Param)) : string * option (list string) :=
  match type with
  | Some t =>
      if existsb (String.eqb t) primitives then (t, None)
      else if String.eqb t "Function" then
        (if existsb (String.eqb name) polymerVoidMethods
         then "void" else "any",
         Some (map (fun param => param_name param ++ ": any")
                 match params with
                 | Some ps => ps
                 | None => []
                 end))
      else (if String.eqb t "Array" then "Array<any>" else "any", None)
  | None => ("any", None)
  end.

(** ** filterFeatures *)

Definition isSupported (kind : string) : bool :=
  existsb (String.eqb kind) supportedFeatures.

Definition filterFeatures (feature : Feature) : bool :=
  existsb isSupported (kinds feature).

(** ** getFeatureDetails *)

Record Member : Type := mkMember {
  member_jsDoc : option string;
  member_readonly : string;
  member_type : string;
  member_params : option (list string);
  member_name : string
}.

Record Descriptor : Type := mkDescriptor {
  desc_namespace : option string;
  desc_name : string;
  desc_module : string;
  desc_jsdoc : option string;
  desc_properties : list Member
}.

(** [description ? description.trim() : null] *)
Definition trimmed (description : option string) : option string :=
  if JS.truthy description
  then match description with
       | Some d => Some (JS.trim d)
       | None => None
       end
  else None.

Definition toMember (p : Property) : Member :=
  let (returnType, methodParams) :=
    cast (prop_name p) (prop_type p) (prop_params p) in
  mkMember (trimmed (prop_description p))
    (if prop_readOnly p then "readonly " else "")
    returnType methodParams (prop_name p).

(** The member every interface ends with. *)
Definition constructorMember (camelName : string) : Member :=
  mkMember (Some EmptyString) "" camelName (Some []) "new".

(** [parts.slice(0, -1)] *)
Definition allButLast (parts : list string) : list string := removelast parts.

(** [parts.slice(-1)[0]] *)
Definition lastPart (parts : list string) : string := last parts EmptyString.

(** [cNameParts] is an array exactly when [className] is a non-empty text;
    otherwise the name is [tagName], and [name.replace] throws when that is
    undefined. *)
Definition splitName (feature : Feature)
  : completion (option string * string) :=
  match className feature with
  | Some (String _ _ as cls) =>
      let cNameParts := JS.splitDots cls in
      Returns (Some (JS.join "." (allButLast cNameParts)), lastPart cNameParts)
  | _ =>
      match tagName feature with
      | Some tag => Returns (None, tag)
      | None => Throws
      end
  end.

Definition isPublic (p : Property) : bool := negb (prop_private p).

Definition getFeatureDetails (feature : Feature) : completion Descriptor :=
  split <- splitName feature ;;
  let (namespace, name) := split : option string * string in
  let camelName := camelCase name in
  ps <- match properties feature with
        | Some ps => Returns ps
        | None => Throws          (* [feature.properties.filter] *)
        end ;;
  Returns (mkDescriptor namespace camelName (sourceFile feature)
             (trimmed (description feature))
             (app (map toMember (filter isPublic ps))
                [constructorMember camelName])).

(** ** toModulesMap *)

Definition modulePath (feature : Descriptor) : string :=
  replaceRepo (desc_module feature)
  ++ (if JS.truthy (desc_namespace feature)
      then "#" ++ match desc_namespace feature with
                  | Some ns => ns
                  | None => EmptyString
                  end
      else "").

Definition toModulesMap (features : list Descriptor) : buckets Descriptor :=
  groupBy modulePath features.

(** ** reindent *)

(** [.replace(/\t/g, "  ")] *)
Fixpoint replaceTabs (s : string) : string :=
  match s with
  | EmptyString => EmptyString
  | String c s' =>
      if Ascii.eqb c (ascii_of_nat 9) then "  " ++ replaceTabs s'
      else String c (replaceTabs s')
  end.

(** What is owed to the output when a run of white space that follows a
    line feed ends: the line feed, and the part of the run after its last
    line feed. *)
Definition flush (pending : option string) : string :=
  match pending with
  | Some p => JS.nl ++ p
  | None => EmptyString
  end.

(** [.replace(/\n(\s*\n)+/g, "\n")]: a match starts at a line feed and
    runs to the last line feed of the white space after it, if there is
    one there.  Either way the output is the line feed and what follows
    the last line feed of that white space.  [pending] is that part,
    while inside such a run. *)
Fixpoint collapse (pending : option string) (s : string) : string :=
  match s with
  | EmptyString => flush pending
  | String c s' =>
      if Ascii.eqb c (ascii_of_nat 10) then collapse (Some EmptyString) s'
      else if JS.isSpace c then
        match pending with
        | Some p => collapse (Some (p ++ String c "")) s'
        | None => String c (collapse None s')
        end
      else flush pending ++ String c (collapse None s')
  end.

(** The third replacement: one leading line feed goes, and the white
    space at the end. *)
Definition trimBlock (s : string) : string :=
  JS.trimEnd match s with
             | String c s' => if Ascii.eqb c (ascii_of_nat 10) then s' else s
             | EmptyString => s
             end.

(** Where the search of [str.match(/^(\s)*/mg)] stands: at the start of a
    line, inside the white space of a match ([n] characters so far, the
    last of them a line terminator or not), or further in a line. *)
Inductive Scan : Type :=
| AtStart
| InRun (n : nat) (afterTerminator : bool)
| Inside.

(** The lengths of the matches.  A match is the white space that starts a
    line, line terminators included, and may be empty; the search
    resumes where it ends, one character further when it is empty. *)
Fixpoint indents (state : Scan) (s : string) : list nat :=
  match s with
  | EmptyString =>
      match state with
      | AtStart => [0]
      | InRun n afterTerminator => n :: (if afterTerminator then [0] else [])
      | Inside => []
      end
  | String c s' =>
      match state with
      | AtStart =>
          if JS.isSpace c then indents (InRun 1 (JS.isLineTerminator c)) s'
          else 0 :: indents Inside s'
      | InRun n afterTerminator =>
          if JS.isSpace c
          then indents (InRun (S n) (JS.isLineTerminator c)) s'
          else n :: (if afterTerminator then 0 :: indents Inside s'
                     else indents Inside s')
      | Inside =>
          indents (if JS.isLineTerminator c then AtStart else Inside) s'
      end
  end.

(** [Math.min.apply(null, lengths)], the list having an element. *)
Definition minimum (l : list nat) : nat :=
  match l with
  | [] => 0
  | n :: l' => fold_left Nat.min l' n
  end.

(** The last replacement: [tabStart] is [n] spaces, removed wherever they
    start a line.  [toSkip] counts the spaces of a match still to drop. *)
Fixpoint unindent (n toSkip : nat) (atStart : bool) (s : string) : string :=
  match s with
  | EmptyString => EmptyString
  | String c s' =>
      match toSkip with
      | S k => unindent n k false s'
      | O =>
          if atStart && Nat.ltb 0 n && JS.startsWith (JS.spaces n) s
          then unindent n (n - 1) false s'
          else String c (unindent n 0 (JS.isLineTerminator c) s')
      end
  end.

(** [reindent] applied to the text its chunks and values make up. *)
Definition reindent (src : string) : string :=
  let str := trimBlock (collapse None (replaceTabs src)) in
  unindent (minimum (indents AtStart str)) 0 true str.

(** ** buildModules *)

(** A doc comment, [pad] being the indentation of its first line. *)
Definition docBlock (pad : nat) (doc : option string) : string :=
  match doc with
  | Some (String _ _ as text) =>
      JS.nl ++ JS.spaces pad ++ "/**"
      ++ String.concat ""
           (map (fun line =>
                   JS.nl ++ JS.spaces (S pad) ++ "*"
                   ++ (if JS.nonEmpty line then " " ++ line else ""))
              (JS.splitLines text))
      ++ JS.nl ++ JS.spaces (S pad) ++ "*/"
  | _ => EmptyString
  end.

Definition memberText (m : Member) : string :=
  JS.nl ++ JS.spaces 10 ++ docBlock 10 (member_jsDoc m)
  ++ JS.nl ++ JS.spaces 10 ++ member_readonly m ++ member_name m
  ++ match member_params m with
     | Some params => "(" ++ JS.join ", " params ++ ")"
     | None => EmptyString
     end
  ++ ": " ++ member_type m ++ ";".

Definition interfaceText (d : Descriptor) : string :=
  JS.nl ++ JS.spaces 8 ++ docBlock 8 (desc_jsdoc d)
  ++ JS.nl ++ JS.spaces 8 ++ "export interface " ++ desc_name d ++ " {"
  ++ JS.nl ++ JS.spaces 8
  ++ JS.join JS.nl (map memberText (desc_properties d))
  ++ JS.nl ++ JS.spaces 8 ++ "}".

Definition moduleText (entry : string * list Descriptor) : string :=
  reindent
    (JS.nl ++ JS.spaces 6 ++ "declare module " ++ JS.quoted (fst entry) ++ " {"
     ++ JS.nl ++ JS.spaces 6
     ++ JS.join JS.nl (map interfaceText (snd entry))
     ++ JS.nl ++ JS.spaces 6 ++ "}").

Definition buildModules (modulesMap : buckets Descriptor) : list string :=
  map moduleText modulesMap.

(** ** splitModulesToFiles *)

Definition moduleHeader : string := "declare module " ++ JS.dq.

Definition isPathChar (c : ascii) : bool :=
  negb (Ascii.eqb c (ascii_of_nat 34) || Ascii.eqb c "#").

(** The header at the start of [s], then the longest run of characters
    that are neither a double quote nor a hash, then one of these two. *)
Definition modulePathAt (s : string) : option string :=
  if JS.startsWith moduleHeader s
  then let (run, rest) :=
         JS.span isPathChar (JS.skip (String.length moduleHeader) s) in
       match rest with
       | String _ _ => Some run
       | EmptyString => None
       end
  else None.

(** Group 1 of the leftmost match of the header expression in a rendered
    block, [None] when [mod.match] returns null. *)
Fixpoint matchModulePath (s : string) : option string :=
  match modulePathAt s with
  | Some path => Some path
  | None =>
      match s with
      | EmptyString => None
      | String _ s' => matchModulePath s'
      end
  end.

(** The greedy capture followed by [\.html]: the capture stays on one
    line and ends at the last [.html] of that line. *)
Fixpoint lastHtml (s : string) : option string :=
  match s with
  | EmptyString => None
  | String c s' =>
      let here :=
        if JS.startsWith ".html" s then Some EmptyString else None in
      if JS.isLineTerminator c then here
      else match lastHtml s' with
           | Some capture => Some (String c capture)
           | None => here
           end
  end.

(** Where the repeated group [(?:[^\/]+\/)] can stop: after each of the
    leading non-empty segments that end in a slash.  [inside] tells
    whether the segment being read has a character already. *)
Fixpoint boundaries (inside : bool) (s : string) : list string :=
  match s with
  | EmptyString => []
  | String c s' =>
      if Ascii.eqb c "/"
      then if inside then s' :: boundaries false s' else []
      else boundaries true s'
  end.

Fixpoint firstSome {A B : Type} (f : A -> option B) (l : list A) : option B :=
  match l with
  | [] => None
  | a :: l' =>
      match f a with
      | Some b => Some b
      | None => firstSome f l'
      end
  end.

(** The segments are taken greedily: the longest chain first, then the
    shorter ones, then none. *)
Definition afterSegments (s : string) : option string :=
  firstSome lastHtml (rev (s :: boundaries false s)).

(** What follows the first colon, for the optional scheme group. *)
Fixpoint afterColon (s : string) : option string :=
  match s with
  | EmptyString => None
  | String c s' => if Ascii.eqb c ":" then Some s' else afterColon s'
  end.

(** The file name expression tried at the start of [s]: with the scheme
    group first, without it next. *)
Definition fileNameAt (s : string) : option string :=
  match match afterColon s with
        | Some rest => afterSegments rest
        | None => None
        end with
  | Some name => Some name
  | None => afterSegments s
  end.

(** Group 1 of the leftmost match of the file name expression, [None]
    when [path.match] returns null. *)
Fixpoint matchFileName (path : string) : option string :=
  match fileNameAt path with
  | Some name => Some name
  | None =>
      match path with
      | EmptyString => None
      | String _ rest => matchFileName rest
      end
  end.

Record FileInfo : Type := mkFileInfo {
  fileName : string;
  modules : list string
}.

(** One step of the reduction: the entry of [path] is created on first
    sight, then the block is pushed on it. *)
Fixpoint filesPush (path block : string) (filesMap : list (string * FileInfo))
  : completion (list (string * FileInfo)) :=
  match filesMap with
  | [] =>
      name <- fromOption (matchFileName path) ;;
      Returns [(path, mkFileInfo name [block])]
  | (key, info) :: rest =>
      if String.eqb key path
      then Returns ((key, mkFileInfo (fileName info)
                            (app (modules info) [block])) :: rest)
      else rest' <- filesPush path block rest ;;
           Returns ((key, info) :: rest')
  end.

Fixpoint splitInto (filesMap : list (string * FileInfo)) (mods : list string)
  : completion (list (string * FileInfo)) :=
  match mods with
  | [] => Returns filesMap
  | block :: mods' =>
      path <- fromOption (matchModulePath block) ;;
      filesMap' <- filesPush path block filesMap ;;
      splitInto filesMap' mods'
  end.

(** The argument is the array of rendered blocks [buildModules] returns. *)
Definition splitModulesToFiles (modulesMap : list string)
  : completion (list (string * FileInfo)) :=
  splitInto [] modulesMap.

(** ** Writing *)

(** The calls of [fs.writeFile], in the order they are issued: the file
    name under [cli.outDir], and the text. *)
Definition writes (filesMap : list (string * FileInfo))
  : list (string * string) :=
  map (fun entry =>
         (fileName (snd entry) ++ ".d.ts",
          JS.join (JS.nl ++ JS.nl) (modules (snd entry)) ++ JS.nl))
      filesMap.

(** From the analyzed features to the calls of [fs.writeFile]. *)
Definition generate (features : list Feature)
  : completion (list (string * string)) :=
  details <- mapM getFeatureDetails (filter filterFeatures features) ;;
  filesMap <- splitModulesToFiles (buildModules (toModulesMap details)) ;;
  Returns (writes filesMap).

(** The content of [name] once the writes have completed in the order
    of [ws]: a write replaces the whole file. *)
Fixpoint contentAfter (name : string) (ws : list (string * string))
  : option string :=
  match ws with
  | [] => None
  | (target, text) :: ws' =>
      match contentAfter name ws' with
      | Some later => Some later
      | None => if String.eqb target name then Some text else None
      end
  end.

End PerFile.

(* ===================================================================== *)
(** * The first generator (src/index.js)                                  *)
(* ===================================================================== *)

Module Legacy.

Record Param : Type := mkParam {
  param_name : string
}.

Record Property : Type := mkProperty {
  prop_name : string;
  prop_type : option string;
  prop_readOnly : bool;
  prop_params : option (list Param);
  prop_description : option string
}.

Record Item : Type := mkItem {
  constructorName : string;               (* [item.constructor.name] *)
  className : option string;
  tagName : option string;
  description : option string;
  properties : option (list Property)
}.

Definition filterFeatures (item : Item) : bool :=
  String.eqb (constructorName item) "PolymerElement"
  || String.eqb (constructorName item) "Behavior".

Definition indent (tab line : string) : string :=
  if JS.nonEmpty line then tab ++ line else line.

Fixpoint repeatString (s : string) (n : nat) : string :=
  match n with
  | O => EmptyString
  | S n' => s ++ repeatString s n'
  end.

Definition jsDoc (desc : option string) (indentLevel : nat) : string :=
  match desc with
  | Some (String _ _ as text) =>
      let tab := repeatString "  " indentLevel in
      JS.join JS.nl
        (map (indent tab)
           ("/**"
            :: app (map (fun line => " * " ++ line) (JS.splitLines text))
                 [" */"; ""]))
  | _ => EmptyString
  end.

Definition cast (type : option string) (params : option (list Param))
  : string :=
  match type with
  | Some t =>
      if existsb (String.eqb t) ["string"; "number"; "boolean"] then t
      else if String.eqb t "Function" then
        "(" ++ JS.join ", "
                 (map (fun param => param_name param ++ ": any")
                    match params with
                    | Some ps => ps
                    | None => []
                    end)
        ++ ") => any"
      else if String.eqb t "Array" then "Array<any>"
      else "any"
  | None => "any"
  end.

Definition NS (ns : option string) (tpl : string) : string :=
  match ns with
  | Some (String _ _ as name) =>
      JS.join JS.nl
        ["declare namespace " ++ name ++ " {";
         JS.join JS.nl (map (indent "  ") (JS.splitLines tpl));
         "}";
         ""]
  | _ => tpl
  end.

(** The destructured pair [namespace], [name].  Without a tag name the
    parts of the class name are read: indexing an undefined [cNameParts]
    throws; an empty class name leaves [name] undefined and
    [name.replace] throws. *)
Definition splitName (item : Item) : completion (option string * string) :=
  if JS.truthy (tagName item)
  then match tagName item with
       | Some tag => Returns (None, tag)
       | None => Throws
       end
  else match className item with
       | Some (String _ _ as cls) =>
           let cNameParts := JS.splitDots cls in
           Returns (Some (hd EmptyString cNameParts),
                    last cNameParts EmptyString)
       | _ => Throws
       end.

Definition printProperty (p : Property) : string :=
  jsDoc (prop_description p) 1 ++ "  "
  ++ (if prop_readOnly p then "readonly " else "")
  ++ prop_name p ++ ": " ++ cast (prop_type p) (prop_params p) ++ ";".

Record Element : Type := mkElement {
  el_namespace : option string;
  el_name : string;
  el_dts : string
}.

(** The callback of [.map] over the filtered features. *)
Definition describe (item : Item) : completion Element :=
  split <- splitName item ;;
  let (namespace, name) := split : option string * string in
  let declaration := if JS.truthy namespace then "export" else "declare" in
  let camelName := camelCase name in
  ps <- match properties item with
        | Some ps => Returns ps
        | None => Throws
        end ;;
  Returns (mkElement namespace name
             (NS namespace
                (jsDoc (description item) 0 ++ declaration ++ " interface "
                 ++ camelName ++ " {" ++ JS.nl
                 ++ JS.join JS.nl
                      (app (map printProperty ps)
                         ["  new (): " ++ camelName ++ ";"])
                 ++ JS.nl ++ "}"))).

End Legacy.

(* ===================================================================== *)
(** * The vocabulary of the specification                                 *)
(* ===================================================================== *)

(** [out] is the order-preserving subsequence of [l] made of exactly the
    elements that satisfy [P]: each element of [l] is kept, at its place,
    when it satisfies [P], and dropped when it does not. *)
Inductive Selected {A : Type} (P : A -> Prop) : list A -> list A -> Prop :=
| Selected_nil : Selected P [] []
| Selected_keep x l out :
    P x -> Selected P l out -> Selected P (x :: l) (x :: out)
| Selected_drop x l out :
    ~ P x -> Selected P l out -> Selected P (x :: l) out.

(** One of the kinds of a feature is in the set [supported]. *)
Definition hasKindIn (supported kinds : list string) : Prop :=
  exists kind, In kind kinds /\ In kind supported.

(** The supported set as the specification lists it: class-like component,
    shared behavior, mixin, free function, namespace-level value. *)
Definition specSupportedKinds : list string :=
  ["element"; "behavior"; "element-mixin"; "function"; "namespace"].

(** The module key as the specification words it: a dependency root that
    leads the path becomes its scheme prefix, the rest of the path is kept,
    and a derived namespace is appended after a hash. *)
Definition specModuleKey (file : string) (namespace : option string)
  : string :=
  (if JS.startsWith "bower_components/" file
   then "bower:" ++ JS.skip 17 file
   else if JS.startsWith "node_modules/" file
   then "npm:" ++ JS.skip 13 file
   else file)
  ++ match namespace with
     | Some (String _ _ as ns) => "#" ++ ns
     | _ => EmptyString
     end.

(** [map.get(k)], or [map[k]] for an object. *)
Fixpoint bucketGet {V : Type} (k : string) (m : buckets V)
  : option (list V) :=
  match m with
  | [] => None
  | (k', b) :: m' => if String.eqb k' k then Some b else bucketGet k m'
  end.

(** The elements of [l] under the key [k], none being no bucket. *)
Definition under {V : Type} (key : V -> string) (k : string) (l : list V)
  : list V :=
  filter (fun v => String.eqb (key v) k) l.

Definition bucketOf {V : Type} (key : V -> string) (k : string) (l : list V)
  : option (list V) :=
  match under key k l with
  | [] => None
  | b => Some b
  end.

(** What the reduction of [groupBy] maintains, [seen] being the part of
    the list already consumed. *)
Definition grouped {V : Type} (key : V -> string) (m : buckets V)
    (seen : list V) : Prop :=
  NoDup (map fst m) /\
  (forall k, bucketGet k m = bucketOf key k seen) /\
  Permutation (List.concat (map snd m)) seen.

(** [s] starts with one of the two dependency roots. *)
Definition startsWithRoot (s : string) : bool :=
  JS.startsWith "bower_components/" s || JS.startsWith "node_modules/" s.

(** No dependency root starts at a position of [pre] in [pre ++ tail]. *)
Fixpoint noRootBefore (pre tail : string) : bool :=
  match pre with
  | EmptyString => true
  | String c pre' =>
      negb (startsWithRoot (pre ++ tail)) && noRootBefore pre' tail
  end.

(* ===================================================================== *)
(** * Sample analyzer output                                              *)
(* ===================================================================== *)

Module Samples.

(** A free function, as the analyzer reports one: no class name, no tag
    name, no member list. *)
Definition freeFunction : PerFile.Feature :=
  PerFile.mkFeature ["function"] None None "src/helpers.html"
    (Some "Formats a date.") None.

Definition freeFunctionCombined : Combined.Feature :=
  Combined.mkFeature ["function"] ["formatDate"] None "src/helpers.html"
    None None.

(** An element with a public property of type [Conditional] and a private
    one. *)
Definition conditionalElement : PerFile.Feature :=
  PerFile.mkFeature ["element"] None (Some "my-element") "src/my-element.html"
    None
    (Some [PerFile.mkProperty "when" (Some "Conditional") false None None false;
           PerFile.mkProperty "_secret" (Some "string") false None None true]).

Definition emptyDoc : Combined.JSDoc := Combined.mkJSDoc (Some "") (Some []).

Definition conditionalElementCombined : Combined.Feature :=
  Combined.mkFeature ["element"] ["my-element"] (Some emptyDoc)
    "src/my-element.html"
    (Some [Combined.mkMethod "open" "public" (Some []) None (Some emptyDoc);
           Combined.mkMethod "_close" "private" (Some []) None (Some emptyDoc)])
    (Some [Combined.mkProperty "when" "public" (Some "Conditional")
             (Some emptyDoc);
           Combined.mkProperty "label" "public" (Some "string")
             (Some emptyDoc);
           Combined.mkProperty "_secret" "protected" (Some "string")
             (Some emptyDoc)]).

End Samples.

Module KeySamples.

(** A dependency checked out under a demo folder. *)
Definition nested : PerFile.Descriptor :=
  PerFile.mkDescriptor None "PolymerBase"
    "demo/bower_components/polymer/polymer.html" None [].

(** A namespaced behavior and an element of the same file. *)
Definition appBehavior : Combined.Feature :=
  Combined.mkFeature ["behavior"] ["Polymer.AppBehavior"] None "src/app.html"
    None None.

Definition appElement : Combined.Feature :=
  Combined.mkFeature ["element"] ["my-app"] None "src/app.html" None None.

End KeySamples.

Module Scenario.

(** An element declared without a name ([Polymer] called without [is]). *)
Definition anonymousElement : Legacy.Item :=
  Legacy.mkItem "PolymerElement" None None None (Some []).

(** A namespaced behavior without a doc comment of its own, and the same
    with an empty one. *)
Definition undocumented : Combined.Feature :=
  Combined.mkFeature ["behavior"] ["Polymer.AppBehavior"] None "src/app.html"
    (Some []) (Some []).

Definition documented : Combined.Feature :=
  Combined.mkFeature ["behavior"] ["Polymer.AppBehavior"]
    (Some Samples.emptyDoc) "src/app.html" (Some []) (Some []).

(** An element with a public property the analyzer found no type for, and
    one with a method whose return record has no type. *)
Definition untypedProperty : Combined.Feature :=
  Combined.mkFeature ["element"] ["my-element"] (Some Samples.emptyDoc)
    "src/my-element.html" (Some [])
    (Some [Combined.mkProperty "value" "public" None (Some Samples.emptyDoc)]).

Definition untypedReturn : Combined.Feature :=
  Combined.mkFeature ["element"] ["my-element"] (Some Samples.emptyDoc)
    "src/my-element.html"
    (Some [Combined.mkMethod "compute" "public" (Some []) (Some None)
             (Some Samples.emptyDoc)])
    (Some []).

(** A feature without any identifier. *)
Definition nameless : Combined.Feature :=
  Combined.mkFeature ["element"] [] (Some Samples.emptyDoc) "src/app.html"
    (Some []) (Some []).

(** Scenario B: the behavior [MyBehavior] with the public method [doThing],
    which takes no parameter.  [ret] is the return record the analyzer
    attached to the method, if any, with its type, if any. *)
Definition doThing (ret : option (option string)) : Combined.Method :=
  Combined.mkMethod "doThing" "public" (Some []) ret (Some Samples.emptyDoc).

Definition myBehavior (file : string) (ret : option (option string))
  : Combined.Feature :=
  Combined.mkFeature ["behavior"] ["MyBehavior"] (Some Samples.emptyDoc) file
    (Some [doThing ret]) (Some []).

(** The declaration rendered for it, [member] being the line of the
    method. *)
Definition myBehaviorText (member : string) : string :=
  JS.nl ++ "  export interface MyBehavior {"
  ++ JS.nl ++ "    " ++ member
  ++ JS.nl ++ "    new (...args): MyBehavior;"
  ++ JS.nl ++ "  }"
  ++ JS.nl ++ "  export const MyBehavior: MyBehavior;".

End Scenario.

Module Collision.

(** Two source files of the same name in two folders, each with an
    element, and a namespaced behavior of the first file. *)
Definition itemA : PerFile.Feature :=
  PerFile.mkFeature ["element"] None (Some "item-a") "src/a/item.html" None
    (Some []).

Definition itemB : PerFile.Feature :=
  PerFile.mkFeature ["element"] None (Some "item-b") "src/b/item.html" None
    (Some []).

Definition cart : PerFile.Feature :=
  PerFile.mkFeature ["behavior"] (Some "Shop.Cart") None "src/a/item.html"
    None (Some []).

(** The block of a module that holds one interface without members of
    its own. *)
Definition block (key name : string) : string :=
  PerFile.moduleHeader ++ key ++ JS.dq ++ " {" ++ JS.nl
  ++ "  export interface " ++ name ++ " {" ++ JS.nl
  ++ "    new(): " ++ name ++ ";" ++ JS.nl
  ++ "  }" ++ JS.nl
  ++ "}".

Definition blockA : string := block "src/a/item.html" "ItemA".
Definition blockB : string := block "src/b/item.html" "ItemB".
Definition blockNS : string := block "src/a/item.html#Shop" "Cart".

End Collision.

(* ===================================================================== *)
(** * Predicates on texts                                                 *)
(* ===================================================================== *)

(** The character [c] occurs in [s]. *)
Fixpoint hasChar (c : ascii) (s : string) : bool :=
  match s with
  | EmptyString => false
  | String d s' => Ascii.eqb d c || hasChar c s'
  end.

(** Every character of [s] satisfies [p]. *)
Fixpoint allChars (p : ascii -> bool) (s : string) : bool :=
  match s with
  | EmptyString => true
  | String c s' => p c && allChars p s'
  end.

(** The last character of [s] is a hyphen. *)
Fixpoint endsWithHyphen (s : string) : bool :=
  match s with
  | EmptyString => false
  | String c s' =>
      match s' with
      | EmptyString => Ascii.eqb c "-"
      | String _ _ => endsWithHyphen s'
      end
  end.

(** No line feed and no carriage return in [s]. *)
Definition oneLine (s : string) : bool :=
  allChars (fun c => negb (JS.isLineTerminator c)) s.

(** The tags [printJSdoc] keeps, when each tag titled [type] has its type
    record: every tag but those titled [type] whose type has no name. *)
Definition keepsTag (tag : Combined.Tag) : bool :=
  negb (String.eqb (Combined.tag_title tag) "type")
  || match Combined.tag_type tag with
     | Some name => JS.truthy name
     | None => false
     end.

(** A tag titled [type] comes with its type record. *)
Definition wellTyped (tag : Combined.Tag) : Prop :=
  Combined.tag_title tag = "type" -> Combined.tag_type tag <> None.

(** The keys of [l] in the order of their first appearance. *)
Fixpoint firstOccurrences (l : list string) : list string :=
  match l with
  | [] => []
  | k :: l' =>
      k :: filter (fun k' => negb (String.eqb k' k)) (firstOccurrences l')
  end.

(** [k] is one of [keys]. *)
Definition isKey (keys : list string) (k : string) : bool :=
  existsb (String.eqb k) keys.

(** A folder name: not empty, without a slash. *)
Definition isSegment (seg : string) : bool :=
  JS.nonEmpty seg && negb (hasChar "/" seg).

(** The folders [segs] as the start of a path, a slash after each. *)
Definition dirPath (segs : list string) : string :=
  String.concat "" (map (fun seg => seg ++ "/") segs).

(** The module path [splitModulesToFiles] reads in a block, the empty text
    standing for none. *)
Definition pathOf (block : string) : string :=
  match PerFile.matchModulePath block with
  | Some path => path
  | None => EmptyString
  end.

(** A block the splitter can place: it shows a module path, and the path
    holds [.html]. *)
Definition splittable (block : string) : bool :=
  match PerFile.matchModulePath block with
  | Some path => JS.includes ".html" path
  | None => false
  end.

(** The blocks of each entry of a files map, under the path of the entry. *)
Definition blocksOf (filesMap : list (string * PerFile.FileInfo))
  : buckets string :=
  map (fun entry => (fst entry, PerFile.modules (snd entry))) filesMap.

(** The file name of an entry is the one derived from its path. *)
Definition named (entry : string * PerFile.FileInfo) : Prop :=
  PerFile.matchFileName (fst entry) = Some (PerFile.fileName (snd entry)).

(** The last character of [s] is [c]. *)
Fixpoint endsWithChar (c : ascii) (s : string) : bool :=
  match s with
  | EmptyString => false
  | String d s' =>
      match s' with
      | EmptyString => Ascii.eqb d c
      | String _ _ => endsWithChar c s'
      end
  end.

(** A module key that the renderer leaves in one piece: its rewritten file
    path holds no double quote and no hash, and the key no tabulation and
    no line break. *)
Definition plainKey (d : PerFile.Descriptor) : bool :=
  allChars PerFile.isPathChar (replaceRepo (PerFile.desc_module d))
  && oneLine (PerFile.modulePath d)
  && negb (hasChar (ascii_of_nat 9) (PerFile.modulePath d)).

(** The features of a page and of a script, as the classifier describes
    them. *)
Module SourceSamples.

Definition page : PerFile.Descriptor :=
  PerFile.mkDescriptor (Some "Polymer") "AppElement" "src/app-element.html"
    None [].

Definition script : PerFile.Descriptor :=
  PerFile.mkDescriptor (Some "Polymer") "Util" "src/util.js" None [].

Definition bare : PerFile.Descriptor :=
  PerFile.mkDescriptor None "AppHelper" "src/app-element.html" None [].

End SourceSamples.

(** The source file of [d], rewritten, holds no [.html]. *)
Definition fromScript (d : PerFile.Descriptor) : bool :=
  negb (JS.includes ".html" (replaceRepo (PerFile.desc_module d))).

(* ===================================================================== *)
(** * Properties                                                          *)
(* ===================================================================== *)

(** ** Identifier casing *)

Section Casing.

Lemma toUpperCase1_hyphen (c : ascii) :
  Ascii.eqb (JS.toUpperCase1 c) "-" = Ascii.eqb c "-".
Proof. destruct c as [[] [] [] [] [] [] [] []]; reflexivity. Qed.

Lemma toUpperCase1_terminator (c : ascii) :
  JS.isLineTerminator (JS.toUpperCase1 c) = JS.isLineTerminator c.
Proof. destruct c as [[] [] [] [] [] [] [] []]; reflexivity. Qed.

Lemma toUpperCase1_idempotent (c : ascii) :
  JS.toUpperCase1 (JS.toUpperCase1 c) = JS.toUpperCase1 c.
Proof. destruct c as [[] [] [] [] [] [] [] []]; reflexivity. Qed.

Lemma terminator_not_hyphen (c : ascii) :
  JS.isLineTerminator c = true -> Ascii.eqb c "-" = false.
Proof.
  destruct c as [[] [] [] [] [] [] [] []]; vm_compute;
    first [reflexivity | discriminate].
Qed.

Lemma camelRest_pair (c d : ascii) (r : string) :
  camelRest (String c (String d r)) =
  if Ascii.eqb c "-" && negb (JS.isLineTerminator d)
  then String (JS.toUpperCase1 d) (camelRest r)
  else String c (camelRest (String d r)).
Proof. reflexivity. Qed.

Lemma camelRest_other (c : ascii) (t : string) :
  Ascii.eqb c "-" = false -> camelRest (String c t) = String c (camelRest t).
Proof.
  intros Hc. destruct t as [|d r]; [reflexivity|].
  rewrite camelRest_pair, Hc. reflexivity.
Qed.

Lemma noDoubleHyphen_tail (c : ascii) (s : string) :
  noDoubleHyphen (String c s) = true -> noDoubleHyphen s = true.
Proof.
  cbn [noDoubleHyphen]. intros H.
  apply andb_true_iff in H. tauto.
Qed.

(** Once cased, the part after the first character does not change. *)
Lemma camelRest_settles (n : nat) :
  forall s, String.length s <= n -> noDoubleHyphen s = true ->
            camelRest (camelRest s) = camelRest s.
Proof.
  induction n as [|n IH]; intros s Hlen Hs.
  - destruct s; [reflexivity | cbn in Hlen; lia].
  - destruct s as [|c [|d r]]; [reflexivity | reflexivity |].
    assert (Hdr : noDoubleHyphen (String d r) = true)
      by (eapply noDoubleHyphen_tail; eauto).
    assert (Hr : noDoubleHyphen r = true)
      by (eapply noDoubleHyphen_tail; eauto).
    cbn [String.length] in Hlen.
    rewrite camelRest_pair.
    destruct (Ascii.eqb c "-") eqn:Hc; cbn [andb].
    + destruct (JS.isLineTerminator d) eqn:Hd; cbn [negb].
      * pose proof (terminator_not_hyphen d Hd) as Hdh.
        rewrite (camelRest_other d r Hdh).
        rewrite camelRest_pair, Hc, Hd. cbn [andb negb].
        rewrite (camelRest_other d _ Hdh).
        rewrite (IH r) by (auto; lia). reflexivity.
      * assert (Hdh : Ascii.eqb d "-" = false).
        { cbn [noDoubleHyphen] in Hs. rewrite Hc in Hs.
          destruct (Ascii.eqb d "-"); [discriminate Hs | reflexivity]. }
        rewrite camelRest_other
          by (rewrite toUpperCase1_hyphen; exact Hdh).
        rewrite (IH r) by (auto; lia). reflexivity.
    + rewrite (camelRest_other c _ Hc).
      rewrite (IH (String d r)) by (auto; cbn [String.length]; lia).
      reflexivity.
Qed.

End Casing.

(** C9 (as amended): casing maps [my-element] to [MyElement] and
    [already-Capped] to [AlreadyCapped], and casing a name that has no two
    hyphens in a row twice gives what casing it once gives. *)
Theorem camelCase_idempotent :
  camelCase "my-element" = "MyElement" /\
  camelCase "already-Capped" = "AlreadyCapped" /\
  forall name, noDoubleHyphen name = true ->
               camelCase (camelCase name) = camelCase name.
Proof.
  split; [reflexivity | split; [reflexivity |]].
  intros [|c r] Hname; [reflexivity |].
  assert (Hr : noDoubleHyphen r = true)
    by (eapply noDoubleHyphen_tail; eauto).
  unfold camelCase.
  destruct (JS.isLineTerminator c) eqn:Hc.
  - rewrite Hc. f_equal. eapply camelRest_settles; eauto.
  - rewrite toUpperCase1_terminator, Hc, toUpperCase1_idempotent.
    f_equal. eapply camelRest_settles; eauto.
Qed.

Lemma camelCase_idempotent_witness :
  noDoubleHyphen "paper-icon-button" = true /\
  camelCase (camelCase "paper-icon-button") = camelCase "paper-icon-button".
Proof.
  split; [reflexivity |].
  apply (proj2 (proj2 camelCase_idempotent)). reflexivity.
Defined.

(** C9, as stated, fails: a doubled hyphen leaves a hyphen behind, and the
    second casing removes it. *)
Lemma camelCase_not_idempotent :
  camelCase "a--b" = "A-b" /\
  camelCase (camelCase "a--b") = "AB" /\
  ~ (forall name, camelCase (camelCase name) = camelCase name).
Proof.
  split; [reflexivity | split; [reflexivity |]].
  intros H. specialize (H "a--b"). discriminate H.
Qed.

(** ** Type mapping *)

Lemma existsb_eqb_false (b : string) (l : list string) :
  ~ In b l -> existsb (String.eqb b) l = false.
Proof.
  induction l as [|x l IH]; intros Hin; [reflexivity |].
  cbn [existsb]. apply orb_false_iff. split.
  - apply String.eqb_neq. intros ->. apply Hin. left. reflexivity.
  - apply IH. intros H. apply Hin. right. exact H.
Qed.

Lemma existsb_eqb_true (b : string) (l : list string) :
  existsb (String.eqb b) l = true -> In b l.
Proof.
  intros H. apply existsb_exists in H. destruct H as [x [Hin Heq]].
  apply String.eqb_eq in Heq. subst x. exact Hin.
Qed.

(** C4: the type mappers are total ([parseType] of the combined generator
    and [cast] of the per-file one return for every descriptor, defined or
    not, one of the few types they know), and a descriptor whose base name
    is neither one of the mapper's primitives, nor [Array], nor [Function]
    is mapped to [any]; for a rest parameter [parseType] then wraps that
    [any] in an array. *)
Theorem type_mapping_falls_back_to_any :
  (forall (type : string) (forceArray : bool),
      ~ In (Combined.baseName type) Combined.primitives ->
      Combined.baseName type <> "Array" ->
      Combined.baseName type <> "Function" ->
      Combined.parseType (Some type) forceArray =
      if forceArray then "Array<any>" else "any") /\
  (forall (name type : string) (params : option (list PerFile.Param)),
      ~ In type PerFile.primitives ->
      type <> "Array" ->
      type <> "Function" ->
      PerFile.cast name (Some type) params = ("any", None)) /\
  (forall (type : option string),
      In (Combined.parseType type false)
         ("any" :: "Array<any>" :: Combined.primitives)) /\
  (forall (name : string) (type : option string)
          (params : option (list PerFile.Param)),
      In (fst (PerFile.cast name type params))
         ("any" :: "Array<any>" :: "void" :: PerFile.primitives)).
Proof.
  split; [| split; [| split]].
  - intros type forceArray Hprim Harr _.
    unfold Combined.parseType.
    apply String.eqb_neq in Harr. rewrite Harr.
    rewrite (existsb_eqb_false _ _ Hprim). cbn [negb].
    destruct forceArray; reflexivity.
  - intros name type params Hprim Harr Hfun.
    unfold PerFile.cast.
    rewrite (existsb_eqb_false _ _ Hprim).
    apply String.eqb_neq in Harr, Hfun. rewrite Harr, Hfun.
    reflexivity.
  - intros [type|]; [| left; reflexivity].
    unfold Combined.parseType.
    destruct (String.eqb (Combined.baseName type) "Array") eqn:Harr.
    + apply String.eqb_eq in Harr. rewrite Harr. right. left. reflexivity.
    + destruct (existsb (String.eqb (Combined.baseName type))
                  Combined.primitives) eqn:Hprim; cbn [negb].
      * right. right. apply existsb_eqb_true. exact Hprim.
      * left. reflexivity.
  - intros name [type|] params; [| left; reflexivity].
    unfold PerFile.cast.
    destruct (existsb (String.eqb type) PerFile.primitives) eqn:Hprim.
    + cbn [fst]. do 3 right. apply existsb_eqb_true. exact Hprim.
    + destruct (String.eqb type "Function").
      * cbn [fst].
        destruct (existsb (String.eqb name) PerFile.polymerVoidMethods);
          [right; right; left | left]; reflexivity.
      * cbn [fst]. destruct (String.eqb type "Array");
          [right; left | left]; reflexivity.
Qed.

Lemma type_mapping_falls_back_to_any_witness :
  Combined.parseType (Some "?HTMLElement=") false = "any" /\
  PerFile.cast "target" (Some "HTMLElement") None = ("any", None).
Proof.
  split.
  - apply (proj1 type_mapping_falls_back_to_any "?HTMLElement=" false).
    + cbn. intuition discriminate.
    + cbn. discriminate.
    + cbn. discriminate.
  - apply (proj1 (proj2 type_mapping_falls_back_to_any)
             "target" "HTMLElement" None).
    + cbn. intuition discriminate.
    + discriminate.
    + discriminate.
Defined.

(** ** Feature filter and member filter *)

Section Selection.

Context {A : Type}.

Lemma filter_Selected (P : A -> Prop) (p : A -> bool) :
  (forall x, p x = true <-> P x) ->
  forall l, Selected P l (filter p l).
Proof.
  intros Hp l. induction l as [|x l IH]; cbn [filter].
  - constructor.
  - destruct (p x) eqn:Hx.
    + apply Selected_keep; [apply Hp; exact Hx | exact IH].
    + apply Selected_drop; [| exact IH].
      intros HP. apply Hp in HP. congruence.
Qed.

(** The selected subsequence is unique. *)
Lemma Selected_functional (P : A -> Prop) (l out1 out2 : list A) :
  Selected P l out1 -> Selected P l out2 -> out1 = out2.
Proof.
  intros H1. revert out2.
  induction H1 as [|x l out HP H1 IH|x l out HP H1 IH];
    intros out2 H2; inversion H2; subst; try contradiction.
  - reflexivity.
  - f_equal. apply IH. assumption.
  - apply IH. assumption.
Qed.

Lemma filter_filter (p q : A -> bool) (l : list A) :
  filter q (filter p l) = filter (fun x => p x && q x) l.
Proof.
  induction l as [|x l IH]; [reflexivity |].
  cbn [filter]. destruct (p x); cbn [filter andb]; rewrite IH; reflexivity.
Qed.

End Selection.

Lemma existsb_hasKindIn (supported kinds : list string) :
  existsb (fun kind => existsb (String.eqb kind) supported) kinds = true
  <-> hasKindIn supported kinds.
Proof.
  unfold hasKindIn. rewrite existsb_exists. split.
  - intros [kind [Hin Hsup]]. exists kind. split; [exact Hin |].
    apply existsb_eqb_true. exact Hsup.
  - intros [kind [Hin Hsup]]. exists kind. split; [exact Hin |].
    apply existsb_exists. exists kind. split; [exact Hsup |].
    apply String.eqb_refl.
Qed.

(** C6 (as amended): the filter of each generator returns exactly the
    order-preserving subsequence of the features that have a kind in that
    generator's supported set.  The set of the per-file generator is the
    one of the specification (element, behavior, mixin, function,
    namespace); the set of the combined generator has the first three
    only. *)
Theorem filterFeatures_selects_supported :
  (forall features : list PerFile.Feature,
      Selected (fun f => hasKindIn PerFile.supportedFeatures (PerFile.kinds f))
        features (filter PerFile.filterFeatures features)) /\
  (forall kind, In kind PerFile.supportedFeatures
                <-> In kind specSupportedKinds) /\
  (forall features : list Combined.Feature,
      Selected (fun f => hasKindIn Combined.supportedFeatures
                           (Combined.kinds f))
        features (filter Combined.filterFeatures features)) /\
  (forall kind, In kind Combined.supportedFeatures
                <-> In kind ["element"; "behavior"; "element-mixin"]).
Proof.
  split; [| split; [| split]].
  - apply filter_Selected. intros f. apply existsb_hasKindIn.
  - intros kind. cbn. tauto.
  - apply filter_Selected. intros f. apply existsb_hasKindIn.
  - intros kind. cbn. tauto.
Qed.

(** C6, as stated, fails on the combined generator: a free function has a
    kind of the specification's supported set, and the filter drops it. *)
Lemma combined_filter_drops_function :
  hasKindIn specSupportedKinds (Combined.kinds Samples.freeFunctionCombined) /\
  filter Combined.filterFeatures [Samples.freeFunctionCombined] = [] /\
  ~ Selected (fun f => hasKindIn specSupportedKinds (Combined.kinds f))
      [Samples.freeFunctionCombined]
      (filter Combined.filterFeatures [Samples.freeFunctionCombined]).
Proof.
  assert (Hkind : hasKindIn specSupportedKinds
                    (Combined.kinds Samples.freeFunctionCombined)).
  { exists "function". cbn. tauto. }
  split; [exact Hkind | split; [reflexivity |]].
  cbn [filter Combined.filterFeatures]. intros H.
  inversion H; subst. contradiction.
Qed.

Lemma mapM_Forall2 {A B : Type} (f : A -> completion B) (l : list A)
    (out : list B) :
  mapM f l = Returns out -> Forall2 (fun a b => f a = Returns b) l out.
Proof.
  revert out. induction l as [|a l IH]; intros out H; cbn in H.
  - injection H as <-. constructor.
  - destruct (f a) as [b|] eqn:Ha; cbn in H; [| discriminate].
    destruct (mapM f l) as [bs|]; cbn in H; [| discriminate].
    injection H as <-. constructor; [exact Ha | apply IH; reflexivity].
Qed.

Lemma keepProperty_spec (p : Combined.Property) :
  Combined.keepProperty p = true <->
  Combined.prop_privacy p = "public" /\
  Combined.prop_type p <> Some "Conditional".
Proof.
  unfold Combined.keepProperty, Combined.isPublic, Combined.notConditional.
  rewrite andb_true_iff, String.eqb_eq.
  destruct (Combined.prop_type p) as [t|].
  - rewrite negb_true_iff, String.eqb_neq.
    split; intros [H1 H2]; (split; [exact H1 |]); congruence.
  - split; intros [H1 H2]; (split; [exact H1 |]); congruence.
Qed.

(** C7 (as amended): in the combined generator the descriptor carries, in
    order, one fragment for each public method and one for each public
    property whose type is not [Conditional], and for nothing else; the
    per-file generator carries one member for each property that is not
    private, whatever its type, then the constructor member. *)
Theorem members_retained :
  (forall (feature : Combined.Feature) (d : Combined.Declaration),
      Combined.getFeatureDetails feature = Returns d ->
      match Combined.methods feature with
      | Some ms =>
          exists kept printed,
            Selected (fun m => Combined.method_privacy m = "public") ms kept /\
            Forall2 (fun m text => Combined.printMethod m = Returns text)
              kept printed /\
            Combined.decl_methods d = Some printed
      | None => Combined.decl_methods d = None
      end /\
      match Combined.properties feature with
      | Some ps =>
          exists kept printed,
            Selected (fun p => Combined.prop_privacy p = "public" /\
                               Combined.prop_type p <> Some "Conditional")
              ps kept /\
            Forall2 (fun p text => Combined.printProperty p = Returns text)
              kept printed /\
            Combined.decl_properties d = Some printed
      | None => Combined.decl_properties d = None
      end) /\
  (forall (feature : PerFile.Feature) (d : PerFile.Descriptor),
      PerFile.getFeatureDetails feature = Returns d ->
      exists ps kept,
        PerFile.properties feature = Some ps /\
        Selected (fun p => PerFile.prop_private p = false) ps kept /\
        PerFile.desc_properties d =
        (map PerFile.toMember kept
           ++ [PerFile.constructorMember (PerFile.desc_name d)])%list).
Proof.
  split.
  - intros feature d. unfold Combined.getFeatureDetails.
    destruct (Combined.matchIdentifier _) as [namespace identifier].
    destruct (Combined.methods feature) as [ms|]; cbn [bind].
    + destruct (mapM Combined.printMethod (filter Combined.keepMethod ms))
        as [printedM|] eqn:HM; cbn [bind]; [| discriminate].
      destruct (Combined.properties feature) as [ps|]; cbn [bind].
      * rewrite filter_filter.
        destruct (mapM Combined.printProperty _) as [printedP|] eqn:HP;
          cbn [bind]; [| discriminate].
        intros H. injection H as <-. cbn. split.
        -- exists (filter Combined.keepMethod ms), printedM.
           split; [| split; [apply mapM_Forall2; exact HM | reflexivity]].
           apply filter_Selected. intros m. apply String.eqb_eq.
        -- eexists. exists printedP.
           split; [| split; [apply mapM_Forall2; exact HP | reflexivity]].
           apply filter_Selected. intros p. apply keepProperty_spec.
      * intros H. injection H as <-. cbn. split; [| reflexivity].
        exists (filter Combined.keepMethod ms), printedM.
        split; [| split; [apply mapM_Forall2; exact HM | reflexivity]].
        apply filter_Selected. intros m. apply String.eqb_eq.
    + destruct (Combined.properties feature) as [ps|]; cbn [bind].
      * rewrite filter_filter.
        destruct (mapM Combined.printProperty _) as [printedP|] eqn:HP;
          cbn [bind]; [| discriminate].
        intros H. injection H as <-. cbn. split; [reflexivity |].
        eexists. exists printedP.
        split; [| split; [apply mapM_Forall2; exact HP | reflexivity]].
        apply filter_Selected. intros p. apply keepProperty_spec.
      * intros H. injection H as <-. cbn. split; reflexivity.
  - intros feature d. unfold PerFile.getFeatureDetails.
    destruct (PerFile.splitName feature) as [[namespace name]|];
      cbn [bind]; [| discriminate].
    destruct (PerFile.properties feature) as [ps|]; cbn [bind];
      [| discriminate].
    intros H. injection H as <-. cbn.
    exists ps, (filter PerFile.isPublic ps).
    split; [reflexivity | split; [| reflexivity]].
    apply filter_Selected. intros p. unfold PerFile.isPublic.
    apply negb_true_iff.
Qed.

Lemma members_retained_witness :
  (exists d,
      Combined.getFeatureDetails Samples.conditionalElementCombined
      = Returns d /\
      exists kept printed,
        Selected (fun p => Combined.prop_privacy p = "public" /\
                           Combined.prop_type p <> Some "Conditional")
          [Combined.mkProperty "when" "public" (Some "Conditional")
             (Some Samples.emptyDoc);
           Combined.mkProperty "label" "public" (Some "string")
             (Some Samples.emptyDoc);
           Combined.mkProperty "_secret" "protected" (Some "string")
             (Some Samples.emptyDoc)]
          kept /\
        Forall2 (fun p text => Combined.printProperty p = Returns text)
          kept printed /\
        Combined.decl_properties d = Some printed) /\
  (exists d,
      PerFile.getFeatureDetails Samples.conditionalElement = Returns d /\
      exists ps kept,
        PerFile.properties Samples.conditionalElement = Some ps /\
        Selected (fun p => PerFile.prop_private p = false) ps kept /\
        PerFile.desc_properties d =
        (map PerFile.toMember kept
           ++ [PerFile.constructorMember (PerFile.desc_name d)])%list).
Proof.
  split.
  - eexists. split; [reflexivity |].
    exact (proj2 (proj1 members_retained
                    Samples.conditionalElementCombined _ eq_refl)).
  - eexists. split; [reflexivity |].
    exact (proj2 members_retained Samples.conditionalElement _ eq_refl).
Defined.

(** C7, as stated, fails on the per-file generator: a public property of
    type [Conditional] stays in the descriptor, typed [any]. *)
Lemma perfile_keeps_conditional :
  exists d,
    PerFile.getFeatureDetails Samples.conditionalElement = Returns d /\
    map (fun m => (PerFile.member_name m, PerFile.member_type m))
      (PerFile.desc_properties d)
    = [("when", "any"); ("new", "MyElement")].
Proof. eexists. split; reflexivity. Qed.

(** ** Module grouper *)

Section Grouping.

Context {V : Type} (key : V -> string).

Lemma bucketGet_push (k k' : string) (v : V) (m : buckets V) :
  bucketGet k' (bucketPush k v m) =
  if String.eqb k k'
  then Some (match bucketGet k m with
             | Some b => b
             | None => []
             end ++ [v])%list
  else bucketGet k' m.
Proof.
  induction m as [|[k0 b] m IH]; cbn [bucketPush bucketGet].
  - destruct (String.eqb k k'); reflexivity.
  - destruct (String.eqb k0 k) eqn:H0.
    + apply String.eqb_eq in H0. subst k0. cbn [bucketGet].
      destruct (String.eqb k k'); reflexivity.
    + cbn [bucketGet]. rewrite IH.
      destruct (String.eqb k k') eqn:Hk; [| reflexivity].
      apply String.eqb_eq in Hk. subst k'. rewrite H0. reflexivity.
Qed.

Lemma bucketPush_keys (k : string) (v : V) (m : buckets V) :
  NoDup (map fst m) ->
  NoDup (map fst (bucketPush k v m)) /\
  (forall k', In k' (map fst (bucketPush k v m))
              <-> k' = k \/ In k' (map fst m)).
Proof.
  induction m as [|[k0 b] m IH]; cbn [bucketPush map fst]; intros Hnd.
  - split; [repeat constructor; intros [] |].
    intros k'. cbn. intuition congruence.
  - inversion Hnd as [|? ? Hnotin Hnd']; subst.
    destruct (String.eqb k0 k) eqn:H0; cbn [map fst].
    + apply String.eqb_eq in H0. subst k0.
      split; [exact Hnd |]. intros k'. cbn. intuition congruence.
    + apply String.eqb_neq in H0.
      destruct (IH Hnd') as [IHnd IHin]. split.
      * constructor; [| exact IHnd].
        intros Hin. apply IHin in Hin. destruct Hin as [-> | Hin];
          [apply H0; reflexivity | apply Hnotin; exact Hin].
      * intros k'. cbn. rewrite IHin. intuition congruence.
Qed.

Lemma bucketPush_contents (k : string) (v : V) (m : buckets V) :
  Permutation (List.concat (map snd (bucketPush k v m)))
    (List.concat (map snd m) ++ [v]).
Proof.
  induction m as [|[k0 b] m IH]; cbn [bucketPush map snd List.concat].
  - reflexivity.
  - destruct (String.eqb k0 k); cbn [map snd List.concat].
    + rewrite <- !app_assoc. apply Permutation_app_head.
      apply Permutation_app_comm.
    + rewrite <- app_assoc. apply Permutation_app_head. exact IH.
Qed.

Lemma under_app (k : string) (l1 l2 : list V) :
  under key k (l1 ++ l2)%list = (under key k l1 ++ under key k l2)%list.
Proof. apply filter_app. Qed.

Lemma grouped_push (m : buckets V) (seen : list V) (v : V) :
  grouped key m seen ->
  grouped key (bucketPush (key v) v m) (seen ++ [v])%list.
Proof.
  intros [Hnd [Hget Hperm]]. split; [| split].
  - apply bucketPush_keys. exact Hnd.
  - intros k. rewrite bucketGet_push, !Hget.
    unfold bucketOf. rewrite under_app.
    change (under key k [v])
      with (if String.eqb (key v) k then [v] else []).
    destruct (String.eqb (key v) k) eqn:Hk.
    + apply String.eqb_eq in Hk. subst k.
      destruct (under key (key v) seen); reflexivity.
    + rewrite app_nil_r. reflexivity.
  - rewrite bucketPush_contents. apply Permutation_app_tail. exact Hperm.
Qed.

Lemma fold_grouped (l : list V) :
  forall (m : buckets V) (seen : list V),
    grouped key m seen ->
    grouped key (fold_left (fun m v => bucketPush (key v) v m) l m)
      (seen ++ l)%list.
Proof.
  induction l as [|v l IH]; intros m seen H; cbn [fold_left].
  - rewrite app_nil_r. exact H.
  - replace (seen ++ v :: l)%list with ((seen ++ [v]) ++ l)%list
      by (rewrite <- app_assoc; reflexivity).
    apply IH. apply grouped_push. exact H.
Qed.

Lemma groupBy_grouped (l : list V) : grouped key (groupBy key l) l.
Proof.
  apply (fold_grouped l [] []).
  split; [constructor | split; [reflexivity | constructor]].
Qed.

Lemma bucketGet_In (m : buckets V) (k : string) (b : list V) :
  NoDup (map fst m) -> In (k, b) m -> bucketGet k m = Some b.
Proof.
  induction m as [|[k0 b0] m IH]; intros Hnd Hin; [destruct Hin |].
  inversion Hnd as [|? ? Hnotin Hnd']; subst.
  cbn [bucketGet]. destruct Hin as [Heq | Hin].
  - injection Heq as -> ->. rewrite String.eqb_refl. reflexivity.
  - destruct (String.eqb k0 k) eqn:H0; [| apply IH; assumption].
    apply String.eqb_eq in H0. subst k0. exfalso. apply Hnotin.
    apply (in_map fst) in Hin. exact Hin.
Qed.

Lemma bucketGet_Some_In (m : buckets V) (k : string) (b : list V) :
  bucketGet k m = Some b -> In (k, b) m.
Proof.
  induction m as [|[k0 b0] m IH]; cbn [bucketGet]; [discriminate |].
  destruct (String.eqb k0 k) eqn:H0.
  - apply String.eqb_eq in H0. subst k0. intros H. injection H as ->.
    left. reflexivity.
  - intros H. right. apply IH. exact H.
Qed.

(** The buckets of [groupBy]: distinct keys; a bucket is never empty and
    holds, in the order of the list and as many times as there, the
    elements whose key is the bucket's; each element of the list is in the
    bucket of its key and in no other; all buckets together are the list
    up to order. *)
Lemma groupBy_partition (l : list V) :
  NoDup (map fst (groupBy key l)) /\
  (forall k b, In (k, b) (groupBy key l) ->
               b <> [] /\ b = under key k l) /\
  (forall v, In v l ->
             exists b, In (key v, b) (groupBy key l) /\ In v b) /\
  (forall v k b, In (k, b) (groupBy key l) -> In v b -> k = key v) /\
  Permutation (List.concat (map snd (groupBy key l))) l.
Proof.
  destruct (groupBy_grouped l) as [Hnd [Hget Hperm]].
  assert (Hbucket : forall k b, In (k, b) (groupBy key l) ->
                                b <> [] /\ b = under key k l).
  { intros k b Hin. apply (bucketGet_In _ _ _ Hnd) in Hin.
    rewrite Hget in Hin. unfold bucketOf in Hin.
    destruct (under key k l) as [|x xs]; [discriminate |].
    injection Hin as <-. split; [discriminate | reflexivity]. }
  split; [exact Hnd | split; [exact Hbucket | split; [| split]]].
  - intros v Hv.
    assert (Hin : In v (under key (key v) l)).
    { apply filter_In. split; [exact Hv | apply String.eqb_refl]. }
    specialize (Hget (key v)). unfold bucketOf in Hget.
    destruct (under key (key v) l) as [|x xs] eqn:Hu; [destruct Hin |].
    exists (x :: xs). split; [| exact Hin].
    apply bucketGet_Some_In. exact Hget.
  - intros v k b Hin Hv. destruct (Hbucket k b Hin) as [_ ->].
    apply filter_In in Hv. destruct Hv as [_ Hk].
    apply String.eqb_eq in Hk. symmetry. exact Hk.
  - exact Hperm.
Qed.

End Grouping.

(** C8: the module grouper of either generator partitions the descriptors.
    The keys of the buckets are distinct; a bucket holds exactly the
    descriptors of its key, in the order of the list, none dropped and none
    merged; every descriptor is in the bucket of its key and in no other;
    the buckets put together are the list up to order. *)
Theorem toModulesMap_partition :
  (forall features : list PerFile.Descriptor,
      NoDup (map fst (PerFile.toModulesMap features)) /\
      (forall k b, In (k, b) (PerFile.toModulesMap features) ->
                   b <> [] /\ b = under PerFile.modulePath k features) /\
      (forall d, In d features ->
                 exists b, In (PerFile.modulePath d, b)
                             (PerFile.toModulesMap features) /\ In d b) /\
      (forall d k b, In (k, b) (PerFile.toModulesMap features) -> In d b ->
                     k = PerFile.modulePath d) /\
      Permutation (List.concat (map snd (PerFile.toModulesMap features)))
        features) /\
  (forall data : list Combined.Declaration,
      NoDup (map fst (Combined.toModulesMap data)) /\
      (forall k b, In (k, b) (Combined.toModulesMap data) ->
                   b <> [] /\ b = under Combined.decl_module k data) /\
      (forall d, In d data ->
                 exists b, In (Combined.decl_module d, b)
                             (Combined.toModulesMap data) /\ In d b) /\
      (forall d k b, In (k, b) (Combined.toModulesMap data) -> In d b ->
                     k = Combined.decl_module d) /\
      Permutation (List.concat (map snd (Combined.toModulesMap data))) data).
Proof.
  split; intros l; apply groupBy_partition.
Qed.

Lemma toModulesMap_partition_witness :
  In ("src/a/item.html",
      [PerFile.mkDescriptor None "ItemA" "src/a/item.html" None [];
       PerFile.mkDescriptor (Some "") "Other" "src/a/item.html" None []])
    (PerFile.toModulesMap
       [PerFile.mkDescriptor None "ItemA" "src/a/item.html" None [];
        PerFile.mkDescriptor (Some "Shop") "Cart" "src/a/item.html" None [];
        PerFile.mkDescriptor (Some "") "Other" "src/a/item.html" None []]) /\
  [PerFile.mkDescriptor None "ItemA" "src/a/item.html" None [];
   PerFile.mkDescriptor (Some "") "Other" "src/a/item.html" None []]
  = under PerFile.modulePath "src/a/item.html"
      [PerFile.mkDescriptor None "ItemA" "src/a/item.html" None [];
       PerFile.mkDescriptor (Some "Shop") "Cart" "src/a/item.html" None [];
       PerFile.mkDescriptor (Some "") "Other" "src/a/item.html" None []].
Proof.
  assert (Hin : In ("src/a/item.html",
      [PerFile.mkDescriptor None "ItemA" "src/a/item.html" None [];
       PerFile.mkDescriptor (Some "") "Other" "src/a/item.html" None []])
    (PerFile.toModulesMap
       [PerFile.mkDescriptor None "ItemA" "src/a/item.html" None [];
        PerFile.mkDescriptor (Some "Shop") "Cart" "src/a/item.html" None [];
        PerFile.mkDescriptor (Some "") "Other" "src/a/item.html" None []]))
    by (left; reflexivity).
  split; [exact Hin |].
  exact (proj2 (proj1 (proj2 (proj1 toModulesMap_partition _)) _ _ Hin)).
Defined.

(** ** Module keys *)

Lemma replaceRepo_eq (file : string) :
  replaceRepo file =
  if JS.startsWith "bower_components/" file
  then "bower:" ++ JS.skip 17 file
  else if JS.startsWith "node_modules/" file
  then "npm:" ++ JS.skip 13 file
  else match file with
       | EmptyString => EmptyString
       | String c rest => String c (replaceRepo rest)
       end.
Proof. destruct file; reflexivity. Qed.

Lemma replaceRepo_first (root scheme : string) :
  (root = "bower_components/" /\ scheme = "bower:") \/
  (root = "node_modules/" /\ scheme = "npm:") ->
  forall pre rest,
    noRootBefore pre (root ++ rest) = true ->
    replaceRepo (pre ++ root ++ rest) = pre ++ scheme ++ rest.
Proof.
  intros Hroot pre rest. induction pre as [|c pre IH]; intros Hpre.
  - destruct Hroot as [[-> ->] | [-> ->]]; reflexivity.
  - cbn [noRootBefore] in Hpre. apply andb_true_iff in Hpre.
    destruct Hpre as [Hhere Hpre]. apply negb_true_iff in Hhere.
    unfold startsWithRoot in Hhere. apply orb_false_iff in Hhere.
    destruct Hhere as [Hb Hn].
    rewrite replaceRepo_eq, Hb, Hn. cbn [String.append].
    rewrite (IH Hpre). reflexivity.
Qed.

Lemma replaceRepo_none (file : string) :
  noRootBefore file "" = true -> replaceRepo file = file.
Proof.
  induction file as [|c file IH]; intros H; [reflexivity |].
  cbn [noRootBefore] in H. apply andb_true_iff in H.
  destruct H as [Hhere H]. apply negb_true_iff in Hhere.
  unfold startsWithRoot in Hhere. apply orb_false_iff in Hhere.
  destruct Hhere as [Hb Hn].
  assert (E : (String c file ++ "") = String c file).
  { clear. induction file as [|d file IH] in c |- *; [reflexivity |].
    cbn [String.append] in *. f_equal. apply IH. }
  rewrite E in Hb, Hn.
  rewrite replaceRepo_eq, Hb, Hn. rewrite (IH H). reflexivity.
Qed.

Lemma append_length (a b : string) :
  String.length (a ++ b) = String.length a + String.length b.
Proof.
  induction a as [|c a IH]; cbn; [reflexivity | rewrite IH; reflexivity].
Qed.

(** C5 (as amended): the module key is the originating file path in which
    the leftmost [bower_components/] or [node_modules/], leading or not,
    is replaced by [bower:] or [npm:].  The per-file generator appends a
    hash and the namespace when the namespace is not empty, so that of two
    features of one file, one with a namespace and one without, the keys
    differ; the combined generator uses the rewritten path alone. *)
Theorem module_key_derivation :
  (forall rest,
      replaceRepo ("bower_components/" ++ rest) = "bower:" ++ rest /\
      replaceRepo ("node_modules/" ++ rest) = "npm:" ++ rest) /\
  (forall pre rest,
      noRootBefore pre ("bower_components/" ++ rest) = true ->
      replaceRepo (pre ++ "bower_components/" ++ rest)
      = pre ++ "bower:" ++ rest) /\
  (forall pre rest,
      noRootBefore pre ("node_modules/" ++ rest) = true ->
      replaceRepo (pre ++ "node_modules/" ++ rest) = pre ++ "npm:" ++ rest) /\
  (forall file, noRootBefore file "" = true -> replaceRepo file = file) /\
  (forall d : PerFile.Descriptor,
      PerFile.modulePath d =
      replaceRepo (PerFile.desc_module d)
      ++ match PerFile.desc_namespace d with
         | Some (String _ _ as ns) => "#" ++ ns
         | _ => EmptyString
         end) /\
  (forall d1 d2 : PerFile.Descriptor,
      PerFile.desc_module d1 = PerFile.desc_module d2 ->
      JS.truthy (PerFile.desc_namespace d1) = true ->
      JS.truthy (PerFile.desc_namespace d2) = false ->
      PerFile.modulePath d1 <> PerFile.modulePath d2) /\
  (forall (feature : Combined.Feature) (d : Combined.Declaration),
      Combined.getFeatureDetails feature = Returns d ->
      Combined.decl_module d = replaceRepo (Combined.sourceFile feature)).
Proof.
  split; [| split; [| split; [| split; [| split; [| split]]]]].
  - intros rest. split; reflexivity.
  - intros pre rest. apply replaceRepo_first. left. split; reflexivity.
  - intros pre rest. apply replaceRepo_first. right. split; reflexivity.
  - apply replaceRepo_none.
  - intros d. unfold PerFile.modulePath.
    destruct (PerFile.desc_namespace d) as [[|c ns]|]; reflexivity.
  - intros d1 d2 Hfile H1 H2 Heq.
    apply (f_equal String.length) in Heq.
    unfold PerFile.modulePath in Heq.
    rewrite H1, H2, Hfile, !append_length in Heq.
    cbn [String.length] in Heq. lia.
  - intros feature d. unfold Combined.getFeatureDetails.
    destruct (Combined.matchIdentifier _) as [namespace identifier].
    destruct (match Combined.methods feature with
              | Some ms => _
              | None => _
              end) as [ms|]; cbn [bind]; [| discriminate].
    destruct (match Combined.properties feature with
              | Some ps => _
              | None => _
              end) as [ps|]; cbn [bind]; [| discriminate].
    intros H. injection H as <-. reflexivity.
Qed.

Lemma module_key_derivation_witness :
  replaceRepo ("demo/" ++ "bower_components/" ++ "polymer/polymer.html")
  = "demo/" ++ "bower:" ++ "polymer/polymer.html" /\
  replaceRepo ("src/" ++ "node_modules/" ++ "lit/lit.html")
  = "src/" ++ "npm:" ++ "lit/lit.html" /\
  replaceRepo "src/my-element.html" = "src/my-element.html" /\
  PerFile.modulePath
    (PerFile.mkDescriptor (Some "Polymer") "AppBehavior" "src/app.html" None [])
  <> PerFile.modulePath
       (PerFile.mkDescriptor None "MyApp" "src/app.html" None []) /\
  (exists d, Combined.getFeatureDetails KeySamples.appBehavior = Returns d /\
             Combined.decl_module d = replaceRepo "src/app.html").
Proof.
  pose proof module_key_derivation as [_ [Hb [Hn [Hnone [_ [Hns Hc]]]]]].
  split; [| split; [| split; [| split]]].
  - apply Hb. reflexivity.
  - apply Hn. reflexivity.
  - apply Hnone. reflexivity.
  - apply Hns; reflexivity.
  - eexists. split; [reflexivity |].
    exact (Hc KeySamples.appBehavior _ eq_refl).
Defined.

(** C5, as stated, fails twice.  A dependency root that does not lead the
    path is rewritten all the same; and in the combined generator the key
    of a namespaced feature carries no namespace, so that it shares the
    bucket of the other features of its file. *)
Lemma module_key_differs_from_spec :
  PerFile.modulePath KeySamples.nested = "demo/bower:polymer/polymer.html" /\
  specModuleKey (PerFile.desc_module KeySamples.nested)
    (PerFile.desc_namespace KeySamples.nested)
  = "demo/bower_components/polymer/polymer.html" /\
  (exists b e,
      Combined.getFeatureDetails KeySamples.appBehavior = Returns b /\
      Combined.getFeatureDetails KeySamples.appElement = Returns e /\
      Combined.decl_namespace b = Some "Polymer" /\
      Combined.decl_namespace e = None /\
      Combined.decl_module b = Combined.decl_module e /\
      Combined.decl_module b
      <> specModuleKey (Combined.sourceFile KeySamples.appBehavior)
           (Combined.decl_namespace b)).
Proof.
  split; [reflexivity | split; [reflexivity |]].
  do 2 eexists.
  split; [reflexivity | split; [reflexivity |]].
  cbn. repeat split. discriminate.
Qed.

(** ** Classification on unexpected analyzer output *)

(** C3 fails on the code.  A free function reaches the classifier of the
    per-file generator (its kind is supported) and has neither a class
    name nor a tag name: [name.replace] throws.  The first generator
    throws likewise on an element without a name.  The combined generator
    takes the empty text for a missing identifier and returns, and maps an
    undefined return type to [any]; but it throws on a public property
    without a type ([type.startsWith] comes before [parseType]), and the
    doc comment it builds for a namespaced feature that had none has a tag
    and no description, which [printJSdoc] cannot print. *)
Theorem classification_throws :
  PerFile.filterFeatures Samples.freeFunction = true /\
  PerFile.getFeatureDetails Samples.freeFunction = Throws /\
  PerFile.generate [Samples.freeFunction] = Throws /\
  Legacy.filterFeatures Scenario.anonymousElement = true /\
  Legacy.describe Scenario.anonymousElement = Throws /\
  (exists d, Combined.getFeatureDetails Scenario.nameless = Returns d /\
             Combined.decl_name d = EmptyString) /\
  (exists d, Combined.getFeatureDetails Scenario.untypedReturn = Returns d) /\
  Combined.getFeatureDetails Scenario.untypedProperty = Throws /\
  (exists d, Combined.getFeatureDetails Scenario.undocumented = Returns d /\
             Combined.decl_jsDoc d
             = Combined.mkJSDoc None (Some [Combined.namespaceTag "Polymer"]) /\
             Combined.printJSdoc (Combined.decl_jsDoc d) = Throws) /\
  Combined.generate [Scenario.undocumented] = Throws /\
  (exists text, Combined.generate [Scenario.documented] = Returns (Some text)).
Proof.
  repeat split; try reflexivity.
  - eexists. split; reflexivity.
  - eexists. reflexivity.
  - eexists. repeat split; reflexivity.
  - eexists. reflexivity.
Qed.

(** ** The combined file *)

Section CombinedFile.

Lemma trimStart_keeps_end (s : string) (c : ascii) :
  JS.isSpace c = false ->
  exists t, JS.trimStart (s ++ String c "") = t ++ String c "".
Proof.
  intros Hc. induction s as [|a s IH]; cbn [String.append JS.trimStart].
  - rewrite Hc. exists EmptyString. reflexivity.
  - destruct (JS.isSpace a); [exact IH |].
    exists (String a s). reflexivity.
Qed.

Lemma allSpace_end (s : string) (c : ascii) :
  JS.isSpace c = false -> JS.allSpace (s ++ String c "") = false.
Proof.
  intros Hc. induction s as [|a s IH]; cbn [String.append JS.allSpace].
  - rewrite Hc. reflexivity.
  - rewrite IH. apply andb_false_r.
Qed.

Lemma trimEnd_keeps_end (s : string) (c : ascii) :
  JS.isSpace c = false ->
  JS.trimEnd (s ++ String c "") = s ++ String c "".
Proof.
  intros Hc. induction s as [|a s IH].
  - cbn. rewrite Hc. reflexivity.
  - cbn [String.append JS.trimEnd].
    change (JS.allSpace (String a (s ++ String c "")))
      with (JS.isSpace a && JS.allSpace (s ++ String c "")).
    rewrite (allSpace_end s c Hc), andb_false_r, IH. reflexivity.
Qed.

Lemma append_assoc (a b c : string) : (a ++ b) ++ c = a ++ b ++ c.
Proof.
  induction a as [|x a IH]; cbn; [reflexivity | rewrite IH; reflexivity].
Qed.

(** A rendered block: a line feed, then a text that ends with the closing
    brace of the module. *)
Lemma printModule_shape (entry : string * list Combined.Declaration)
    (block : string) :
  Combined.printModule entry = Returns block ->
  exists core, block = JS.nl ++ core ++ "}".
Proof.
  destruct entry as [path contents]. unfold Combined.printModule.
  destruct (mapM Combined.printDeclaration contents) as [printed|];
    cbn [bind]; [| discriminate].
  intros H.
  apply (f_equal (fun c => match c with
                           | Returns b => b
                           | Throws => EmptyString
                           end)) in H.
  cbv beta match in H. subst block.
  exists ("declare module " ++ JS.quoted path ++ " {"
          ++ String.concat "" printed ++ JS.nl).
  rewrite !append_assoc. reflexivity.
Qed.

Lemma mapM_length {A B : Type} (f : A -> completion B) (l : list A)
    (out : list B) :
  mapM f l = Returns out -> List.length out = List.length l.
Proof.
  intros H. apply mapM_Forall2 in H. apply Forall2_length in H.
  symmetry. exact H.
Qed.

(** Blocks that each start with a line feed, joined by a line feed, are
    the blocks without it, a blank line between two of them, after one line
    feed. *)
Lemma join_blocks (cores : list string) :
  cores <> [] ->
  JS.join JS.nl (map (fun core => JS.nl ++ core) cores)
  = JS.nl ++ JS.join (JS.nl ++ JS.nl) cores.
Proof.
  induction cores as [|c cores IH]; intros Hne; [contradiction |].
  destruct cores as [|c' cores]; [reflexivity |].
  change (JS.join JS.nl (map (fun core => JS.nl ++ core) (c :: c' :: cores)))
    with ((JS.nl ++ c) ++ JS.nl
          ++ JS.join JS.nl (map (fun core => JS.nl ++ core) (c' :: cores))).
  rewrite IH by discriminate.
  change (JS.join (JS.nl ++ JS.nl) (c :: c' :: cores))
    with (c ++ (JS.nl ++ JS.nl) ++ JS.join (JS.nl ++ JS.nl) (c' :: cores)).
  rewrite !append_assoc. reflexivity.
Qed.

Lemma join_ends (sep : string) (cores : list string) :
  cores <> [] ->
  Forall (fun core => exists t, core = t ++ "}") cores ->
  exists t, JS.join sep cores = t ++ "}".
Proof.
  induction cores as [|c cores IH]; intros Hne Hall; [contradiction |].
  inversion Hall as [|? ? Hc Hrest]; subst.
  destruct cores as [|c' cores]; [exact Hc |].
  destruct (IH ltac:(discriminate) Hrest) as [t Ht].
  exists (c ++ sep ++ t).
  change (JS.join sep (c :: c' :: cores))
    with (c ++ sep ++ JS.join sep (c' :: cores)).
  rewrite Ht, !append_assoc. reflexivity.
Qed.

End CombinedFile.

(** ** Scenario B: a shared behavior *)

(** C2 (as amended): for the behavior [MyBehavior] with the one public
    method [doThing], the output is the module of its file, holding an
    interface [MyBehavior] with the method and the open-ended constructor
    signature, followed by the constant [MyBehavior] of that type.  The
    method line is [doThing();] when the analyzer gave the method no return
    record, and [doThing(): any;] when it gave one without a type or with
    the type [void]. *)
Theorem behavior_rendering :
  forall (file : string) (ret : option (option string)),
    ret = None \/ ret = Some None \/ ret = Some (Some "void") ->
    Combined.generate [Scenario.myBehavior file ret]
    = Returns (Some ("declare module " ++ JS.quoted (replaceRepo file) ++ " {"
                     ++ Scenario.myBehaviorText
                          match ret with
                          | None => "doThing();"
                          | Some _ => "doThing(): any;"
                          end
                     ++ JS.nl ++ "}" ++ JS.nl)).
Proof.
  intros file ret Hret.
  assert (Htrim : forall body : string,
             JS.trim (JS.nl ++ "declare module "
                      ++ JS.quoted (replaceRepo file) ++ body ++ "}")
             = "declare module " ++ JS.quoted (replaceRepo file)
               ++ body ++ "}").
  { intros body.
    change (JS.trim (JS.nl ++ "declare module "
                     ++ JS.quoted (replaceRepo file) ++ body ++ "}"))
      with (JS.trimEnd ("declare module " ++ JS.quoted (replaceRepo file)
                        ++ body ++ "}")).
    rewrite <- !append_assoc.
    apply trimEnd_keeps_end. reflexivity. }
  assert (Hgen : forall member : string,
    Returns (Some (JS.trim (JS.nl ++ "declare module "
                     ++ JS.quoted (replaceRepo file)
                     ++ (" {" ++ Scenario.myBehaviorText member ++ JS.nl)
                     ++ "}") ++ JS.nl))
    = Returns (Some ("declare module " ++ JS.quoted (replaceRepo file) ++ " {"
                     ++ Scenario.myBehaviorText member
                     ++ JS.nl ++ "}" ++ JS.nl))).
  { intros member. rewrite Htrim. rewrite !append_assoc. reflexivity. }
  destruct Hret as [-> | [-> | ->]].
  - rewrite <- (Hgen "doThing();"). reflexivity.
  - rewrite <- (Hgen "doThing(): any;"). reflexivity.
  - rewrite <- (Hgen "doThing(): any;"). reflexivity.
Qed.

Lemma behavior_rendering_witness :
  Combined.generate
    [Scenario.myBehavior "bower_components/my-behavior/my-behavior.html"
       (Some (Some "void"))]
  = Returns (Some ("declare module "
                   ++ JS.quoted "bower:my-behavior/my-behavior.html" ++ " {"
                   ++ Scenario.myBehaviorText "doThing(): any;"
                   ++ JS.nl ++ "}" ++ JS.nl)).
Proof.
  exact (behavior_rendering "bower_components/my-behavior/my-behavior.html"
           (Some (Some "void")) (or_intror (or_intror eq_refl))).
Defined.

(** C2, as stated, fails: whatever the analyzer says of the return of
    [doThing], the output has no [doThing(): void;]. *)
Lemma behavior_method_not_void :
  (exists text,
      Combined.generate [Scenario.myBehavior "src/my-behavior.html" None]
      = Returns (Some text) /\
      JS.includes "doThing();" text = true /\
      JS.includes "doThing(): void;" text = false) /\
  (exists text,
      Combined.generate
        [Scenario.myBehavior "src/my-behavior.html" (Some (Some "void"))]
      = Returns (Some text) /\
      JS.includes "doThing(): any;" text = true /\
      JS.includes "doThing(): void;" text = false).
Proof.
  split; (eexists; split; [reflexivity | split; reflexivity]).
Qed.

(** C10: in the combined generator the file is written exactly when there
    is a rendered module block.  Without a block (no supported feature)
    nothing is written.  With blocks the text written is the blocks, a
    blank line between two of them, trimmed, and one line feed: it ends
    with the closing brace of the last module and that line feed.  When
    rendering throws nothing is written either. *)
Theorem combined_file_written :
  (forall data : buckets Combined.Declaration,
      match mapM Combined.printModule data with
      | Throws => Combined.writeTypes data = Throws
      | Returns blocks =>
          (blocks = [] <-> data = []) /\
          (Combined.writeTypes data = Returns None <-> blocks = []) /\
          (blocks <> [] ->
           exists cores text,
             blocks = map (fun core => JS.nl ++ core) cores /\
             Combined.writeTypes data
             = Returns (Some (JS.trim (JS.join (JS.nl ++ JS.nl) cores)
                              ++ JS.nl)) /\
             JS.trim (JS.join (JS.nl ++ JS.nl) cores) = text ++ "}")
      end) /\
  (forall features : list Combined.Feature,
      filter Combined.filterFeatures features = [] ->
      Combined.generate features = Returns None).
Proof.
  split.
  - intros data. unfold Combined.writeTypes.
    destruct (mapM Combined.printModule data) as [blocks|] eqn:Hblocks;
      cbn [bind]; [| reflexivity].
    assert (Hlen := mapM_length _ _ _ Hblocks).
    assert (Hshape : exists cores,
               blocks = map (fun core => JS.nl ++ core) cores /\
               Forall (fun core => exists t, core = t ++ "}") cores).
    { apply mapM_Forall2 in Hblocks. clear Hlen.
      induction Hblocks as [|e b data blocks Heb _ IH].
      - exists []. split; [reflexivity | constructor].
      - destruct IH as [cores [-> Hall]].
        destruct (printModule_shape e b Heb) as [core ->].
        exists ((core ++ "}") :: cores). split; [reflexivity |].
        constructor; [exists core; reflexivity | exact Hall]. }
    destruct Hshape as [cores [-> Hall]].
    split; [| split].
    + split; intros H.
      * destruct cores; [| discriminate H].
        destruct data; [reflexivity | discriminate Hlen].
      * subst data. destruct cores; [reflexivity | discriminate Hlen].
    + destruct cores as [|c cores]; [split; reflexivity |].
      rewrite join_blocks by discriminate.
      split; intros H; discriminate H.
    + intros Hne. assert (Hcores : cores <> []).
      { intros ->. apply Hne. reflexivity. }
      exists cores.
      destruct (join_ends (JS.nl ++ JS.nl) cores Hcores Hall) as [t Ht].
      destruct (trimStart_keeps_end t "}" eq_refl) as [t' Ht'].
      exists t'. split; [reflexivity |].
      rewrite join_blocks by exact Hcores.
      split.
      * reflexivity.
      * unfold JS.trim. rewrite Ht, Ht'.
        apply trimEnd_keeps_end. reflexivity.
  - intros features Hnone. unfold Combined.generate.
    rewrite Hnone. reflexivity.
Qed.

Lemma combined_file_written_witness :
  filter Combined.filterFeatures [Samples.freeFunctionCombined] = [] /\
  Combined.generate [Samples.freeFunctionCombined] = Returns None.
Proof.
  split; [reflexivity |].
  apply (proj2 combined_file_written). reflexivity.
Defined.

(** ** Files of the per-file generator *)

(** Two blocks whose module paths differ are kept apart, even when the
    file name derived from the two paths is the same: the same file is
    then written twice, one block each time. *)
Lemma split_keeps_paths_apart (block1 block2 path1 path2 name : string) :
  PerFile.matchModulePath block1 = Some path1 ->
  PerFile.matchModulePath block2 = Some path2 ->
  path1 <> path2 ->
  PerFile.matchFileName path1 = Some name ->
  PerFile.matchFileName path2 = Some name ->
  exists filesMap,
    PerFile.splitModulesToFiles [block1; block2] = Returns filesMap /\
    PerFile.writes filesMap
    = [(name ++ ".d.ts", block1 ++ JS.nl); (name ++ ".d.ts", block2 ++ JS.nl)].
Proof.
  intros H1 H2 Hne Hn1 Hn2.
  unfold PerFile.splitModulesToFiles. cbn [PerFile.splitInto].
  rewrite H1. cbn [fromOption bind PerFile.filesPush].
  rewrite Hn1. cbn [fromOption bind PerFile.splitInto].
  rewrite H2. cbn [fromOption bind PerFile.filesPush].
  apply String.eqb_neq in Hne. rewrite Hne.
  cbn [PerFile.filesPush]. rewrite Hn2. cbn [fromOption bind].
  eexists. split; reflexivity.
Qed.

(** C1 fails on the code.  The blocks are grouped by the path of their
    module, not by the file name derived from it: two modules whose paths
    differ and whose file names agree give two writes to one file, and
    whichever completes last, the file holds one block only.  Two keys
    that differ by a namespace share their path, and their blocks are
    written together. *)
Theorem colliding_file_names_overwrite :
  (ds <- mapM PerFile.getFeatureDetails [Collision.itemA; Collision.itemB] ;;
   Returns (PerFile.buildModules (PerFile.toModulesMap ds)))
  = Returns [Collision.blockA; Collision.blockB]
  /\
  PerFile.splitModulesToFiles [Collision.blockA; Collision.blockB]
  = Returns [("src/a/item.html", PerFile.mkFileInfo "item" [Collision.blockA]);
             ("src/b/item.html", PerFile.mkFileInfo "item" [Collision.blockB])]
  /\
  PerFile.generate [Collision.itemA; Collision.itemB]
  = Returns [("item.d.ts", Collision.blockA ++ JS.nl);
             ("item.d.ts", Collision.blockB ++ JS.nl)]
  /\
  PerFile.contentAfter "item.d.ts"
    [("item.d.ts", Collision.blockA ++ JS.nl);
     ("item.d.ts", Collision.blockB ++ JS.nl)]
  = Some (Collision.blockB ++ JS.nl)
  /\
  PerFile.contentAfter "item.d.ts"
    [("item.d.ts", Collision.blockB ++ JS.nl);
     ("item.d.ts", Collision.blockA ++ JS.nl)]
  = Some (Collision.blockA ++ JS.nl)
  /\
  JS.includes "ItemA" (Collision.blockB ++ JS.nl) = false
  /\
  JS.includes "ItemB" (Collision.blockA ++ JS.nl) = false
  /\
  PerFile.generate [Collision.itemA; Collision.cart]
  = Returns [("item.d.ts",
              Collision.blockA ++ JS.nl ++ JS.nl ++ Collision.blockNS
              ++ JS.nl)].
Proof. repeat split; vm_compute; reflexivity. Qed.

(* ===================================================================== *)
(** * Further properties of the generators                                *)
(* ===================================================================== *)

(** ** Casing of usual names *)





Lemma endsWithHyphen_tail (c d : ascii) (s : string) :
  endsWithHyphen (String c (String d s)) = endsWithHyphen (String d s).
Proof. reflexivity. Qed.

Lemma camelRest_drops_hyphens (n : nat) :
  forall s, String.length s <= n ->
            noDoubleHyphen s = true -> endsWithHyphen s = false ->
            oneLine s = true ->
            hasChar "-" (camelRest s) = false.
Proof.
  induction n as [|n IH]; intros s Hlen Hdh Hend Hline.
  - destruct s; [reflexivity | cbn in Hlen; lia].
  - destruct s as [|c [|d r]]; [reflexivity | |].
    + cbn in Hend. cbn. rewrite Hend. reflexivity.
    + assert (Hdr : noDoubleHyphen (String d r) = true)
        by (eapply noDoubleHyphen_tail; eauto).
      assert (Hr : noDoubleHyphen r = true)
        by (eapply noDoubleHyphen_tail; eauto).
      rewrite endsWithHyphen_tail in Hend.
      unfold oneLine in Hline. cbn [allChars] in Hline.
      apply andb_true_iff in Hline. destruct Hline as [_ Hline].
      apply andb_true_iff in Hline. destruct Hline as [Hd Hline].
      apply negb_true_iff in Hd.
      cbn [String.length] in Hlen.
      rewrite camelRest_pair, Hd. cbn [negb].
      rewrite andb_true_r.
      destruct (Ascii.eqb c "-") eqn:Hc.
      * assert (Hdh' : Ascii.eqb d "-" = false).
        { cbn [noDoubleHyphen] in Hdh. rewrite Hc in Hdh.
          destruct (Ascii.eqb d "-"); [discriminate Hdh | reflexivity]. }
        cbn [hasChar]. rewrite toUpperCase1_hyphen, Hdh'. cbn [orb].
        apply IH; [lia | exact Hr | | exact Hline].
        destruct r as [|e r]; [reflexivity |].
        rewrite endsWithHyphen_tail in Hend. exact Hend.
      * cbn [hasChar]. rewrite Hc. cbn [orb].
        apply IH; [cbn [String.length]; lia | exact Hdr | exact Hend |].
        unfold oneLine. cbn [allChars]. rewrite Hd. exact Hline.
Qed.

(** A name on one line that neither starts nor ends with a hyphen and has
    no two hyphens in a row comes out without any hyphen. *)
Theorem camelCase_drops_hyphens :
  forall name : string,
    noDoubleHyphen name = true ->
    JS.startsWith "-" name = false ->
    endsWithHyphen name = false ->
    oneLine name = true ->
    hasChar "-" (camelCase name) = false.
Proof.
  intros [|c r] Hdh Hstart Hend Hline; [reflexivity |].
  assert (Hc : Ascii.eqb c "-" = false).
  { change (Ascii.eqb "-" c && true = false) in Hstart.
    rewrite andb_true_r, Ascii.eqb_sym in Hstart. exact Hstart. }
  unfold oneLine in Hline. cbn [allChars] in Hline.
  apply andb_true_iff in Hline. destruct Hline as [Ht Hline].
  apply negb_true_iff in Ht.
  unfold camelCase. rewrite Ht. cbn [hasChar].
  rewrite toUpperCase1_hyphen, Hc. cbn [orb].
  apply (camelRest_drops_hyphens (String.length r)); [lia | | | exact Hline].
  - eapply noDoubleHyphen_tail; eauto.
  - destruct r as [|d r]; [reflexivity |].
    rewrite endsWithHyphen_tail in Hend. exact Hend.
Qed.

Lemma camelCase_drops_hyphens_witness :
  camelCase "paper-icon-button" = "PaperIconButton" /\
  hasChar "-" (camelCase "paper-icon-button") = false.
Proof.
  split; [reflexivity |].
  apply camelCase_drops_hyphens; reflexivity.
Defined.

(** ** Names and namespaces *)

Section Splitting.

Lemma splitDots_cons (s : string) :
  exists first rest, JS.splitDots s = first :: rest.
Proof.
  destruct s as [|c s]; cbn [JS.splitDots]; [eauto |].
  destruct (Ascii.eqb c "."); [eauto |].
  destruct (JS.splitDots s); eauto.
Qed.

Lemma join_cons_cons (sep x y : string) (l : list string) :
  JS.join sep (x :: y :: l) = x ++ sep ++ JS.join sep (y :: l).
Proof. reflexivity. Qed.

Lemma join_splitDots (s : string) : JS.join "." (JS.splitDots s) = s.
Proof.
  induction s as [|c s IH]; [reflexivity |].
  cbn [JS.splitDots]. destruct (Ascii.eqb c ".") eqn:Hc.
  - apply Ascii.eqb_eq in Hc. subst c.
    destruct (splitDots_cons s) as [first [rest Hs]].
    rewrite Hs in *. rewrite join_cons_cons, IH. reflexivity.
  - destruct (splitDots_cons s) as [first [rest Hs]].
    rewrite Hs in *. destruct rest as [|y rest].
    + cbn [JS.join] in *. rewrite IH. reflexivity.
    + rewrite join_cons_cons in *. rewrite <- IH. reflexivity.
Qed.

Lemma splitDots_no_dot (s : string) :
  Forall (fun part => hasChar "." part = false) (JS.splitDots s).
Proof.
  induction s as [|c s IH]; [repeat constructor |].
  cbn [JS.splitDots]. destruct (Ascii.eqb c ".") eqn:Hc.
  - constructor; [reflexivity | exact IH].
  - destruct (JS.splitDots s) as [|first rest];
      [repeat constructor; cbn; rewrite Hc; reflexivity |].
    inversion IH as [|? ? Hfirst Hrest]; subst.
    constructor; [| exact Hrest].
    cbn [hasChar]. rewrite Hc, Hfirst. reflexivity.
Qed.

Lemma join_snoc (sep x : string) (init : list string) :
  JS.join sep (init ++ [x])%list =
  match init with
  | [] => x
  | _ :: _ => JS.join sep init ++ sep ++ x
  end.
Proof.
  induction init as [|a init IH]; [reflexivity |].
  destruct init as [|b init]; [reflexivity |].
  change (JS.join sep ((a :: b :: init) ++ [x])%list)
    with (a ++ sep ++ JS.join sep ((b :: init) ++ [x])%list).
  rewrite IH, join_cons_cons, !append_assoc. reflexivity.
Qed.

End Splitting.

Lemma splitName_class (feature : PerFile.Feature) (c : ascii)
    (cls : string) :
  PerFile.className feature = Some (String c cls) ->
  exists ns name,
    PerFile.splitName feature = Returns (Some ns, name) /\
    hasChar "." name = false /\
    ((ns = EmptyString /\ String c cls = name)
     \/ String c cls = ns ++ "." ++ name).
Proof.
  intros Hcls. unfold PerFile.splitName. rewrite Hcls.
  remember (JS.splitDots (String c cls)) as parts eqn:Eparts.
  assert (Hparts : parts <> []).
  { destruct (splitDots_cons (String c cls)) as [a [b Hab]].
    rewrite Eparts, Hab. discriminate. }
  pose proof (app_removelast_last EmptyString Hparts) as Hsplit.
  pose proof (splitDots_no_dot (String c cls)) as Hall.
  pose proof (join_splitDots (String c cls)) as Hjoin.
  rewrite <- Eparts in Hall, Hjoin.
  exists (JS.join "." (PerFile.allButLast parts)), (PerFile.lastPart parts).
  split; [reflexivity |].
  unfold PerFile.allButLast, PerFile.lastPart.
  remember (removelast parts) as init eqn:Einit.
  remember (last parts EmptyString) as name eqn:Ename.
  clear Einit Ename Eparts. subst parts.
  split.
  - apply Forall_app in Hall. destruct Hall as [_ Hlast].
    inversion Hlast; subst. assumption.
  - rewrite join_snoc in Hjoin. destruct init as [|a init].
    + left. split; [reflexivity | symmetry; exact Hjoin].
    + right. symmetry. exact Hjoin.
Qed.

(** In the per-file generator a non-empty class name wins over the tag
    name and is cut at its last dot: the name is what follows (it has no
    dot) and the namespace what precedes, empty when there is no dot.
    Without a class name the tag name is the name and there is no
    namespace.  The descriptor carries the name in identifier case. *)
Theorem perfile_name_and_namespace :
  (forall (feature : PerFile.Feature) (cls : string)
          (ps : list PerFile.Property),
      PerFile.className feature = Some cls ->
      cls <> EmptyString ->
      PerFile.properties feature = Some ps ->
      exists ns name d,
        PerFile.getFeatureDetails feature = Returns d /\
        PerFile.desc_namespace d = Some ns /\
        PerFile.desc_name d = camelCase name /\
        hasChar "." name = false /\
        ((ns = EmptyString /\ cls = name) \/ cls = ns ++ "." ++ name)) /\
  (forall (feature : PerFile.Feature) (tag : string)
          (ps : list PerFile.Property),
      PerFile.className feature = None \/
      PerFile.className feature = Some EmptyString ->
      PerFile.tagName feature = Some tag ->
      PerFile.properties feature = Some ps ->
      exists d,
        PerFile.getFeatureDetails feature = Returns d /\
        PerFile.desc_namespace d = None /\
        PerFile.desc_name d = camelCase tag).
Proof.
  split.
  - intros feature cls ps Hcls Hne Hps.
    destruct cls as [|c cls]; [contradiction |].
    destruct (splitName_class feature c cls Hcls)
      as [ns [name [Hsplit [Hdot Hcut]]]].
    exists ns, name. unfold PerFile.getFeatureDetails.
    rewrite Hsplit, Hps. cbn [bind].
    eexists. split; [reflexivity |].
    cbn [PerFile.desc_namespace PerFile.desc_name].
    split; [reflexivity | split; [reflexivity | split; assumption]].
  - intros feature tag ps Hcls Htag Hps.
    unfold PerFile.getFeatureDetails, PerFile.splitName.
    rewrite Htag, Hps.
    destruct Hcls as [-> | ->]; cbn [bind];
      (eexists; split; [reflexivity | split; reflexivity]).
Qed.

Lemma perfile_name_and_namespace_witness :
  exists ns name d,
    PerFile.getFeatureDetails Collision.cart = Returns d /\
    PerFile.desc_namespace d = Some ns /\
    PerFile.desc_name d = camelCase name /\
    hasChar "." name = false /\
    ((ns = EmptyString /\ "Shop.Cart" = name)
     \/ "Shop.Cart" = ns ++ "." ++ name).
Proof.
  apply (proj1 perfile_name_and_namespace Collision.cart "Shop.Cart" []).
  - reflexivity.
  - discriminate.
  - reflexivity.
Defined.

Lemma span_word_dot (ns rest : string) :
  allChars JS.isWord ns = true ->
  JS.span JS.isWord (ns ++ String "." rest) = (ns, String "." rest).
Proof.
  induction ns as [|c ns IH]; intros H; [reflexivity |].
  cbn [allChars] in H. apply andb_true_iff in H. destruct H as [Hc Hns].
  cbn [String.append JS.span]. rewrite Hc, (IH Hns). reflexivity.
Qed.

Lemma span_append (p : ascii -> bool) (s : string) :
  s = fst (JS.span p s) ++ snd (JS.span p s).
Proof.
  induction s as [|c s IH]; [reflexivity |].
  cbn [JS.span]. destruct (p c); [| reflexivity].
  destruct (JS.span p s) as [a b]. cbn [fst snd] in *.
  cbn [String.append]. rewrite <- IH. reflexivity.
Qed.

Lemma hasChar_append (c : ascii) (a b : string) :
  hasChar c (a ++ b) = hasChar c a || hasChar c b.
Proof.
  induction a as [|d a IH]; [reflexivity |].
  cbn [String.append hasChar]. rewrite IH, orb_assoc. reflexivity.
Qed.

Lemma matchIdentifier_namespaced (ns rest : string) :
  ns <> EmptyString -> allChars JS.isWord ns = true ->
  Combined.matchIdentifier (ns ++ "." ++ rest)
  = (Some ns, Combined.firstLine rest).
Proof.
  intros Hne Hword. unfold Combined.matchIdentifier.
  change (ns ++ "." ++ rest) with (ns ++ String "." rest).
  rewrite (span_word_dot ns rest Hword).
  destruct ns as [|c ns]; [contradiction | reflexivity].
Qed.

Lemma matchIdentifier_plain (id : string) :
  hasChar "." id = false ->
  Combined.matchIdentifier id = (None, Combined.firstLine id).
Proof.
  intros Hdot. unfold Combined.matchIdentifier.
  pose proof (span_append JS.isWord id) as Hid.
  destruct (JS.span JS.isWord id) as [word rest]. cbn [fst snd] in Hid.
  destruct word as [|w word]; [reflexivity |].
  destruct rest as [|c rest]; [reflexivity |].
  destruct (Ascii.eqb c ".") eqn:Hc; [| reflexivity].
  rewrite Hid, hasChar_append in Hdot. cbn [hasChar] in Hdot.
  rewrite Hc in Hdot. rewrite !orb_true_r in Hdot. discriminate Hdot.
Qed.

(** In the combined generator the first identifier alone names the
    feature.  When it starts with word characters and a dot, these
    characters are the namespace, whatever follows on the line is the name
    (further dots stay in it), and a [namespace] tag is added at the end
    of the tags of the doc comment.  An identifier without any dot, or a
    missing one, gives no namespace and leaves the doc comment alone. *)
Theorem combined_name_and_namespace :
  (forall (feature : Combined.Feature) (ns rest : string)
          (others : list string) (d : Combined.Declaration),
      Combined.identifiers feature = (ns ++ "." ++ rest) :: others ->
      ns <> EmptyString ->
      allChars JS.isWord ns = true ->
      Combined.getFeatureDetails feature = Returns d ->
      Combined.decl_namespace d = Some ns /\
      Combined.decl_name d = camelCase (Combined.firstLine rest) /\
      Combined.decl_jsDoc d =
      match Combined.jsdoc feature with
      | Some doc =>
          Combined.mkJSDoc (Combined.doc_description doc)
            (Some (match Combined.doc_tags doc with
                   | Some tags => tags
                   | None => []
                   end ++ [Combined.namespaceTag ns])%list)
      | None => Combined.mkJSDoc None (Some [Combined.namespaceTag ns])
      end) /\
  (forall (feature : Combined.Feature) (d : Combined.Declaration),
      hasChar "."
        (Combined.orEmpty (hd_error (Combined.identifiers feature))) = false ->
      Combined.getFeatureDetails feature = Returns d ->
      Combined.decl_namespace d = None /\
      Combined.decl_name d =
      camelCase (Combined.firstLine
                   (Combined.orEmpty
                      (hd_error (Combined.identifiers feature)))) /\
      Combined.decl_jsDoc d =
      match Combined.jsdoc feature with
      | Some doc => doc
      | None => Combined.mkJSDoc None None
      end).
Proof.
  split.
  - intros feature ns rest others d Hids Hne Hword.
    unfold Combined.getFeatureDetails. rewrite Hids.
    cbn [hd_error Combined.orEmpty].
    rewrite (matchIdentifier_namespaced ns rest Hne Hword).
    destruct (match Combined.methods feature with
              | Some ms => _
              | None => _
              end) as [ms|]; cbn [bind]; [| discriminate].
    destruct (match Combined.properties feature with
              | Some ps => _
              | None => _
              end) as [ps|]; cbn [bind]; [| discriminate].
    intros H. injection H as <-.
    cbn [Combined.decl_namespace Combined.decl_name Combined.decl_jsDoc].
    split; [reflexivity | split; [reflexivity |]].
    destruct ns as [|c ns]; [contradiction |]. cbn [JS.nonEmpty].
    destruct (Combined.jsdoc feature) as [doc|]; reflexivity.
  - intros feature d Hdot.
    unfold Combined.getFeatureDetails.
    rewrite (matchIdentifier_plain _ Hdot).
    destruct (match Combined.methods feature with
              | Some ms => _
              | None => _
              end) as [ms|]; cbn [bind]; [| discriminate].
    destruct (match Combined.properties feature with
              | Some ps => _
              | None => _
              end) as [ps|]; cbn [bind]; [| discriminate].
    intros H. injection H as <-.
    cbn [Combined.decl_namespace Combined.decl_name Combined.decl_jsDoc].
    repeat split; reflexivity.
Qed.

Lemma combined_name_and_namespace_witness :
  exists d,
    Combined.getFeatureDetails
      (Combined.mkFeature ["behavior"] ["Polymer.Shop.cart-behavior"]
         (Some Samples.emptyDoc) "src/cart.html" (Some []) (Some []))
    = Returns d /\
    Combined.decl_namespace d = Some "Polymer" /\
    Combined.decl_name d = "Shop.cartBehavior" /\
    Combined.decl_jsDoc d
    = Combined.mkJSDoc (Some "") (Some [Combined.namespaceTag "Polymer"]).
Proof.
  eexists. split; [reflexivity |].
  exact (proj1 combined_name_and_namespace
           (Combined.mkFeature ["behavior"] ["Polymer.Shop.cart-behavior"]
              (Some Samples.emptyDoc) "src/cart.html" (Some []) (Some []))
           "Polymer" "Shop.cart-behavior" [] _ eq_refl
           ltac:(discriminate) eq_refl eq_refl).
Defined.

(** ** Indentation *)

Section Lines.



Lemma splitLines_line (line : string) :
  hasChar (ascii_of_nat 10) line = false -> JS.splitLines line = [line].
Proof.
  induction line as [|c line IH]; intros H; [reflexivity |].
  cbn [hasChar] in H. apply orb_false_iff in H. destruct H as [Hc Hline].
  cbn [JS.splitLines]. rewrite Hc, (IH Hline). reflexivity.
Qed.



Lemma allSpace_append (a b : string) :
  JS.allSpace (a ++ b) = JS.allSpace a && JS.allSpace b.
Proof.
  induction a as [|c a IH]; [reflexivity |].
  cbn [String.append JS.allSpace]. rewrite IH, andb_assoc. reflexivity.
Qed.

Lemma trimEnd_cons (c : ascii) (s : string) :
  JS.trimEnd (String c s) =
  if JS.allSpace (String c s) then EmptyString
  else String c (JS.trimEnd s).
Proof. reflexivity. Qed.






End Lines.



(** ** Doc comments *)

Lemma filterM_keepTag (tags : list Combined.Tag) :
  Forall wellTyped tags ->
  Combined.filterM Combined.keepTag tags = Returns (filter keepsTag tags).
Proof.
  induction 1 as [|tag tags Htag _ IH]; [reflexivity |].
  cbn [Combined.filterM filter]. rewrite IH.
  unfold Combined.keepTag, keepsTag, wellTyped in *.
  destruct (String.eqb (Combined.tag_title tag) "type") eqn:Htitle;
    cbn [negb orb bind]; [| reflexivity].
  apply String.eqb_eq in Htitle. specialize (Htag Htitle).
  destruct (Combined.tag_type tag) as [name|]; [| contradiction].
  cbn [bind]. reflexivity.
Qed.

Lemma filterM_keepTag_throws (tags : list Combined.Tag) :
  Exists (fun tag => Combined.tag_title tag = "type" /\
                     Combined.tag_type tag = None) tags ->
  Combined.filterM Combined.keepTag tags = Throws.
Proof.
  induction 1 as [tag tags [Htitle Htype] | tag tags _ IH];
    cbn [Combined.filterM].
  - unfold Combined.keepTag. rewrite Htitle, Htype. reflexivity.
  - rewrite IH. destruct (Combined.keepTag tag); reflexivity.
Qed.

(** When [printJSdoc] returns and when it throws.  With a description and
    a tag list, each tag titled [type] having its type record, it
    returns; the text is empty exactly when the description is the empty
    text and no tag is kept, and is otherwise a block comment from its
    opening to its closing line.  Without a tag list it returns the empty
    text when the description is missing or empty, and throws otherwise.
    Without a description it throws as soon as a tag is kept.  A tag
    titled [type] without a type record makes it throw. *)
Theorem printJSdoc_returns_or_throws :
  (forall (doc : Combined.JSDoc) (d : string) (tags : list Combined.Tag),
      Combined.doc_description doc = Some d ->
      Combined.doc_tags doc = Some tags ->
      Forall wellTyped tags ->
      exists text,
        Combined.printJSdoc doc = Returns text /\
        (text = EmptyString <-> d = EmptyString /\ filter keepsTag tags = []) /\
        (text <> EmptyString ->
         JS.startsWith (JS.nl ++ "/**") text = true /\
         exists body, text = body ++ JS.nl ++ " */")) /\
  (forall doc : Combined.JSDoc,
      Combined.doc_tags doc = None ->
      Combined.printJSdoc doc =
      if JS.truthy (Combined.doc_description doc) then Throws
      else Returns EmptyString) /\
  (forall (doc : Combined.JSDoc) (tags : list Combined.Tag),
      Combined.doc_description doc = None ->
      Combined.doc_tags doc = Some tags ->
      Forall wellTyped tags ->
      Combined.printJSdoc doc =
      match filter keepsTag tags with
      | [] => Returns EmptyString
      | _ :: _ => Throws
      end) /\
  (forall (doc : Combined.JSDoc) (tags : list Combined.Tag),
      Combined.doc_tags doc = Some tags ->
      Exists (fun tag => Combined.tag_title tag = "type" /\
                         Combined.tag_type tag = None) tags ->
      Combined.printJSdoc doc = Throws).
Proof.
  split; [| split; [| split]].
  - intros doc d tags Hd Htags Hwell. unfold Combined.printJSdoc.
    rewrite Htags, (filterM_keepTag tags Hwell), Hd. cbn [bind JS.truthy].
    destruct (filter keepsTag tags) as [|tag kept] eqn:Hkept.
    + destruct d as [|c d]; cbn [JS.nonEmpty orb].
      * exists EmptyString. split; [reflexivity |].
        split; [tauto | intros H; contradiction].
      * cbn [bind]. destruct (JS.nonEmpty (JS.trim (String c d)));
          cbn [bind]; eexists; (split; [reflexivity |]);
          (split; [split; [discriminate | intros [H _]; discriminate H] |]);
          intros _; (split; [reflexivity |]);
          eexists; rewrite <- !append_assoc; reflexivity.
    + rewrite orb_true_r. cbn [bind].
      destruct (JS.nonEmpty (JS.trim d)); cbn [bind];
        eexists; (split; [reflexivity |]);
        (split; [split; [discriminate | intros [_ H]; discriminate H] |]);
        intros _; (split; [reflexivity |]);
        eexists; rewrite <- !append_assoc; reflexivity.
  - intros doc Htags. unfold Combined.printJSdoc. rewrite Htags.
    cbn [bind]. rewrite orb_false_r.
    destruct (JS.truthy (Combined.doc_description doc)) eqn:Ht;
      [| reflexivity].
    destruct (Combined.doc_description doc) as [d|]; [| discriminate Ht].
    cbn [bind]. destruct (JS.nonEmpty (JS.trim d)); reflexivity.
  - intros doc tags Hd Htags Hwell. unfold Combined.printJSdoc.
    rewrite Htags, (filterM_keepTag tags Hwell), Hd. cbn [bind JS.truthy].
    destruct (filter keepsTag tags); reflexivity.
  - intros doc tags Htags Hbad. unfold Combined.printJSdoc.
    rewrite Htags, (filterM_keepTag_throws tags Hbad). reflexivity.
Qed.

Lemma printJSdoc_returns_or_throws_witness :
  (exists text,
      Combined.printJSdoc
        (Combined.mkJSDoc (Some "Fires when ready.")
           (Some [Combined.mkTag "type" (Some None) None None;
                  Combined.mkTag "event" None (Some "ready") None]))
      = Returns text /\
      (text = EmptyString <->
       "Fires when ready." = EmptyString /\
       filter keepsTag
         [Combined.mkTag "type" (Some None) None None;
          Combined.mkTag "event" None (Some "ready") None] = []) /\
      (text <> EmptyString ->
       JS.startsWith (JS.nl ++ "/**") text = true /\
       exists body, text = body ++ JS.nl ++ " */")) /\
  Combined.printJSdoc (Combined.mkJSDoc (Some "Fires when ready.") None)
  = Throws /\
  Combined.printJSdoc
    (Combined.mkJSDoc None (Some [Combined.mkTag "event" None None None]))
  = Throws /\
  Combined.printJSdoc
    (Combined.mkJSDoc (Some "x") (Some [Combined.mkTag "type" None None None]))
  = Throws.
Proof.
  pose proof printJSdoc_returns_or_throws as [H1 [H2 [H3 H4]]].
  split; [| split; [| split]].
  - apply H1; [reflexivity | reflexivity |].
    repeat constructor; intros H; cbn; discriminate.
  - exact (H2 (Combined.mkJSDoc (Some "Fires when ready.") None) eq_refl).
  - apply (H3 _ [Combined.mkTag "event" None None None]);
      [reflexivity | reflexivity |].
    repeat constructor. intros H. discriminate H.
  - apply (H4 _ [Combined.mkTag "type" None None None]); [reflexivity |].
    left. split; reflexivity.
Defined.

(** ** Module keys of distinct files *)

Section KeyInjectivity.

Lemma startsWith_skip (p s : string) :
  JS.startsWith p s = true -> s = p ++ JS.skip (String.length p) s.
Proof.
  revert s. induction p as [|a p IH]; intros s H; [reflexivity |].
  destruct s as [|b s]; [discriminate H |].
  cbn [JS.startsWith] in H. apply andb_true_iff in H. destruct H as [Hab H].
  apply Ascii.eqb_eq in Hab. subst b.
  cbn [String.length JS.skip String.append]. rewrite <- (IH s H).
  reflexivity.
Qed.

(** A path either has no dependency root and stays as it is, or is cut
    around its leftmost root, which alone is rewritten. *)
Lemma replaceRepo_cases (s : string) :
  replaceRepo s = s \/
  (exists pre rest, s = pre ++ "bower_components/" ++ rest /\
                    replaceRepo s = pre ++ "bower:" ++ rest) \/
  (exists pre rest, s = pre ++ "node_modules/" ++ rest /\
                    replaceRepo s = pre ++ "npm:" ++ rest).
Proof.
  induction s as [|c s IH]; [left; reflexivity |].
  rewrite replaceRepo_eq.
  destruct (JS.startsWith "bower_components/" (String c s)) eqn:Hb.
  - right. left. exists EmptyString, (JS.skip 17 (String c s)).
    split; [apply (startsWith_skip _ _ Hb) | reflexivity].
  - destruct (JS.startsWith "node_modules/" (String c s)) eqn:Hn.
    + right. right. exists EmptyString, (JS.skip 13 (String c s)).
      split; [apply (startsWith_skip _ _ Hn) | reflexivity].
    + destruct IH as [IH | [[pre [rest [Hs Hr]]] | [pre [rest [Hs Hr]]]]].
      * left. rewrite IH. reflexivity.
      * right. left. exists (String c pre), rest.
        rewrite Hr. split; [rewrite Hs at 1 |]; reflexivity.
      * right. right. exists (String c pre), rest.
        rewrite Hr. split; [rewrite Hs at 1 |]; reflexivity.
Qed.

Lemma append_eq_split (a b u v : string) :
  a ++ u = b ++ v -> String.length a <= String.length b ->
  exists t, b = a ++ t /\ u = t ++ v.
Proof.
  revert b. induction a as [|c a IH]; intros b H Hlen.
  - exists b. split; [reflexivity | exact H].
  - destruct b as [|d b]; [cbn in Hlen; lia |].
    cbn [String.append] in H. injection H as -> H.
    cbn [String.length] in Hlen.
    destruct (IH b H ltac:(lia)) as [t [-> ->]].
    exists t. split; reflexivity.
Qed.

Lemma first_colon (u1 v1 u2 v2 : string) :
  hasChar ":" u1 = false -> hasChar ":" u2 = false ->
  u1 ++ ":" ++ v1 = u2 ++ ":" ++ v2 -> u1 = u2 /\ v1 = v2.
Proof.
  revert u2. induction u1 as [|c u1 IH]; intros u2 H1 H2 H.
  - destruct u2 as [|d u2].
    + cbn in H. injection H as ->. split; reflexivity.
    + cbn [String.append] in H. injection H as <- _.
      cbn in H2. discriminate H2.
  - destruct u2 as [|d u2].
    + cbn [String.append] in H. injection H as -> _.
      cbn in H1. discriminate H1.
    + cbn [String.append] in H. injection H as -> H.
      cbn [hasChar] in H1, H2.
      apply orb_false_iff in H1. apply orb_false_iff in H2.
      destruct (IH u2 (proj2 H1) (proj2 H2) H) as [-> ->].
      split; reflexivity.
Qed.

Lemma append_nil_r (s : string) : s ++ "" = s.
Proof. induction s as [|c s IH]; cbn; [| rewrite IH]; reflexivity. Qed.

(** What stands before the colon of a rewritten path tells the scheme
    and what preceded the root. *)
Lemma scheme_split (pre1 pre2 x1 x2 : string) :
  (x1 = "bower" \/ x1 = "npm") -> (x2 = "bower" \/ x2 = "npm") ->
  pre1 ++ x1 = pre2 ++ x2 -> pre1 = pre2 /\ x1 = x2.
Proof.
  assert (Hcase : forall a b y1 y2,
             (y1 = "bower" \/ y1 = "npm") -> (y2 = "bower" \/ y2 = "npm") ->
             a ++ y1 = b ++ y2 -> String.length a <= String.length b ->
             a = b /\ y1 = y2).
  { intros a b y1 y2 Hy1 Hy2 H Hlen.
    destruct (append_eq_split a b y1 y2 H Hlen) as [t [-> Ht]].
    assert (Hl := f_equal String.length Ht).
    rewrite append_length in Hl.
    destruct Hy1 as [-> | ->], Hy2 as [-> | ->]; cbn in Hl.
    - destruct t; [| cbn in Hl; lia].
      rewrite append_nil_r. split; reflexivity.
    - destruct t as [|e1 [|e2 [|e3 t]]]; cbn in Hl; try lia.
      cbn in Ht. discriminate Ht.
    - lia.
    - destruct t; [| cbn in Hl; lia].
      rewrite append_nil_r. split; reflexivity. }
  intros H1 H2 H.
  destruct (Nat.le_gt_cases (String.length pre1) (String.length pre2))
    as [Hle | Hgt].
  - apply Hcase; assumption.
  - destruct (Hcase pre2 pre1 x2 x1 H2 H1 (eq_sym H) ltac:(lia)) as [-> ->].
    split; reflexivity.
Qed.

End KeyInjectivity.

(** Paths without a colon keep apart under the rewriting of dependency
    roots: two of them that get the same module key are the same path.  A
    path that has a colon already can collide with a rewritten one. *)
Theorem replaceRepo_injective :
  (forall file1 file2 : string,
      hasChar ":" file1 = false -> hasChar ":" file2 = false ->
      replaceRepo file1 = replaceRepo file2 -> file1 = file2) /\
  replaceRepo "bower:polymer/polymer.html"
  = replaceRepo "bower_components/polymer/polymer.html".
Proof.
  split; [| reflexivity].
  assert (Hparts : forall pre root rest,
             hasChar ":" (pre ++ root ++ rest) = false ->
             hasChar ":" pre = false /\ hasChar ":" rest = false).
  { intros pre root rest H. rewrite !hasChar_append in H.
    apply orb_false_iff in H. destruct H as [Hpre H].
    apply orb_false_iff in H. tauto. }
  assert (Hcolon : forall pre x rest,
             hasChar ":" (pre ++ x ++ ":" ++ rest) = true).
  { intros pre x rest. rewrite !hasChar_append.
    assert (hasChar ":" ":" = true) as -> by reflexivity.
    rewrite !orb_true_r. reflexivity. }
  assert (Hsame : forall pre1 x1 rest1 pre2 x2 rest2,
             (x1 = "bower" \/ x1 = "npm") -> (x2 = "bower" \/ x2 = "npm") ->
             hasChar ":" pre1 = false -> hasChar ":" pre2 = false ->
             pre1 ++ x1 ++ ":" ++ rest1 = pre2 ++ x2 ++ ":" ++ rest2 ->
             pre1 = pre2 /\ x1 = x2 /\ rest1 = rest2).
  { intros pre1 x1 rest1 pre2 x2 rest2 Hx1 Hx2 Hp1 Hp2 H.
    rewrite <- !(append_assoc _ _ (":" ++ _)) in H.
    assert (Hx : forall x, x = "bower" \/ x = "npm" -> hasChar ":" x = false)
      by (intros x [-> | ->]; reflexivity).
    destruct (first_colon (pre1 ++ x1) rest1 (pre2 ++ x2) rest2) as [Hu Hv].
    - rewrite hasChar_append, Hp1, (Hx x1 Hx1). reflexivity.
    - rewrite hasChar_append, Hp2, (Hx x2 Hx2). reflexivity.
    - exact H.
    - destruct (scheme_split pre1 pre2 x1 x2 Hx1 Hx2 Hu) as [-> ->].
      subst. repeat split; reflexivity. }
  assert (Hunchanged : forall file pre x rest,
             hasChar ":" file = false ->
             file = pre ++ x ++ ":" ++ rest -> False).
  { intros file pre x rest Hc H. rewrite H, Hcolon in Hc. discriminate Hc. }
  assert (Hrooted : forall pre1 x1 root1 rest1 pre2 x2 root2 rest2,
             (x1 = "bower" \/ x1 = "npm") -> (x2 = "bower" \/ x2 = "npm") ->
             hasChar ":" (pre1 ++ root1 ++ rest1) = false ->
             hasChar ":" (pre2 ++ root2 ++ rest2) = false ->
             pre1 ++ x1 ++ ":" ++ rest1 = pre2 ++ x2 ++ ":" ++ rest2 ->
             pre1 = pre2 /\ x1 = x2 /\ rest1 = rest2).
  { intros pre1 x1 root1 rest1 pre2 x2 root2 rest2 Hx1 Hx2 Hc1 Hc2 H.
    destruct (Hparts _ _ _ Hc1) as [Hp1 _].
    destruct (Hparts _ _ _ Hc2) as [Hp2 _].
    eapply Hsame; eassumption. }
  intros file1 file2 Hc1 Hc2 Heq.
  destruct (replaceRepo_cases file1)
    as [H1 | [[pre1 [rest1 [Hs1 Hr1]]] | [pre1 [rest1 [Hs1 Hr1]]]]];
  destruct (replaceRepo_cases file2)
    as [H2 | [[pre2 [rest2 [Hs2 Hr2]]] | [pre2 [rest2 [Hs2 Hr2]]]]];
  rewrite ?H1, ?H2, ?Hr1, ?Hr2 in Heq.
  - exact Heq.
  - exfalso. exact (Hunchanged file1 pre2 "bower" rest2 Hc1 Heq).
  - exfalso. exact (Hunchanged file1 pre2 "npm" rest2 Hc1 Heq).
  - exfalso. exact (Hunchanged file2 pre1 "bower" rest1 Hc2 (eq_sym Heq)).
  - rewrite Hs1 in Hc1. rewrite Hs2 in Hc2.
    destruct (Hrooted pre1 "bower" _ rest1 pre2 "bower" _ rest2
                (or_introl eq_refl) (or_introl eq_refl) Hc1 Hc2 Heq)
      as [-> [_ ->]].
    congruence.
  - exfalso. rewrite Hs1 in Hc1. rewrite Hs2 in Hc2.
    destruct (Hrooted pre1 "bower" _ rest1 pre2 "npm" _ rest2
                (or_introl eq_refl) (or_intror eq_refl) Hc1 Hc2 Heq)
      as [_ [Hx _]].
    discriminate Hx.
  - exfalso. exact (Hunchanged file2 pre1 "npm" rest1 Hc2 (eq_sym Heq)).
  - exfalso. rewrite Hs1 in Hc1. rewrite Hs2 in Hc2.
    destruct (Hrooted pre1 "npm" _ rest1 pre2 "bower" _ rest2
                (or_intror eq_refl) (or_introl eq_refl) Hc1 Hc2 Heq)
      as [_ [Hx _]].
    discriminate Hx.
  - rewrite Hs1 in Hc1. rewrite Hs2 in Hc2.
    destruct (Hrooted pre1 "npm" _ rest1 pre2 "npm" _ rest2
                (or_intror eq_refl) (or_intror eq_refl) Hc1 Hc2 Heq)
      as [-> [_ ->]].
    congruence.
Qed.

Lemma replaceRepo_injective_witness :
  hasChar ":" "bower_components/a/x.html" = false /\
  hasChar ":" "node_modules/a/x.html" = false /\
  ("bower_components/a/x.html" <> "node_modules/a/x.html" ->
   replaceRepo "bower_components/a/x.html"
   <> replaceRepo "node_modules/a/x.html").
Proof.
  split; [reflexivity | split; [reflexivity |]].
  intros Hne Heq. apply Hne.
  apply (proj1 replaceRepo_injective); [reflexivity | reflexivity | exact Heq].
Defined.

(** ** Order of the buckets *)

Section BucketOrder.

Context {V : Type} (key : V -> string).

Lemma bucketPush_key_list (k : string) (v : V) (m : buckets V) :
  map fst (bucketPush k v m) =
  if isKey (map fst m) k then map fst m else (map fst m ++ [k])%list.
Proof.
  unfold isKey.
  induction m as [|[k0 b] m IH]; [reflexivity |].
  cbn [bucketPush map fst existsb].
  rewrite (String.eqb_sym k k0).
  destruct (String.eqb k0 k); [reflexivity |].
  cbn [map fst orb]. rewrite IH.
  destruct (existsb (String.eqb k) (map fst m)); reflexivity.
Qed.

Lemma filter_twice {A : Type} (p q : A -> bool) (l : list A) :
  (forall x, p x = true -> q x = true) ->
  filter p (filter q l) = filter p l.
Proof.
  intros Hpq. induction l as [|x l IH]; [reflexivity |].
  cbn [filter]. destruct (q x) eqn:Hq; cbn [filter].
  - rewrite IH. reflexivity.
  - destruct (p x) eqn:Hp; [| exact IH].
    rewrite (Hpq x Hp) in Hq. discriminate Hq.
Qed.

Lemma fold_key_list (l : list V) :
  forall m : buckets V,
    map fst (fold_left (fun m v => bucketPush (key v) v m) l m)
    = (map fst m
       ++ filter (fun k => negb (isKey (map fst m) k))
            (firstOccurrences (map key l)))%list.
Proof.
  induction l as [|v l IH]; intros m; cbn [fold_left map firstOccurrences].
  - cbn [filter]. rewrite app_nil_r. reflexivity.
  - rewrite IH, bucketPush_key_list. cbn [filter].
    destruct (isKey (map fst m) (key v)) eqn:Hin; cbn [negb].
    + f_equal. symmetry. apply filter_twice.
      intros k Hk. apply negb_true_iff. apply negb_true_iff in Hk.
      destruct (String.eqb k (key v)) eqn:Hkv; [| reflexivity].
      apply String.eqb_eq in Hkv. subst k. congruence.
    + rewrite <- app_assoc. cbn [app]. do 2 f_equal.
      rewrite filter_filter. apply filter_ext. intros k.
      unfold isKey. rewrite existsb_app. cbn [existsb].
      rewrite orb_false_r, negb_orb, andb_comm. reflexivity.
Qed.

End BucketOrder.

(** The buckets come in the order in which their keys first appear in the
    list: the modules of the output follow the order of analysis. *)
Theorem toModulesMap_order :
  (forall features : list PerFile.Descriptor,
      map fst (PerFile.toModulesMap features)
      = firstOccurrences (map PerFile.modulePath features)) /\
  (forall data : list Combined.Declaration,
      map fst (Combined.toModulesMap data)
      = firstOccurrences (map Combined.decl_module data)).
Proof.
  assert (H : forall (V : Type) (key : V -> string) (l : list V),
             map fst (groupBy key l) = firstOccurrences (map key l)).
  { intros V key l. unfold groupBy. rewrite fold_key_list.
    cbn [map app]. apply forallb_filter_id.
    apply forallb_forall. intros k _. reflexivity. }
  split; intros l; apply H.
Qed.

(** ** File names of the per-file generator *)

Section FileNames.

Lemma includes_cons (sub : string) (c : ascii) (s : string) :
  JS.includes sub (String c s)
  = JS.startsWith sub (String c s) || JS.includes sub s.
Proof. reflexivity. Qed.

Lemma includes_suffix (sub pre s : string) :
  JS.includes sub s = true -> JS.includes sub (pre ++ s) = true.
Proof.
  intros H. induction pre as [|c pre IH]; [exact H |].
  cbn [String.append]. rewrite includes_cons, IH. apply orb_true_r.
Qed.

Lemma lastHtml_cons (c : ascii) (s : string) :
  PerFile.lastHtml (String c s) =
  let here := if JS.startsWith ".html" (String c s)
              then Some EmptyString else None in
  if JS.isLineTerminator c then here
  else match PerFile.lastHtml s with
       | Some capture => Some (String c capture)
       | None => here
       end.
Proof. reflexivity. Qed.

Lemma lastHtml_includes (s : string) :
  PerFile.lastHtml s <> None -> JS.includes ".html" s = true.
Proof.
  induction s as [|c s IH]; intros H; [contradiction H; reflexivity |].
  rewrite includes_cons. rewrite lastHtml_cons in H. cbv zeta in H.
  destruct (JS.startsWith ".html" (String c s)); [reflexivity |].
  destruct (JS.isLineTerminator c); [contradiction H; reflexivity |].
  destruct (PerFile.lastHtml s); [| contradiction H; reflexivity].
  rewrite IH by discriminate. apply orb_true_r.
Qed.

Lemma lastHtml_here (s : string) :
  JS.startsWith ".html" s = true -> PerFile.lastHtml s <> None.
Proof.
  intros H. destruct s as [|c s]; [discriminate H |].
  rewrite lastHtml_cons, H. cbv zeta.
  assert (Hc : JS.isLineTerminator c = false).
  { change (Ascii.eqb "." c && JS.startsWith "html" s = true) in H.
    apply andb_true_iff in H. destruct H as [Hc _].
    apply Ascii.eqb_eq in Hc. subst c. reflexivity. }
  rewrite Hc. destruct (PerFile.lastHtml s); discriminate.
Qed.

Lemma firstSome_In {A B : Type} (f : A -> option B) (l : list A) (b : B) :
  PerFile.firstSome f l = Some b -> exists a, In a l /\ f a = Some b.
Proof.
  induction l as [|a l IH]; cbn [PerFile.firstSome]; [discriminate |].
  destruct (f a) as [b'|] eqn:Ha.
  - intros H. injection H as <-. exists a.
    split; [left; reflexivity | exact Ha].
  - intros H. destruct (IH H) as [a' [Hin Ha']].
    exists a'. split; [right; exact Hin | exact Ha'].
Qed.

Lemma firstSome_found {A B : Type} (f : A -> option B) (l : list A) (a : A) :
  In a l -> f a <> None -> PerFile.firstSome f l <> None.
Proof.
  induction l as [|x l IH]; intros Hin Ha; [destruct Hin |].
  cbn [PerFile.firstSome]. destruct (f x) eqn:Hx; [discriminate |].
  destruct Hin as [-> | Hin]; [congruence | apply IH; assumption].
Qed.

Lemma boundaries_suffix (inside : bool) (s t : string) :
  In t (PerFile.boundaries inside s) -> exists pre, s = pre ++ t.
Proof.
  revert inside. induction s as [|c s IH]; intros inside Hin;
    [destruct Hin |].
  cbn [PerFile.boundaries] in Hin.
  assert (Hrec : forall b, In t (PerFile.boundaries b s) ->
                           exists pre, String c s = pre ++ t).
  { intros b Hb. destruct (IH b Hb) as [pre ->].
    exists (String c pre). reflexivity. }
  destruct (Ascii.eqb c "/").
  - destruct inside; [| destruct Hin].
    destruct Hin as [<- | Hin]; [| eapply Hrec; exact Hin].
    exists (String c EmptyString). reflexivity.
  - eapply Hrec; exact Hin.
Qed.

Lemma afterColon_suffix (s t : string) :
  PerFile.afterColon s = Some t -> exists pre, s = pre ++ t.
Proof.
  induction s as [|c s IH]; cbn [PerFile.afterColon]; [discriminate |].
  destruct (Ascii.eqb c ":").
  - intros H. injection H as <-. exists (String c EmptyString). reflexivity.
  - intros H. destruct (IH H) as [pre ->].
    exists (String c pre). reflexivity.
Qed.

Lemma afterSegments_includes (s : string) :
  PerFile.afterSegments s <> None -> JS.includes ".html" s = true.
Proof.
  unfold PerFile.afterSegments. intros H.
  destruct (PerFile.firstSome _ _) as [name|] eqn:Hf;
    [| contradiction H; reflexivity].
  destruct (firstSome_In _ _ _ Hf) as [t [Hin Ht]].
  apply in_rev in Hin.
  assert (Hsuf : exists pre, s = pre ++ t).
  { destruct Hin as [<- | Hin]; [exists EmptyString; reflexivity |].
    eapply boundaries_suffix; exact Hin. }
  destruct Hsuf as [pre ->]. apply includes_suffix.
  apply lastHtml_includes. rewrite Ht. discriminate.
Qed.

Lemma afterSegments_here (s : string) :
  JS.startsWith ".html" s = true -> PerFile.afterSegments s <> None.
Proof.
  intros H. unfold PerFile.afterSegments.
  apply (firstSome_found _ _ s); [| apply lastHtml_here; exact H].
  apply -> in_rev. left. reflexivity.
Qed.

Lemma fileNameAt_includes (s : string) :
  PerFile.fileNameAt s <> None -> JS.includes ".html" s = true.
Proof.
  unfold PerFile.fileNameAt. intros H.
  destruct (PerFile.afterColon s) as [rest|] eqn:Hcolon.
  - destruct (PerFile.afterSegments rest) eqn:Hrest.
    + destruct (afterColon_suffix _ _ Hcolon) as [pre ->].
      apply includes_suffix. apply afterSegments_includes.
      rewrite Hrest. discriminate.
    + apply afterSegments_includes. exact H.
  - apply afterSegments_includes. exact H.
Qed.

Lemma fileNameAt_here (s : string) :
  JS.startsWith ".html" s = true -> PerFile.fileNameAt s <> None.
Proof.
  intros H. unfold PerFile.fileNameAt.
  destruct (match PerFile.afterColon s with
            | Some rest => PerFile.afterSegments rest
            | None => None
            end); [discriminate |].
  apply afterSegments_here. exact H.
Qed.

End FileNames.

Lemma matchFileName_none (path : string) :
  PerFile.matchFileName path = None <-> JS.includes ".html" path = false.
Proof.
  revert path.
  intros path. split.
  - induction path as [|c path IH]; [reflexivity |].
    cbn [PerFile.matchFileName]. intros H.
    destruct (PerFile.fileNameAt (String c path)) eqn:Hat; [discriminate H |].
    rewrite includes_cons, (IH H), orb_false_r.
    destruct (JS.startsWith ".html" (String c path)) eqn:Hs; [| reflexivity].
    exfalso. apply (fileNameAt_here _ Hs). exact Hat.
  - induction path as [|c path IH]; [reflexivity |].
    intros H. cbn [PerFile.matchFileName].
    destruct (PerFile.fileNameAt (String c path)) eqn:Hat.
    + exfalso.
      assert (Hin : JS.includes ".html" (String c path) = true)
        by (apply fileNameAt_includes; rewrite Hat; discriminate).
      congruence.
    + apply IH. rewrite includes_cons in H.
      apply orb_false_iff in H. tauto.
Qed.

(** A file name can be derived from a module path exactly when the path
    holds the text [.html]: for the path of a script, say, [path.match]
    returns null. *)
Theorem matchFileName_needs_html :
  forall path : string,
    PerFile.matchFileName path = None <-> JS.includes ".html" path = false.
Proof. exact matchFileName_none. Qed.

Section LastSegment.

Lemma boundaries_none (inside : bool) (s : string) :
  hasChar "/" s = false -> PerFile.boundaries inside s = [].
Proof.
  revert inside. induction s as [|c s IH]; intros inside H; [reflexivity |].
  cbn [hasChar] in H. apply orb_false_iff in H. destruct H as [Hc Hs].
  cbn [PerFile.boundaries]. rewrite Hc. apply IH. exact Hs.
Qed.

Lemma boundaries_segment (seg rest : string) :
  hasChar "/" seg = false ->
  forall inside, inside = true \/ seg <> EmptyString ->
  PerFile.boundaries inside (seg ++ "/" ++ rest)
  = rest :: PerFile.boundaries false rest.
Proof.
  induction seg as [|c seg IH]; intros Hseg inside Hin.
  - destruct Hin as [-> | Hne]; [reflexivity | contradiction].
  - cbn [hasChar] in Hseg. apply orb_false_iff in Hseg.
    destruct Hseg as [Hc Hseg].
    cbn [String.append PerFile.boundaries]. rewrite Hc.
    apply IH; [exact Hseg | left; reflexivity].
Qed.

Lemma isSegment_spec (seg : string) :
  isSegment seg = true -> hasChar "/" seg = false /\ seg <> EmptyString.
Proof.
  unfold isSegment. intros H. apply andb_true_iff in H.
  destruct H as [Hne Hslash]. apply negb_true_iff in Hslash.
  split; [exact Hslash |]. intros ->. discriminate Hne.
Qed.

(** The candidates of the greedy segment group end with what follows the
    last folder. *)
Lemma boundaries_dirPath (segs : list string) (tail : string) :
  forallb isSegment segs = true -> hasChar "/" tail = false ->
  exists before,
    (dirPath segs ++ tail) :: PerFile.boundaries false (dirPath segs ++ tail)
    = (before ++ [tail])%list.
Proof.
  intros Hsegs Htail. induction segs as [|seg segs IH].
  - exists []. cbn [dirPath map String.concat String.append].
    rewrite (boundaries_none false tail Htail). reflexivity.
  - cbn [forallb] in Hsegs. apply andb_true_iff in Hsegs.
    destruct Hsegs as [Hseg Hsegs].
    destruct (isSegment_spec seg Hseg) as [Hslash Hne].
    destruct (IH Hsegs) as [before Hbefore].
    assert (Hpath : dirPath (seg :: segs) ++ tail
                    = seg ++ "/" ++ dirPath segs ++ tail).
    { unfold dirPath. cbn [map]. destruct segs as [|seg' segs].
      - cbn [map String.concat]. rewrite !append_assoc. reflexivity.
      - change (String.concat "" ((seg ++ "/")
                                    :: map (fun s => s ++ "/") (seg' :: segs)))
          with ((seg ++ "/") ++ "" ++
                String.concat "" (map (fun s => s ++ "/") (seg' :: segs))).
        rewrite !append_assoc. reflexivity. }
    rewrite Hpath.
    rewrite (boundaries_segment seg _ Hslash false (or_intror Hne)).
    exists ((seg ++ "/" ++ dirPath segs ++ tail) :: before).
    cbn [app]. rewrite <- Hbefore. reflexivity.
Qed.

Lemma lastHtml_base (base : string) :
  oneLine base = true -> PerFile.lastHtml (base ++ ".html") = Some base.
Proof.
  induction base as [|c base IH]; intros H; [reflexivity |].
  unfold oneLine in H. cbn [allChars] in H. apply andb_true_iff in H.
  destruct H as [Hc Hbase]. apply negb_true_iff in Hc.
  cbn [String.append]. rewrite lastHtml_cons. cbv zeta.
  rewrite Hc, (IH Hbase). reflexivity.
Qed.

Lemma afterSegments_base (segs : list string) (base : string) :
  forallb isSegment segs = true -> hasChar "/" base = false ->
  oneLine base = true ->
  PerFile.afterSegments (dirPath segs ++ base ++ ".html") = Some base.
Proof.
  intros Hsegs Hslash Hline. unfold PerFile.afterSegments.
  destruct (boundaries_dirPath segs (base ++ ".html") Hsegs) as [before Hb].
  { rewrite hasChar_append, Hslash. reflexivity. }
  rewrite Hb, rev_app_distr. cbn [rev app PerFile.firstSome].
  rewrite (lastHtml_base base Hline). reflexivity.
Qed.

Lemma afterColon_none (s : string) :
  hasChar ":" s = false -> PerFile.afterColon s = None.
Proof.
  induction s as [|c s IH]; intros H; [reflexivity |].
  cbn [hasChar] in H. apply orb_false_iff in H. destruct H as [Hc Hs].
  cbn [PerFile.afterColon]. rewrite Hc. apply IH. exact Hs.
Qed.

Lemma afterColon_scheme (scheme rest : string) :
  hasChar ":" scheme = false ->
  PerFile.afterColon (scheme ++ ":" ++ rest) = Some rest.
Proof.
  induction scheme as [|c scheme IH]; intros H; [reflexivity |].
  cbn [hasChar] in H. apply orb_false_iff in H. destruct H as [Hc Hs].
  cbn [String.append PerFile.afterColon]. rewrite Hc. apply IH. exact Hs.
Qed.

Lemma matchFileName_at (s name : string) :
  PerFile.fileNameAt s = Some name -> PerFile.matchFileName s = Some name.
Proof.
  intros H. destruct s; cbn [PerFile.matchFileName]; rewrite H; reflexivity.
Qed.

End LastSegment.

(** For a path made of folders, a base name and [.html], the derived file
    name is the base name: on a path without a colon, and on such a path
    behind a scheme like [bower:].  The folders are not empty, the base
    name has no slash and stays on one line. *)
Theorem fileName_is_base_name :
  forall (segs : list string) (base : string),
    forallb isSegment segs = true ->
    hasChar "/" base = false ->
    oneLine base = true ->
    (hasChar ":" (dirPath segs ++ base ++ ".html") = false ->
     PerFile.matchFileName (dirPath segs ++ base ++ ".html") = Some base) /\
    (forall scheme : string,
        hasChar ":" scheme = false ->
        PerFile.matchFileName
          (scheme ++ ":" ++ dirPath segs ++ base ++ ".html")
        = Some base).
Proof.
  intros segs base Hsegs Hslash Hline.
  pose proof (afterSegments_base segs base Hsegs Hslash Hline) as Hafter.
  split.
  - intros Hcolon. apply matchFileName_at. unfold PerFile.fileNameAt.
    rewrite (afterColon_none _ Hcolon). exact Hafter.
  - intros scheme Hscheme. apply matchFileName_at. unfold PerFile.fileNameAt.
    rewrite (afterColon_scheme scheme _ Hscheme), Hafter. reflexivity.
Qed.

Lemma fileName_is_base_name_witness :
  PerFile.matchFileName "src/elements/my-element.html" = Some "my-element" /\
  PerFile.matchFileName "bower:polymer/polymer.html" = Some "polymer".
Proof.
  split.
  - apply (proj1 (fileName_is_base_name ["src"; "elements"] "my-element"
                    eq_refl eq_refl eq_refl)).
    reflexivity.
  - apply (proj2 (fileName_is_base_name ["polymer"] "polymer"
                    eq_refl eq_refl eq_refl) "bower").
    reflexivity.
Defined.

(** ** The splitter *)

Section Splitter.

Lemma filesPush_returns (path block : string)
    (filesMap : list (string * PerFile.FileInfo)) :
  JS.includes ".html" path = true ->
  Forall named filesMap ->
  exists filesMap',
    PerFile.filesPush path block filesMap = Returns filesMap' /\
    blocksOf filesMap' = bucketPush path block (blocksOf filesMap) /\
    Forall named filesMap'.
Proof.
  intros Hpath. induction filesMap as [|[key info] rest IH]; intros Hnamed.
  - cbn [PerFile.filesPush].
    destruct (PerFile.matchFileName path) as [name|] eqn:Hname.
    + eexists. split; [reflexivity | split; [reflexivity |]].
      constructor; [exact Hname | constructor].
    + apply matchFileName_none in Hname. congruence.
  - inversion Hnamed as [|? ? Hhere Hrest]; subst.
    cbn [PerFile.filesPush blocksOf map fst snd bucketPush].
    destruct (String.eqb key path) eqn:Hkey.
    + eexists. split; [reflexivity | split; [reflexivity |]].
      constructor; [exact Hhere | exact Hrest].
    + destruct (IH Hrest) as [rest' [Hpush [Hblocks Hnamed']]].
      rewrite Hpush. cbn [bind].
      eexists. split; [reflexivity | split].
      * cbn [blocksOf map fst snd]. fold (blocksOf rest').
        rewrite Hblocks. reflexivity.
      * constructor; [exact Hhere | exact Hnamed'].
Qed.

Lemma filesPush_throws (path block : string)
    (filesMap : list (string * PerFile.FileInfo)) :
  JS.includes ".html" path = false ->
  Forall named filesMap ->
  PerFile.filesPush path block filesMap = Throws.
Proof.
  intros Hpath. induction filesMap as [|[key info] rest IH]; intros Hnamed.
  - cbn [PerFile.filesPush].
    apply matchFileName_none in Hpath. rewrite Hpath. reflexivity.
  - inversion Hnamed as [|? ? Hhere Hrest]; subst.
    cbn [PerFile.filesPush].
    destruct (String.eqb key path) eqn:Hkey.
    + apply String.eqb_eq in Hkey. subst key. exfalso.
      unfold named in Hhere. cbn [fst snd] in Hhere.
      apply matchFileName_none in Hpath. congruence.
    + rewrite (IH Hrest). reflexivity.
Qed.

Lemma splitInto_returns (blocks : list string) :
  forall filesMap,
    forallb splittable blocks = true ->
    Forall named filesMap ->
    exists filesMap',
      PerFile.splitInto filesMap blocks = Returns filesMap' /\
      blocksOf filesMap'
      = fold_left (fun m b => bucketPush (pathOf b) b m) blocks
          (blocksOf filesMap) /\
      Forall named filesMap'.
Proof.
  induction blocks as [|block blocks IH]; intros filesMap Hall Hnamed.
  - exists filesMap.
    split; [reflexivity | split; [reflexivity | exact Hnamed]].
  - cbn [forallb] in Hall. apply andb_true_iff in Hall.
    destruct Hall as [Hblock Hall].
    cbn [PerFile.splitInto fold_left]. unfold splittable, pathOf in *.
    destruct (PerFile.matchModulePath block) as [path|];
      [| discriminate Hblock].
    cbn [fromOption bind].
    destruct (filesPush_returns path block filesMap Hblock Hnamed)
      as [pushed [Hpush [Hblocks Hnamed']]].
    rewrite Hpush. cbn [bind].
    destruct (IH pushed Hall Hnamed') as [final [Hsplit [Hfinal Hnamed'']]].
    exists final. rewrite <- Hblocks.
    split; [exact Hsplit | split; [exact Hfinal | exact Hnamed'']].
Qed.

Lemma splitInto_throws (blocks : list string) :
  forall filesMap,
    forallb splittable blocks = false ->
    Forall named filesMap ->
    PerFile.splitInto filesMap blocks = Throws.
Proof.
  induction blocks as [|block blocks IH]; intros filesMap Hall Hnamed;
    [discriminate Hall |].
  cbn [forallb] in Hall. cbn [PerFile.splitInto].
  unfold splittable in Hall at 1.
  destruct (PerFile.matchModulePath block) as [path|]; [| reflexivity].
  cbn [fromOption bind].
  destruct (JS.includes ".html" path) eqn:Hpath.
  - destruct (filesPush_returns path block filesMap Hpath Hnamed)
      as [pushed [Hpush [_ Hnamed']]].
    rewrite Hpush. cbn [bind]. apply IH; assumption.
  - rewrite (filesPush_throws path block filesMap Hpath Hnamed).
    reflexivity.
Qed.

End Splitter.

(** [splitModulesToFiles] throws exactly when one of the blocks shows no
    module path, or a path without [.html]; a block before it does not
    prevent that, and nothing is returned for the other blocks. *)
Theorem splitModulesToFiles_throws_iff :
  forall blocks : list string,
    PerFile.splitModulesToFiles blocks = Throws
    <-> forallb splittable blocks = false.
Proof.
  intros blocks. unfold PerFile.splitModulesToFiles. split.
  - intros H. destruct (forallb splittable blocks) eqn:Hall; [| reflexivity].
    destruct (splitInto_returns blocks [] Hall (Forall_nil _))
      as [filesMap [Hsplit _]].
    congruence.
  - intros Hall. apply splitInto_throws; [exact Hall | constructor].
Qed.

(** When [splitModulesToFiles] returns, it has grouped the blocks by the
    module path read in each: the entries have distinct paths, the blocks
    of all entries together are the given blocks, each entry holds the
    blocks of its path in the order given, and its file name is the one
    derived from its path. *)
Theorem splitModulesToFiles_groups :
  forall (blocks : list string) (filesMap : list (string * PerFile.FileInfo)),
    PerFile.splitModulesToFiles blocks = Returns filesMap ->
    blocksOf filesMap = groupBy pathOf blocks /\
    NoDup (map fst filesMap) /\
    Permutation
      (List.concat (map (fun entry => PerFile.modules (snd entry)) filesMap))
      blocks /\
    (forall entry, In entry filesMap ->
                   PerFile.modules (snd entry) = under pathOf (fst entry) blocks
                   /\ named entry).
Proof.
  intros blocks filesMap Hsplit.
  unfold PerFile.splitModulesToFiles in Hsplit.
  destruct (forallb splittable blocks) eqn:Hall.
  2: { rewrite (splitInto_throws blocks [] Hall (Forall_nil _)) in Hsplit.
       discriminate Hsplit. }
  destruct (splitInto_returns blocks [] Hall (Forall_nil _))
    as [filesMap' [Hsplit' [Hblocks Hnamed]]].
  rewrite Hsplit in Hsplit'. injection Hsplit' as <-.
  change (fold_left (fun m b => bucketPush (pathOf b) b m) blocks (blocksOf []))
    with (groupBy pathOf blocks) in Hblocks.
  destruct (groupBy_partition pathOf blocks)
    as [Hnd [Hbucket [_ [_ Hperm]]]].
  rewrite <- Hblocks in Hnd, Hbucket, Hperm.
  assert (Hkeys : map fst (blocksOf filesMap) = map fst filesMap).
  { unfold blocksOf. rewrite map_map. reflexivity. }
  assert (Hmods : map snd (blocksOf filesMap)
                  = map (fun entry => PerFile.modules (snd entry)) filesMap).
  { unfold blocksOf. rewrite map_map. reflexivity. }
  rewrite Hkeys in Hnd. rewrite Hmods in Hperm.
  split; [exact Hblocks | split; [exact Hnd | split; [exact Hperm |]]].
  intros entry Hin. split.
  - apply (Hbucket (fst entry) (PerFile.modules (snd entry))).
    unfold blocksOf. apply in_map_iff. exists entry. split; [reflexivity |].
    exact Hin.
  - rewrite Forall_forall in Hnamed. apply Hnamed. exact Hin.
Qed.

Lemma splitModulesToFiles_groups_witness :
  exists filesMap,
    PerFile.splitModulesToFiles
      [Collision.blockA; Collision.blockB; Collision.blockNS]
    = Returns filesMap /\
    blocksOf filesMap
    = [("src/a/item.html", [Collision.blockA; Collision.blockNS]);
       ("src/b/item.html", [Collision.blockB])] /\
    NoDup (map fst filesMap).
Proof.
  eexists. split; [reflexivity |].
  split; [reflexivity |].
  exact (proj1 (proj2 (splitModulesToFiles_groups
                         [Collision.blockA; Collision.blockB;
                          Collision.blockNS] _ eq_refl))).
Defined.

(** ** From the module key to the file *)

Lemma span_until (p : ascii -> bool) (run : string) (stop : ascii)
    (rest : string) :
  allChars p run = true -> p stop = false ->
  JS.span p (run ++ String stop rest) = (run, String stop rest).
Proof.
  intros Hrun Hstop. induction run as [|c run IH].
  - cbn [String.append JS.span]. rewrite Hstop. reflexivity.
  - cbn [allChars] in Hrun. apply andb_true_iff in Hrun.
    destruct Hrun as [Hc Hrun].
    cbn [String.append JS.span]. rewrite Hc, (IH Hrun). reflexivity.
Qed.

Lemma modulePathAt_header (path : string) (stop : ascii) (rest : string) :
  allChars PerFile.isPathChar path = true ->
  PerFile.isPathChar stop = false ->
  PerFile.matchModulePath (PerFile.moduleHeader ++ path ++ String stop rest)
  = Some path.
Proof.
  intros Hpath Hstop.
  assert (Hat : PerFile.modulePathAt
                  (PerFile.moduleHeader ++ path ++ String stop rest)
                = Some path).
  { unfold PerFile.modulePathAt.
    change (JS.startsWith PerFile.moduleHeader
              (PerFile.moduleHeader ++ path ++ String stop rest))
      with true.
    change (JS.skip (String.length PerFile.moduleHeader)
              (PerFile.moduleHeader ++ path ++ String stop rest))
      with (path ++ String stop rest).
    rewrite (span_until _ path stop rest Hpath Hstop). reflexivity. }
  change (PerFile.moduleHeader ++ path ++ String stop rest)
    with (String "d" (JS.skip 1 (PerFile.moduleHeader)
                      ++ path ++ String stop rest)) in *.
  cbn [PerFile.matchModulePath]. rewrite Hat. reflexivity.
Qed.

(** The splitter reads back, from the header of a block, the rewritten
    file path of the key the block was rendered for, and drops the
    namespace: the modules of one source file, with and without
    namespace, go to one file.  The rewritten path must hold no double
    quote and no hash. *)
Theorem block_path_drops_namespace :
  forall (d : PerFile.Descriptor) (rest : string),
    allChars PerFile.isPathChar (replaceRepo (PerFile.desc_module d)) = true ->
    PerFile.matchModulePath
      (PerFile.moduleHeader ++ PerFile.modulePath d ++ JS.dq ++ rest)
    = Some (replaceRepo (PerFile.desc_module d)).
Proof.
  intros d rest Hpath. unfold PerFile.modulePath.
  destruct (JS.truthy (PerFile.desc_namespace d)).
  - rewrite !append_assoc.
    apply (modulePathAt_header _ "#" _ Hpath). reflexivity.
  - rewrite append_nil_r.
    apply (modulePathAt_header _ (ascii_of_nat 34) rest Hpath). reflexivity.
Qed.

Lemma block_path_drops_namespace_witness :
  PerFile.matchModulePath
    (PerFile.moduleHeader
     ++ PerFile.modulePath
          (PerFile.mkDescriptor (Some "Shop") "Cart"
             "bower_components/shop/cart.html" None [])
     ++ JS.dq ++ " {")
  = Some "bower:shop/cart.html".
Proof.
  exact (block_path_drops_namespace
           (PerFile.mkDescriptor (Some "Shop") "Cart"
              "bower_components/shop/cart.html" None [])
           " {" eq_refl).
Defined.

(** ** Writes to distinct files *)





(** ** Markers around a type *)

Lemma stripDefault_cons (c : ascii) (rest : string) :
  rest <> EmptyString ->
  Combined.stripDefault (String c rest)
  = String c (Combined.stripDefault rest).
Proof. destruct rest; [contradiction | reflexivity]. Qed.

Lemma stripDefault_marked (b : string) :
  Combined.stripDefault (b ++ "=") = b.
Proof.
  induction b as [|c b IH]; [reflexivity |].
  cbn [String.append]. rewrite stripDefault_cons, IH; [reflexivity |].
  destruct b; discriminate.
Qed.

Lemma stripDefault_plain (b : string) :
  endsWithChar "=" b = false -> Combined.stripDefault b = b.
Proof.
  induction b as [|c b IH]; intros H; [reflexivity |].
  cbn [Combined.stripDefault]. destruct b as [|d b].
  - cbn in H. rewrite H. reflexivity.
  - rewrite IH by exact H. reflexivity.
Qed.

Lemma stripMarker_plain (b : string) :
  JS.startsWith "!" b = false -> JS.startsWith "?" b = false ->
  Combined.stripMarker b = b.
Proof.
  intros H1 H2. destruct b as [|c b]; [reflexivity |].
  change (Ascii.eqb "!" c && true = false) in H1.
  change (Ascii.eqb "?" c && true = false) in H2.
  rewrite andb_true_r, Ascii.eqb_sym in H1, H2.
  cbn [Combined.stripMarker]. rewrite H1, H2. reflexivity.
Qed.

(** One nullability marker in front of a type name and one default marker
    behind it do not change the type it is mapped to. *)
Theorem parseType_ignores_markers :
  forall (b marker default : string) (forceArray : bool),
    JS.startsWith "!" b = false -> JS.startsWith "?" b = false ->
    endsWithChar "=" b = false ->
    In marker [""; "!"; "?"] -> In default [""; "="] ->
    Combined.parseType (Some (marker ++ b ++ default)) forceArray
    = Combined.parseType (Some b) forceArray.
Proof.
  intros b marker default forceArray H1 H2 H3 Hm Hd.
  assert (Hbase : Combined.baseName (marker ++ b ++ default) = b).
  { unfold Combined.baseName.
    assert (Hstrip : Combined.stripMarker (marker ++ b ++ default)
                     = b ++ default).
    { destruct Hm as [<- | [<- | [<- | []]]]; try reflexivity.
      cbn [String.append].
      destruct Hd as [<- | [<- | []]].
      - rewrite append_nil_r. apply stripMarker_plain; assumption.
      - destruct b as [|c b]; [reflexivity |].
        change (Ascii.eqb "!" c && true = false) in H1.
        change (Ascii.eqb "?" c && true = false) in H2.
        rewrite andb_true_r, Ascii.eqb_sym in H1, H2.
        cbn [String.append Combined.stripMarker]. rewrite H1, H2.
        reflexivity. }
    rewrite Hstrip. destruct Hd as [<- | [<- | []]].
    - rewrite append_nil_r. apply stripDefault_plain. exact H3.
    - apply stripDefault_marked. }
  assert (Hb : Combined.baseName b = b).
  { unfold Combined.baseName. rewrite stripMarker_plain by assumption.
    apply stripDefault_plain. exact H3. }
  unfold Combined.parseType. rewrite Hbase, Hb. reflexivity.
Qed.

Lemma parseType_ignores_markers_witness :
  Combined.parseType (Some "?string=") false
  = Combined.parseType (Some "string") false.
Proof.
  exact (parseType_ignores_markers "string" "?" "=" false eq_refl eq_refl
           eq_refl (or_intror (or_intror (or_introl eq_refl)))
           (or_intror (or_introl eq_refl))).
Defined.

(** ** Members without a doc comment *)

Section MemberLines.

Lemma indent_member (body : string) :
  hasChar (ascii_of_nat 10) body = false ->
  Combined.indent (Combined.Width 4) (JS.nl ++ body ++ ";")
  = JS.nl ++ "    " ++ body ++ ";".
Proof.
  intros Hbody. unfold Combined.indent.
  assert (Hline : hasChar (ascii_of_nat 10) (body ++ ";") = false)
    by (rewrite hasChar_append, Hbody; reflexivity).
  change (JS.splitLines (JS.nl ++ body ++ ";"))
    with (EmptyString :: JS.splitLines (body ++ ";")).
  rewrite (splitLines_line _ Hline).
  cbn [map Combined.isWidth Combined.indentString JS.allSpace andb JS.join].
  rewrite andb_true_r, (allSpace_end body ";" eq_refl).
  change (JS.spaces 4 ++ body ++ ";") with ("    " ++ body ++ ";").
  rewrite <- (append_assoc "    " body ";").
  rewrite (trimEnd_keeps_end ("    " ++ body) ";" eq_refl).
  rewrite append_assoc. reflexivity.
Qed.

Lemma parseType_no_nl (type : option string) (forceArray : bool) :
  hasChar (ascii_of_nat 10) (Combined.parseType type forceArray) = false.
Proof.
  assert (H : forall mapped,
             In mapped ("any" :: "Array<any>" :: Combined.primitives) ->
             hasChar (ascii_of_nat 10)
               (if forceArray then "Array<" ++ mapped ++ ">" else mapped)
             = false).
  { intros mapped Hin. cbn in Hin.
    destruct forceArray;
      repeat (destruct Hin as [<- | Hin]; [reflexivity |]); destruct Hin. }
  unfold Combined.parseType. apply H.
  destruct type as [t|]; [| left; reflexivity].
  destruct (String.eqb (Combined.baseName t) "Array") eqn:Harr.
  - apply String.eqb_eq in Harr. rewrite Harr. right. left. reflexivity.
  - destruct (existsb (String.eqb (Combined.baseName t))
                Combined.primitives) eqn:Hprim; cbn [negb].
    + right. right. apply existsb_eqb_true. exact Hprim.
    + left. reflexivity.
Qed.

Lemma hasChar_join (c : ascii) (sep : string) (l : list string) :
  hasChar c sep = false -> Forall (fun s => hasChar c s = false) l ->
  hasChar c (JS.join sep l) = false.
Proof.
  intros Hsep Hall. induction Hall as [|s l Hs _ IH]; [reflexivity |].
  destruct l as [|s' l]; [exact Hs |].
  rewrite join_cons_cons, !hasChar_append, Hs, Hsep, IH. reflexivity.
Qed.

End MemberLines.

(** A property without a doc comment is printed on one line, four spaces
    in: its name, a question mark when its type starts with one, a colon
    and the mapped type.  The name holds no line feed. *)
Theorem printProperty_one_line :
  forall (p : Combined.Property) (doc : Combined.JSDoc) (type : string),
    Combined.prop_jsdoc p = Some doc ->
    Combined.printJSdoc doc = Returns EmptyString ->
    Combined.prop_type p = Some type ->
    hasChar (ascii_of_nat 10) (Combined.prop_name p) = false ->
    Combined.printProperty p
    = Returns (JS.nl ++ "    " ++ Combined.prop_name p
               ++ (if JS.startsWith "?" type then "?" else "")
               ++ ": " ++ Combined.parseType (Some type) false ++ ";").
Proof.
  intros p doc type Hdoc Hprint Htype Hname.
  unfold Combined.printProperty.
  rewrite Hdoc, Htype. cbn [fromOption bind]. rewrite Hprint. cbn [bind].
  f_equal.
  change (EmptyString ++ JS.nl ++ Combined.prop_name p
          ++ (if JS.startsWith "?" type then "?" else "")
          ++ ": " ++ Combined.parseType (Some type) false ++ ";")
    with (JS.nl ++ Combined.prop_name p
          ++ (if JS.startsWith "?" type then "?" else "")
          ++ ": " ++ Combined.parseType (Some type) false ++ ";").
  assert (Hbody : hasChar (ascii_of_nat 10)
                    (Combined.prop_name p
                     ++ (if JS.startsWith "?" type then "?" else "")
                     ++ ": " ++ Combined.parseType (Some type) false)
                  = false).
  { rewrite !hasChar_append, Hname, parseType_no_nl.
    destruct (JS.startsWith "?" type); reflexivity. }
  pose proof (indent_member _ Hbody) as H.
  rewrite !append_assoc in H. exact H.
Qed.

Lemma printProperty_one_line_witness :
  Combined.printProperty
    (Combined.mkProperty "label" "public" (Some "?string")
       (Some Samples.emptyDoc))
  = Returns (JS.nl ++ "    label?: string;").
Proof.
  exact (printProperty_one_line
           (Combined.mkProperty "label" "public" (Some "?string")
              (Some Samples.emptyDoc))
           Samples.emptyDoc "?string" eq_refl eq_refl eq_refl eq_refl).
Defined.

(** A method without a doc comment is printed on one line, four spaces
    in: its name, its parameters between parentheses, each with its
    mapped type (an array of it for a rest parameter), and the mapped
    return type when the analyzer recorded a return, none otherwise.  The
    names hold no line feed. *)
Theorem printMethod_one_line :
  forall (m : Combined.Method) (doc : Combined.JSDoc)
         (ps : list Combined.Param),
    Combined.method_jsdoc m = Some doc ->
    Combined.printJSdoc doc = Returns EmptyString ->
    Combined.method_params m = Some ps ->
    hasChar (ascii_of_nat 10) (Combined.method_name m) = false ->
    Forall (fun p => hasChar (ascii_of_nat 10) (Combined.param_name p) = false)
      ps ->
    Combined.printMethod m
    = Returns (JS.nl ++ "    " ++ Combined.method_name m ++ "("
               ++ JS.join ", "
                    (map (fun p =>
                            Combined.param_name p ++ ": "
                            ++ Combined.parseType (Combined.param_type p)
                                 (JS.startsWith "..." (Combined.param_name p)))
                       ps)
               ++ ")"
               ++ match Combined.method_return m with
                  | Some type => ": " ++ Combined.parseType type false
                  | None => EmptyString
                  end
               ++ ";").
Proof.
  intros m doc ps Hdoc Hprint Hps Hname Hparams.
  unfold Combined.printMethod.
  rewrite Hdoc, Hps. cbn [fromOption bind]. rewrite Hprint. cbn [bind].
  f_equal. fold Combined.printParam.
  set (params := JS.join ", " (map Combined.printParam ps)).
  set (ret := match Combined.method_return m with
              | Some type => ": " ++ Combined.parseType type false
              | None => EmptyString
              end).
  change (JS.join ", "
            (map (fun p => Combined.param_name p ++ ": "
                           ++ Combined.parseType (Combined.param_type p)
                                (JS.startsWith "..." (Combined.param_name p)))
               ps))
    with params.
  change (EmptyString ++ JS.nl ++ Combined.method_name m ++ "(" ++ params
          ++ ")" ++ ret ++ ";")
    with (JS.nl ++ Combined.method_name m ++ "(" ++ params
          ++ ")" ++ ret ++ ";").
  assert (Hp : hasChar (ascii_of_nat 10) params = false).
  { apply hasChar_join; [reflexivity |].
    apply Forall_forall. intros text Hin. apply in_map_iff in Hin.
    destruct Hin as [p [<- Hin]]. rewrite Forall_forall in Hparams.
    unfold Combined.printParam.
    rewrite !hasChar_append, (Hparams p Hin), parseType_no_nl.
    reflexivity. }
  assert (Hr : hasChar (ascii_of_nat 10) ret = false).
  { unfold ret. destruct (Combined.method_return m); [| reflexivity].
    rewrite hasChar_append, parseType_no_nl. reflexivity. }
  assert (Hbody : hasChar (ascii_of_nat 10)
                    (Combined.method_name m ++ "(" ++ params ++ ")" ++ ret)
                  = false).
  { rewrite !hasChar_append, Hname, Hp, Hr. reflexivity. }
  pose proof (indent_member _ Hbody) as H.
  rewrite !append_assoc in H. exact H.
Qed.

Lemma printMethod_one_line_witness :
  Combined.printMethod
    (Combined.mkMethod "log" "public"
       (Some [Combined.mkParam "level" (Some "number");
              Combined.mkParam "...parts" (Some "string")])
       (Some (Some "boolean")) (Some Samples.emptyDoc))
  = Returns (JS.nl
             ++ "    log(level: number, ...parts: Array<string>): boolean;").
Proof.
  exact (printMethod_one_line
           (Combined.mkMethod "log" "public"
              (Some [Combined.mkParam "level" (Some "number");
                     Combined.mkParam "...parts" (Some "string")])
              (Some (Some "boolean")) (Some Samples.emptyDoc))
           Samples.emptyDoc _ eq_refl eq_refl eq_refl eq_refl
           ltac:(repeat constructor)).
Defined.

(** ** Names in the first generator *)

Lemma endsWithChar_snoc (c : ascii) (s : string) :
  endsWithChar c (s ++ String c "") = true.
Proof.
  induction s as [|d s IH]; [cbn; apply Ascii.eqb_refl |].
  cbn [String.append endsWithChar].
  destruct (s ++ String c "") eqn:Hs; [destruct s; discriminate Hs |].
  exact IH.
Qed.

Lemma legacy_class_split (cls : string) :
  exists first last rest pre,
    hd EmptyString (JS.splitDots cls) = first /\
    List.last (JS.splitDots cls) EmptyString = last /\
    hasChar "." first = false /\ hasChar "." last = false /\
    cls = first ++ rest /\
    (rest = EmptyString \/ JS.startsWith "." rest = true) /\
    cls = pre ++ last /\
    (pre = EmptyString \/ endsWithChar "." pre = true).
Proof.
  pose proof (join_splitDots cls) as Hjoin.
  pose proof (splitDots_no_dot cls) as Hall.
  destruct (splitDots_cons cls) as [first [others Hparts]].
  rewrite Hparts in *.
  assert (Hne : first :: others <> []) by discriminate.
  pose proof (app_removelast_last EmptyString Hne) as Hsplit.
  remember (removelast (first :: others)) as init eqn:Einit.
  remember (List.last (first :: others) EmptyString) as last eqn:Elast.
  exists first, last,
    (match others with
     | [] => EmptyString
     | _ :: _ => "." ++ JS.join "." others
     end),
    (match init with
     | [] => EmptyString
     | _ :: _ => JS.join "." init ++ "."
     end).
  split; [reflexivity | split; [reflexivity |]].
  assert (Hfirst : hasChar "." first = false)
    by (inversion Hall; assumption).
  split; [exact Hfirst |]. split.
  { rewrite Hsplit in Hall. apply Forall_app in Hall.
    destruct Hall as [_ Hlast]. inversion Hlast; subst. assumption. }
  split.
  { destruct others as [|second others].
    - cbn [JS.join] in Hjoin. rewrite append_nil_r. symmetry. exact Hjoin.
    - rewrite join_cons_cons in Hjoin. symmetry. exact Hjoin. }
  split; [destruct others; [left | right]; reflexivity |].
  split.
  { rewrite Hsplit, join_snoc in Hjoin. destruct init as [|a init].
    - symmetry. exact Hjoin.
    - rewrite append_assoc. symmetry. exact Hjoin. }
  destruct init as [|a init]; [left; reflexivity | right].
  apply endsWithChar_snoc.
Qed.

(** In the first generator a tag name wins over the class name and comes
    without namespace.  Without a tag name, the namespace is the class
    name up to its first dot and the name is what follows its last dot;
    what stands between the two is dropped, and a class name without a
    dot is both the namespace and the name.  The name is kept as it is
    written. *)
Theorem legacy_name_and_namespace :
  (forall (item : Legacy.Item) (tag : string) (ps : list Legacy.Property),
      Legacy.tagName item = Some tag -> tag <> EmptyString ->
      Legacy.properties item = Some ps ->
      exists el,
        Legacy.describe item = Returns el /\
        Legacy.el_namespace el = None /\ Legacy.el_name el = tag) /\
  (forall (item : Legacy.Item) (cls : string) (ps : list Legacy.Property),
      JS.truthy (Legacy.tagName item) = false ->
      Legacy.className item = Some cls -> cls <> EmptyString ->
      Legacy.properties item = Some ps ->
      exists el ns rest pre,
        Legacy.describe item = Returns el /\
        Legacy.el_namespace el = Some ns /\
        hasChar "." ns = false /\
        hasChar "." (Legacy.el_name el) = false /\
        cls = ns ++ rest /\
        (rest = EmptyString \/ JS.startsWith "." rest = true) /\
        cls = pre ++ Legacy.el_name el /\
        (pre = EmptyString \/ endsWithChar "." pre = true)).
Proof.
  split.
  - intros item tag ps Htag Hne Hps.
    unfold Legacy.describe, Legacy.splitName. rewrite Htag, Hps.
    destruct tag as [|c tag]; [contradiction |].
    cbn [JS.truthy JS.nonEmpty bind].
    eexists. split; [reflexivity | split; reflexivity].
  - intros item cls ps Htag Hcls Hne Hps.
    destruct (legacy_class_split cls)
      as [first [last [rest [pre [Hfirst [Hlast Hfacts]]]]]].
    unfold Legacy.describe, Legacy.splitName. rewrite Htag, Hcls, Hps.
    destruct cls as [|c cls]; [contradiction |].
    cbn [bind]. rewrite Hfirst, Hlast.
    eexists. exists first, rest, pre.
    split; [reflexivity |]. cbn [Legacy.el_namespace Legacy.el_name].
    split; [reflexivity | exact Hfacts].
Qed.

Lemma legacy_name_and_namespace_witness :
  exists el ns rest pre,
    Legacy.describe
      (Legacy.mkItem "Behavior" (Some "Polymer.Shop.CartBehavior") None None
         (Some []))
    = Returns el /\
    Legacy.el_namespace el = Some ns /\
    hasChar "." ns = false /\
    hasChar "." (Legacy.el_name el) = false /\
    "Polymer.Shop.CartBehavior" = ns ++ rest /\
    (rest = EmptyString \/ JS.startsWith "." rest = true) /\
    "Polymer.Shop.CartBehavior" = pre ++ Legacy.el_name el /\
    (pre = EmptyString \/ endsWithChar "." pre = true).
Proof.
  exact (proj2 legacy_name_and_namespace
           (Legacy.mkItem "Behavior" (Some "Polymer.Shop.CartBehavior") None
              None (Some []))
           "Polymer.Shop.CartBehavior" [] eq_refl eq_refl
           ltac:(discriminate) eq_refl).
Defined.

(** ** When classification and rendering throw *)

Lemma mapM_throws {A B : Type} (f : A -> completion B) (l : list A) :
  mapM f l = Throws <-> Exists (fun a => f a = Throws) l.
Proof.
  induction l as [|a l IH]; cbn [mapM].
  - split; [discriminate | intros H; inversion H].
  - destruct (f a) as [b|] eqn:Ha; cbn [bind].
    + destruct (mapM f l) as [bs|]; cbn [bind].
      * split; [discriminate |]. intros H. inversion H; subst; [congruence |].
        apply IH in H1. discriminate H1.
      * split; [| reflexivity]. intros _. right. apply IH. reflexivity.
    + split; [| reflexivity]. intros _. left. exact Ha.
Qed.

(** The per-file classifier throws exactly when the feature has neither a
    non-empty class name nor a tag name, or has no list of properties;
    nothing else in a feature makes it throw. *)
Theorem perfile_classifier_throws_iff :
  forall feature : PerFile.Feature,
    PerFile.getFeatureDetails feature = Throws <->
    (JS.truthy (PerFile.className feature) = false /\
     PerFile.tagName feature = None) \/
    PerFile.properties feature = None.
Proof.
  intros feature. unfold PerFile.getFeatureDetails, PerFile.splitName.
  destruct (PerFile.className feature) as [[|c cls]|];
    destruct (PerFile.tagName feature) as [tag|];
    destruct (PerFile.properties feature) as [ps|];
    cbn [bind JS.truthy JS.nonEmpty];
    (split; [intros H; try discriminate H; tauto
            | intros [[H1 H2] | H]; try discriminate; reflexivity]).
Qed.

(** The combined classifier throws exactly when a public method, or a
    public property whose type is not [Conditional], cannot be printed:
    what is missing or malformed in filtered members never matters. *)
Theorem combined_classifier_throws_iff :
  forall feature : Combined.Feature,
    Combined.getFeatureDetails feature = Throws <->
    (exists ms, Combined.methods feature = Some ms /\
                Exists (fun m => Combined.printMethod m = Throws)
                  (filter Combined.keepMethod ms)) \/
    (exists ps, Combined.properties feature = Some ps /\
                Exists (fun p => Combined.printProperty p = Throws)
                  (filter Combined.keepProperty ps)).
Proof.
  intros feature. unfold Combined.getFeatureDetails.
  destruct (Combined.matchIdentifier _) as [namespace identifier].
  assert (Hprops : forall ps,
             filter Combined.notConditional
               (filter (fun p => Combined.isPublic (Combined.prop_privacy p))
                  ps)
             = filter Combined.keepProperty ps).
  { intros ps. rewrite filter_filter. reflexivity. }
  destruct (Combined.methods feature) as [ms|]; cbn [bind].
  - destruct (mapM Combined.printMethod (filter Combined.keepMethod ms))
      as [printedM|] eqn:HM; cbn [bind].
    + assert (HnoM : ~ Exists (fun m => Combined.printMethod m = Throws)
                       (filter Combined.keepMethod ms)).
      { intros H. apply mapM_throws in H. congruence. }
      destruct (Combined.properties feature) as [ps|]; cbn [bind].
      * rewrite Hprops.
        destruct (mapM Combined.printProperty (filter Combined.keepProperty ps))
          as [printedP|] eqn:HP; cbn [bind].
        -- split; [discriminate |].
           intros [[ms' [Hms H]] | [ps' [Hps H]]].
           ++ injection Hms as <-. contradiction.
           ++ injection Hps as <-. apply mapM_throws in H. congruence.
        -- split; [| reflexivity]. intros _. right. exists ps.
           split; [reflexivity | apply mapM_throws; exact HP].
      * split; [discriminate |].
        intros [[ms' [Hms H]] | [ps' [Hps _]]]; [| discriminate Hps].
        injection Hms as <-. contradiction.
    + split; [| reflexivity]. intros _. left. exists ms.
      split; [reflexivity | apply mapM_throws; exact HM].
  - destruct (Combined.properties feature) as [ps|]; cbn [bind].
    + rewrite Hprops.
      destruct (mapM Combined.printProperty (filter Combined.keepProperty ps))
        as [printedP|] eqn:HP; cbn [bind].
      * split; [discriminate |].
        intros [[ms' [Hms _]] | [ps' [Hps H]]]; [discriminate Hms |].
        injection Hps as <-. apply mapM_throws in H. congruence.
      * split; [| reflexivity]. intros _. right. exists ps.
        split; [reflexivity | apply mapM_throws; exact HP].
    + split; [discriminate |].
      intros [[ms' [Hms _]] | [ps' [Hps _]]]; discriminate.
Qed.




(** ** The header of a rendered module *)

Section Header.

Lemma replaceTabs_append (a b : string) :
  PerFile.replaceTabs (a ++ b)
  = PerFile.replaceTabs a ++ PerFile.replaceTabs b.
Proof.
  induction a as [|c a IH]; [reflexivity |].
  cbn [String.append PerFile.replaceTabs].
  destruct (Ascii.eqb c (ascii_of_nat 9)); rewrite IH; reflexivity.
Qed.

Lemma replaceTabs_plain (a : string) :
  hasChar (ascii_of_nat 9) a = false -> PerFile.replaceTabs a = a.
Proof.
  induction a as [|c a IH]; intros H; [reflexivity |].
  cbn [hasChar] in H. apply orb_false_iff in H. destruct H as [Hc Ha].
  cbn [PerFile.replaceTabs]. rewrite Hc, (IH Ha). reflexivity.
Qed.

Lemma not_space_not_nl (c : ascii) :
  JS.isSpace c = false -> Ascii.eqb c (ascii_of_nat 10) = false.
Proof.
  destruct c as [[] [] [] [] [] [] [] []]; vm_compute;
    first [reflexivity | discriminate].
Qed.

Lemma terminator_is_space (c : ascii) :
  JS.isSpace c = false -> JS.isLineTerminator c = false.
Proof.
  destruct c as [[] [] [] [] [] [] [] []]; vm_compute;
    first [reflexivity | discriminate].
Qed.

Lemma collapse_spaces (k : nat) :
  forall (p s : string),
    PerFile.collapse (Some p) (JS.spaces k ++ s)
    = PerFile.collapse (Some (p ++ JS.spaces k)) s.
Proof.
  induction k as [|k IH]; intros p s.
  - cbn [JS.spaces String.append]. rewrite append_nil_r. reflexivity.
  - cbn [JS.spaces String.append PerFile.collapse].
    change (Ascii.eqb " " (ascii_of_nat 10)) with false.
    change (JS.isSpace " ") with true. cbv iota.
    rewrite IH, append_assoc. reflexivity.
Qed.

Lemma collapse_mark (pending : option string) (c : ascii) (s : string) :
  JS.isSpace c = false ->
  PerFile.collapse pending (String c s)
  = PerFile.flush pending ++ String c (PerFile.collapse None s).
Proof.
  intros Hc. cbn [PerFile.collapse].
  rewrite (not_space_not_nl c Hc), Hc. reflexivity.
Qed.

Lemma collapse_text (t s : string) :
  hasChar (ascii_of_nat 10) t = false ->
  PerFile.collapse None (t ++ s) = t ++ PerFile.collapse None s.
Proof.
  induction t as [|c t IH]; intros H; [reflexivity |].
  cbn [hasChar] in H. apply orb_false_iff in H. destruct H as [Hc Ht].
  cbn [String.append PerFile.collapse]. rewrite Hc, (IH Ht).
  destruct (JS.isSpace c); reflexivity.
Qed.

Lemma collapse_pending_starts (s : string) :
  forall p, exists t, PerFile.collapse (Some p) s = JS.nl ++ t.
Proof.
  induction s as [|c s IH]; intros p.
  - exists p. reflexivity.
  - cbn [PerFile.collapse].
    destruct (Ascii.eqb c (ascii_of_nat 10)); [apply IH |].
    destruct (JS.isSpace c); [apply IH |].
    eexists. cbn [PerFile.flush]. rewrite append_assoc. reflexivity.
Qed.

Lemma trimEnd_after (a : string) (c : ascii) (z : string) :
  JS.isSpace c = false ->
  JS.trimEnd ((a ++ String c "") ++ z) = (a ++ String c "") ++ JS.trimEnd z.
Proof.
  intros Hc. induction a as [|x a IH].
  - cbn [String.append]. rewrite trimEnd_cons.
    change (JS.allSpace (String c z)) with (JS.isSpace c && JS.allSpace z).
    rewrite Hc. reflexivity.
  - cbn [String.append]. rewrite trimEnd_cons.
    change (JS.allSpace (String x ((a ++ String c "") ++ z)))
      with (JS.isSpace x && JS.allSpace ((a ++ String c "") ++ z)).
    rewrite allSpace_append, (allSpace_end a c Hc), andb_false_r, IH.
    reflexivity.
Qed.

Lemma indents_run (c : ascii) (w : string) (k : nat) :
  JS.isSpace c = false ->
  forall m,
    PerFile.indents (PerFile.InRun m false) (JS.spaces k ++ String c w)
    = (m + k) :: PerFile.indents PerFile.Inside w.
Proof.
  intros Hc. induction k as [|k IH]; intros m.
  - cbn [JS.spaces String.append PerFile.indents]. rewrite Hc.
    rewrite Nat.add_0_r. reflexivity.
  - cbn [JS.spaces String.append PerFile.indents].
    change (JS.isSpace " ") with true.
    change (JS.isLineTerminator " ") with false. cbv iota.
    rewrite IH. f_equal. lia.
Qed.

Lemma fold_min_le (l : list nat) : forall a, fold_left Nat.min l a <= a.
Proof.
  induction l as [|x l IH]; intros a; cbn [fold_left]; [lia |].
  specialize (IH (Nat.min a x)). lia.
Qed.

Lemma unindent_zero (s : string) :
  forall b, PerFile.unindent 0 0 b s = s.
Proof.
  induction s as [|c s IH]; intros b; [reflexivity |].
  cbn [PerFile.unindent]. change (Nat.ltb 0 0) with false.
  rewrite andb_false_r. cbn [andb]. rewrite IH. reflexivity.
Qed.

Lemma startsWith_spaces (n m : nat) (s : string) :
  n <= m -> JS.startsWith (JS.spaces n) (JS.spaces m ++ s) = true.
Proof.
  revert m. induction n as [|n IH]; intros m Hle; [reflexivity |].
  destruct m as [|m]; [lia |].
  cbn [JS.spaces String.append JS.startsWith].
  rewrite IH by lia. reflexivity.
Qed.

Lemma unindent_skip (n j : nat) :
  forall (m : nat) (s : string),
    j <= m ->
    PerFile.unindent n j false (JS.spaces m ++ s)
    = PerFile.unindent n 0 false (JS.spaces (m - j) ++ s).
Proof.
  induction j as [|j IH]; intros m s Hle.
  - rewrite Nat.sub_0_r. reflexivity.
  - destruct m as [|m]; [lia |].
    cbn [JS.spaces String.append PerFile.unindent].
    rewrite IH by lia. reflexivity.
Qed.

Lemma unindent_text (n : nat) (t s : string) :
  oneLine t = true ->
  PerFile.unindent n 0 false (t ++ s) = t ++ PerFile.unindent n 0 false s.
Proof.
  induction t as [|c t IH]; intros H; [reflexivity |].
  unfold oneLine in H. cbn [allChars] in H. apply andb_true_iff in H.
  destruct H as [Hc Ht]. apply negb_true_iff in Hc.
  cbn [String.append PerFile.unindent andb]. rewrite Hc, (IH Ht).
  reflexivity.
Qed.

Lemma oneLine_spaces (k : nat) : oneLine (JS.spaces k) = true.
Proof. induction k as [|k IH]; [reflexivity | exact IH]. Qed.

Lemma oneLine_append (a b : string) :
  oneLine (a ++ b) = oneLine a && oneLine b.
Proof.
  unfold oneLine. induction a as [|c a IH]; [reflexivity |].
  cbn [String.append allChars]. rewrite IH, andb_assoc. reflexivity.
Qed.

Lemma oneLine_no_nl (s : string) :
  oneLine s = true -> hasChar (ascii_of_nat 10) s = false.
Proof.
  unfold oneLine. induction s as [|c s IH]; intros H; [reflexivity |].
  cbn [allChars] in H. apply andb_true_iff in H. destruct H as [Hc Hs].
  cbn [hasChar]. rewrite (IH Hs), orb_false_r.
  destruct (Ascii.eqb c (ascii_of_nat 10)) eqn:E; [| reflexivity].
  apply Ascii.eqb_eq in E. subst c. discriminate Hc.
Qed.

Lemma matchModulePath_spaces (k : nat) (s : string) :
  PerFile.matchModulePath (JS.spaces k ++ s) = PerFile.matchModulePath s.
Proof.
  induction k as [|k IH]; [reflexivity |].
  cbn [JS.spaces String.append PerFile.matchModulePath].
  change (PerFile.modulePathAt (String " " (JS.spaces k ++ s))) with
    (@None string).
  exact IH.
Qed.

(** What [reindent] makes of a text that starts with a line feed, six
    spaces and a first line [head]: the first line, behind six spaces at
    most, then the rest. *)
Lemma reindent_head (head' rest : string) :
  oneLine head' = true ->
  hasChar (ascii_of_nat 9) head' = false ->
  exists k tail,
    PerFile.reindent (JS.nl ++ JS.spaces 6 ++ ("d" ++ head' ++ "{") ++ rest)
    = JS.spaces k ++ ("d" ++ head' ++ "{") ++ tail.
Proof.
  intros Hline Htab.
  set (head := "d" ++ head' ++ "{").
  assert (Hhead_line : oneLine head = true).
  { unfold head. rewrite !oneLine_append, Hline. reflexivity. }
  assert (Hhead_tab : hasChar (ascii_of_nat 9) head = false).
  { unfold head. rewrite !hasChar_append, Htab. reflexivity. }
  unfold PerFile.reindent.
  (* tabs *)
  rewrite !replaceTabs_append.
  rewrite (replaceTabs_plain head Hhead_tab).
  change (PerFile.replaceTabs JS.nl) with JS.nl.
  change (PerFile.replaceTabs (JS.spaces 6)) with (JS.spaces 6).
  set (rest1 := PerFile.replaceTabs rest).
  (* blank lines *)
  assert (Hcollapse : PerFile.collapse None
                        (JS.nl ++ JS.spaces 6 ++ head ++ rest1)
                      = JS.nl ++ JS.spaces 6 ++ head
                        ++ PerFile.collapse None rest1).
  { change (PerFile.collapse None (JS.nl ++ JS.spaces 6 ++ head ++ rest1))
      with (PerFile.collapse (Some EmptyString)
              (JS.spaces 6 ++ head ++ rest1)).
    rewrite collapse_spaces.
    change (head ++ rest1) with (String "d" ((head' ++ "{") ++ rest1)).
    rewrite collapse_mark by reflexivity.
    rewrite collapse_text
      by (rewrite hasChar_append, (oneLine_no_nl head' Hline); reflexivity).
    reflexivity. }
  rewrite Hcollapse.
  set (rest2 := PerFile.collapse None rest1).
  (* trimming *)
  assert (Htrim : PerFile.trimBlock (JS.nl ++ JS.spaces 6 ++ head ++ rest2)
                  = JS.spaces 6 ++ head ++ JS.trimEnd rest2).
  { change (PerFile.trimBlock (JS.nl ++ JS.spaces 6 ++ head ++ rest2))
      with (JS.trimEnd (JS.spaces 6 ++ head ++ rest2)).
    assert (E : forall z, JS.spaces 6 ++ head ++ z
                          = ((JS.spaces 6 ++ "d" ++ head') ++ "{") ++ z).
    { intros z. unfold head. rewrite !append_assoc. reflexivity. }
    rewrite (E rest2), (E (JS.trimEnd rest2)).
    apply trimEnd_after. reflexivity. }
  rewrite Htrim.
  set (rest3 := JS.trimEnd rest2).
  (* indentation *)
  set (str := JS.spaces 6 ++ head ++ rest3).
  assert (Hmin : PerFile.minimum (PerFile.indents PerFile.AtStart str) <= 6).
  { unfold str.
    change (PerFile.indents PerFile.AtStart (JS.spaces 6 ++ head ++ rest3))
      with (PerFile.indents (PerFile.InRun 1 false)
              (JS.spaces 5 ++ String "d" ((head' ++ "{") ++ rest3))).
    rewrite indents_run by reflexivity.
    cbn [PerFile.minimum]. apply fold_min_le. }
  remember (PerFile.minimum (PerFile.indents PerFile.AtStart str)) as n
    eqn:En. clear En.
  destruct n as [|n].
  - exists 6, rest3. apply unindent_zero.
  - exists (6 - S n), (PerFile.unindent (S n) 0 false rest3).
    unfold str.
    assert (Hstart : PerFile.unindent (S n) 0 true
                       (JS.spaces 6 ++ head ++ rest3)
                     = PerFile.unindent (S n) n false
                         (JS.spaces 5 ++ head ++ rest3)).
    { change (JS.spaces 6 ++ head ++ rest3)
        with (String " " (JS.spaces 5 ++ head ++ rest3)).
      cbn [PerFile.unindent].
      change (String " " (JS.spaces 5 ++ head ++ rest3))
        with (JS.spaces 6 ++ head ++ rest3).
      rewrite (startsWith_spaces (S n) 6 _ Hmin).
      change (Nat.ltb 0 (S n)) with true. cbn [andb].
      replace (S n - 1) with n by lia. reflexivity. }
    rewrite Hstart, unindent_skip by lia.
    replace (5 - n) with (6 - S n) by lia.
    rewrite <- (append_assoc (JS.spaces (6 - S n)) head rest3).
    rewrite unindent_text
      by (rewrite oneLine_append, oneLine_spaces, Hhead_line; reflexivity).
    rewrite append_assoc. reflexivity.
Qed.

End Header.

Section RenderedPath.

Lemma key_header (d : PerFile.Descriptor) (rest : string) :
  allChars PerFile.isPathChar (replaceRepo (PerFile.desc_module d)) = true ->
  PerFile.matchModulePath
    (PerFile.moduleHeader ++ PerFile.modulePath d ++ JS.dq ++ rest)
  = Some (replaceRepo (PerFile.desc_module d)).
Proof.
  intros Hpath. unfold PerFile.modulePath.
  destruct (JS.truthy (PerFile.desc_namespace d)).
  - rewrite !append_assoc.
    apply (modulePathAt_header _ "#" _ Hpath). reflexivity.
  - rewrite append_nil_r.
    apply (modulePathAt_header _ (ascii_of_nat 34) rest Hpath). reflexivity.
Qed.

Lemma moduleText_path (d : PerFile.Descriptor)
    (members : list PerFile.Descriptor) :
  plainKey d = true ->
  PerFile.matchModulePath (PerFile.moduleText (PerFile.modulePath d, members))
  = Some (replaceRepo (PerFile.desc_module d)).
Proof.
  unfold plainKey. intros H.
  apply andb_true_iff in H. destruct H as [H Htab].
  apply andb_true_iff in H. destruct H as [Hpath Hline].
  apply negb_true_iff in Htab.
  set (key := PerFile.modulePath d) in *.
  set (head' := "eclare module " ++ JS.dq ++ key ++ JS.dq ++ " ").
  assert (Hline' : oneLine head' = true).
  { unfold head'. rewrite !oneLine_append, Hline. reflexivity. }
  assert (Htab' : hasChar (ascii_of_nat 9) head' = false).
  { unfold head'. rewrite !hasChar_append, Htab. reflexivity. }
  unfold PerFile.moduleText. cbn [fst snd].
  set (rest := JS.nl ++ JS.spaces 6
               ++ JS.join JS.nl (map PerFile.interfaceText members)
               ++ JS.nl ++ JS.spaces 6 ++ "}").
  destruct (reindent_head head' rest Hline' Htab') as [k [tail Hre]].
  assert (Hsrc : JS.nl ++ JS.spaces 6 ++ "declare module " ++ JS.quoted key
                 ++ " {" ++ rest
                 = JS.nl ++ JS.spaces 6 ++ ("d" ++ head' ++ "{") ++ rest).
  { unfold head', JS.quoted. rewrite !append_assoc. reflexivity. }
  rewrite Hsrc, Hre, matchModulePath_spaces.
  assert (Hshape : ("d" ++ head' ++ "{") ++ tail
                   = PerFile.moduleHeader ++ key ++ JS.dq ++ " {" ++ tail).
  { unfold head', PerFile.moduleHeader. rewrite !append_assoc. reflexivity. }
  rewrite Hshape. apply key_header. exact Hpath.
Qed.

Lemma moduleText_splittable (d : PerFile.Descriptor)
    (members : list PerFile.Descriptor) :
  plainKey d = true ->
  pathOf (PerFile.moduleText (PerFile.modulePath d, members))
  = replaceRepo (PerFile.desc_module d) /\
  splittable (PerFile.moduleText (PerFile.modulePath d, members))
  = JS.includes ".html" (replaceRepo (PerFile.desc_module d)).
Proof.
  intros Hkey. unfold pathOf, splittable.
  rewrite (moduleText_path d members Hkey). split; reflexivity.
Qed.

(** X22 (src/unnamed/part_000, buildModules and reindent, lines 109-136):
    the text rendered for a module, once re-indented, still shows the
    module key in its header, so that the splitter reads in it the
    rewritten source file of the module, whatever the members are: the key
    only has to hold no tabulation and no line break, and the file path no
    double quote and no hash. *)
Theorem rendered_module_shows_path :
  forall (d : PerFile.Descriptor) (members : list PerFile.Descriptor),
    plainKey d = true ->
    pathOf (PerFile.moduleText (PerFile.modulePath d, members))
    = replaceRepo (PerFile.desc_module d) /\
    splittable (PerFile.moduleText (PerFile.modulePath d, members))
    = JS.includes ".html" (replaceRepo (PerFile.desc_module d)).
Proof.
  intros d members Hkey. unfold pathOf, splittable.
  rewrite (moduleText_path d members Hkey). split; reflexivity.
Qed.

Lemma rendered_module_shows_path_witness :
  pathOf (PerFile.moduleText
            (PerFile.modulePath SourceSamples.page, [SourceSamples.page]))
  = "src/app-element.html" /\
  splittable (PerFile.moduleText
                (PerFile.modulePath SourceSamples.script,
                 [SourceSamples.script]))
  = false.
Proof.
  split.
  - exact (proj1 (rendered_module_shows_path SourceSamples.page
                    [SourceSamples.page] eq_refl)).
  - exact (proj2 (rendered_module_shows_path SourceSamples.script
                    [SourceSamples.script] eq_refl)).
Defined.

(** X23 (src/unnamed/part_000, toModulesMap, buildModules and
    splitModulesToFiles, lines 95-145): grouping the described features,
    rendering the modules and splitting them into files throws exactly when
    one of the features comes from a source file whose rewritten path holds
    no [.html], a script for one; the keys are taken to hold no tabulation
    and no line break, and the paths no double quote and no hash. *)
Theorem perfile_split_needs_html :
  forall ds : list PerFile.Descriptor,
    forallb plainKey ds = true ->
    (PerFile.splitModulesToFiles
       (PerFile.buildModules (PerFile.toModulesMap ds)) = Throws
     <-> existsb fromScript ds = true).
Proof.
  intros ds Hplain.
  pose proof (proj1 (forallb_forall _ _) Hplain) as Hkey.
  destruct (groupBy_partition PerFile.modulePath ds)
    as [_ [Hbucket [Hcover [Hsame _]]]].
  fold (PerFile.toModulesMap ds) in Hbucket, Hcover, Hsame.
  assert (Hthrows : PerFile.splitModulesToFiles
                      (PerFile.buildModules (PerFile.toModulesMap ds))
                    = Throws
                    <-> forallb splittable
                          (PerFile.buildModules (PerFile.toModulesMap ds))
                        = false).
  { unfold PerFile.splitModulesToFiles. split.
    - intros H.
      destruct (forallb splittable
                  (PerFile.buildModules (PerFile.toModulesMap ds)))
        eqn:Hall; [| reflexivity].
      destruct (splitInto_returns _ [] Hall (Forall_nil _))
        as [filesMap [Hsplit _]].
      congruence.
    - intros Hall. apply splitInto_throws; [exact Hall | constructor]. }
  rewrite Hthrows. unfold PerFile.buildModules. split.
  - intros Hall. apply existsb_exists.
    destruct (forallb splittable (map PerFile.moduleText
                                    (PerFile.toModulesMap ds)))
      eqn:E; [discriminate |]. clear Hall.
    apply not_true_iff_false in E.
    destruct (existsb fromScript ds) eqn:Hex.
    + apply existsb_exists in Hex. exact Hex.
    + exfalso. apply E. apply forallb_forall. intros block Hin.
      apply in_map_iff in Hin. destruct Hin as [[k b] [Hblock Hin]].
      subst block. destruct (Hbucket k b Hin) as [Hne Hb].
      destruct b as [|d b']; [contradiction |].
      assert (Hd : In d (d :: b')) by (left; reflexivity).
      pose proof (Hsame d k _ Hin Hd) as Hk.
      assert (Hds : In d ds).
      { rewrite Hb in Hd. unfold under in Hd.
        apply filter_In in Hd. exact (proj1 Hd). }
      rewrite Hk.
      rewrite (proj2 (moduleText_splittable d (d :: b')
                        (Hkey d Hds))).
      destruct (fromScript d) eqn:Hno.
      * assert (Hyes : existsb fromScript ds = true)
          by (apply existsb_exists; exists d; split; assumption).
        congruence.
      * unfold fromScript in Hno. apply negb_false_iff in Hno. exact Hno.
  - intros Hex. apply existsb_exists in Hex. destruct Hex as [d [Hds Hno]].
    destruct (Hcover d Hds) as [b [Hin _]].
    apply not_true_iff_false. intros Hall.
    pose proof (proj1 (forallb_forall _ _) Hall
                  (PerFile.moduleText (PerFile.modulePath d, b))
                  (in_map _ _ _ Hin)) as Hsplit.
    rewrite (proj2 (moduleText_splittable d b (Hkey d Hds)))
      in Hsplit.
    unfold fromScript in Hno. rewrite Hsplit in Hno. discriminate Hno.
Qed.

Lemma perfile_split_needs_html_witness :
  PerFile.splitModulesToFiles
    (PerFile.buildModules
       (PerFile.toModulesMap [SourceSamples.page; SourceSamples.script]))
  = Throws.
Proof.
  apply (proj2 (perfile_split_needs_html
                  [SourceSamples.page; SourceSamples.script] eq_refl)).
  reflexivity.
Defined.

(** X24 (src/unnamed/part_000, toModulesMap, buildModules and
    splitModulesToFiles, lines 95-145): when the per-file pipeline returns,
    the files map has one entry for each rewritten source path of the
    described features and no other, and the entry of a feature's source
    holds the rendered module of the feature: the namespaces of one source
    file end up, module by module, under the same entry.  The keys are
    taken to hold no tabulation and no line break, and the paths no double
    quote and no hash. *)
Theorem perfile_one_entry_per_source :
  forall (ds : list PerFile.Descriptor)
         (filesMap : list (string * PerFile.FileInfo)),
    forallb plainKey ds = true ->
    PerFile.splitModulesToFiles
      (PerFile.buildModules (PerFile.toModulesMap ds)) = Returns filesMap ->
    NoDup (map fst filesMap) /\
    (forall path,
        In path (map fst filesMap)
        <-> In path (map (fun d => replaceRepo (PerFile.desc_module d)) ds)) /\
    (forall d, In d ds ->
               exists info members,
                 In (replaceRepo (PerFile.desc_module d), info) filesMap /\
                 In d members /\
                 In (PerFile.moduleText (PerFile.modulePath d, members))
                    (PerFile.modules info)).
Proof.
  intros ds filesMap Hplain Hsplit.
  pose proof (proj1 (forallb_forall _ _) Hplain) as Hkey.
  destruct (groupBy_partition PerFile.modulePath ds)
    as [_ [Hbucket [Hcover [Hsame _]]]].
  fold (PerFile.toModulesMap ds) in Hbucket, Hcover, Hsame.
  set (blocks := PerFile.buildModules (PerFile.toModulesMap ds)) in *.
  unfold PerFile.splitModulesToFiles in Hsplit.
  destruct (forallb splittable blocks) eqn:Hall.
  2: { rewrite (splitInto_throws blocks [] Hall (Forall_nil _)) in Hsplit.
       discriminate Hsplit. }
  destruct (splitInto_returns blocks [] Hall (Forall_nil _))
    as [filesMap' [Hsplit' [Hblocks _]]].
  rewrite Hsplit in Hsplit'. injection Hsplit' as <-.
  change (fold_left (fun m b => bucketPush (pathOf b) b m) blocks (blocksOf []))
    with (groupBy pathOf blocks) in Hblocks.
  destruct (groupBy_partition pathOf blocks)
    as [Hnd [Hfile [Hplaced [Hread _]]]].
  rewrite <- Hblocks in Hnd, Hfile, Hplaced, Hread.
  assert (Hkeys : map fst (blocksOf filesMap) = map fst filesMap).
  { unfold blocksOf. rewrite map_map. reflexivity. }
  rewrite Hkeys in Hnd.
  (* every block is the module of a feature, and shows its source *)
  assert (Hblock : forall block,
             In block blocks ->
             exists d, In d ds /\
                       pathOf block = replaceRepo (PerFile.desc_module d)).
  { intros block Hin. unfold blocks, PerFile.buildModules in Hin.
    apply in_map_iff in Hin. destruct Hin as [[k b] [Hb Hin]]. subst block.
    destruct (Hbucket k b Hin) as [Hne Hunder].
    destruct b as [|d b']; [contradiction |].
    assert (Hd : In d (d :: b')) by (left; reflexivity).
    pose proof (Hsame d k _ Hin Hd) as Hk.
    assert (Hds : In d ds).
    { rewrite Hunder in Hd. unfold under in Hd.
      apply filter_In in Hd. exact (proj1 Hd). }
    exists d. split; [exact Hds |]. rewrite Hk.
    exact (proj1 (moduleText_splittable d (d :: b') (Hkey d Hds))). }
  (* every feature has its module among the blocks, under its source *)
  assert (Hfeature : forall d,
             In d ds ->
             exists info members,
               In (replaceRepo (PerFile.desc_module d), info) filesMap /\
               In d members /\
               In (PerFile.moduleText (PerFile.modulePath d, members))
                  (PerFile.modules info)).
  { intros d Hds. destruct (Hcover d Hds) as [members [Hin Hd]].
    set (block := PerFile.moduleText (PerFile.modulePath d, members)).
    assert (Hb : In block blocks).
    { unfold blocks, PerFile.buildModules.
      exact (in_map PerFile.moduleText _ _ Hin). }
    destruct (Hplaced block Hb) as [b [Hentry Hblockin]].
    unfold blocksOf in Hentry. apply in_map_iff in Hentry.
    destruct Hentry as [[path info] [Heq Hentry]].
    cbn [fst snd] in Heq. injection Heq as Hpath Hmods.
    exists info, members. split; [| split; [exact Hd |]].
    - rewrite <- (proj1 (moduleText_splittable d members (Hkey d Hds))).
      fold block. rewrite <- Hpath. exact Hentry.
    - rewrite Hmods. exact Hblockin. }
  split; [exact Hnd | split; [| exact Hfeature]].
  intros path. split.
  - intros Hin. rewrite <- Hkeys in Hin. apply in_map_iff in Hin.
    destruct Hin as [[k b] [Hk Hin]]. cbn [fst] in Hk. subst k.
    destruct (Hfile path b Hin) as [Hne Hunder].
    destruct b as [|block b']; [contradiction |].
    assert (Hb : In block (block :: b')) by (left; reflexivity).
    pose proof (Hread block path _ Hin Hb) as Hpath.
    assert (Hblocks' : In block blocks).
    { rewrite Hunder in Hb. unfold under in Hb.
      apply filter_In in Hb. exact (proj1 Hb). }
    destruct (Hblock block Hblocks') as [d [Hds Hd]].
    apply in_map_iff. exists d. split; [congruence | exact Hds].
  - intros Hin. apply in_map_iff in Hin. destruct Hin as [d [Hpath Hds]].
    destruct (Hfeature d Hds) as [info [_ [Hentry _]]].
    apply in_map_iff. exists (replaceRepo (PerFile.desc_module d), info).
    split; [exact Hpath | exact Hentry].
Qed.

Lemma perfile_one_entry_per_source_witness :
  exists filesMap,
    PerFile.splitModulesToFiles
      (PerFile.buildModules
         (PerFile.toModulesMap [SourceSamples.page; SourceSamples.bare]))
    = Returns filesMap /\
    map fst filesMap = ["src/app-element.html"] /\
    NoDup (map fst filesMap).
Proof.
  destruct (PerFile.splitModulesToFiles
              (PerFile.buildModules
                 (PerFile.toModulesMap
                    [SourceSamples.page; SourceSamples.bare])))
    as [filesMap|] eqn:E.
  - exists filesMap. split; [reflexivity |]. split.
    + pose proof E as E'. vm_compute in E'. injection E' as <-. reflexivity.
    + exact (proj1 (perfile_one_entry_per_source
                      [SourceSamples.page; SourceSamples.bare] filesMap
                      eq_refl E)).
  - vm_compute in E. discriminate E.
Defined.

End RenderedPath.
